(** * nnVisualiser: the numerical engine (Neuron, Layer, NeuralNetwork)

    A shallow embedding of [src/core/Neuron.cpp], [src/core/Layer.cpp] and
    [src/core/NeuralNetwork.cpp] together with the activation and loss
    libraries they call, followed by the properties of the engine.

    Conventions of the embedding.
    - The classes are templates over the numeric type [T]; the embedding is
      generic over a [Scalar T] instance and the C library functions
      ([Libm T]).  [NeuralNetwork<double>] is the instance on binary64.
    - A member function that mutates [*this] takes the object and returns the
      new one.  [std::vector] is [list]; [v[i]] with [i >= v.size()] is
      undefined behaviour ([Undefined]).
    - [NNV_ASSERT] depends on the build: [assert] when [NDEBUG] is not
      defined, nothing otherwise (include/utils/Common.hpp). *)

From Stdlib Require Import String Floats.
From Stdlib Require Import List ZArith NArith Bool Lia PeanoNat Permutation.
Import ListNotations.

Set Implicit Arguments.
#[local] Set Warnings "-inexact-float,-register-all".

(** ** Outcomes of a call *)

Inductive Outcome (A : Type) : Type :=
| Ok (a : A)            (* the call returns *)
| Thrown (what : string) (* a C++ exception leaves the call *)
| AssertFailed          (* [assert] failed: the process aborts *)
| Undefined             (* undefined behaviour *)
| OutOfFuel             (* the loop did not finish within the given fuel *)
| Unmodelled.           (* an enum object holding a value that names no enumerator *)

Arguments Ok {A} a.
Arguments Thrown {A} what.
Arguments AssertFailed {A}.
Arguments Undefined {A}.
Arguments OutOfFuel {A}.
Arguments Unmodelled {A}.

Definition bind {A B : Type} (m : Outcome A) (k : A -> Outcome B) : Outcome B :=
  match m with
  | Ok a => k a
  | Thrown w => Thrown w
  | AssertFailed => AssertFailed
  | Undefined => Undefined
  | OutOfFuel => OutOfFuel
  | Unmodelled => Unmodelled
  end.

Notation "x <- m ;; k" := (bind m (fun x => k))
  (at level 61, m at next level, right associativity).
Notation "' p <- m ;; k" := (bind m (fun p => k))
  (at level 61, p pattern, m at next level, right associativity).
Notation "m ;;; k" := (bind m (fun _ => k))
  (at level 61, right associativity).


(** A call that also acts on a state [S]. *)
Definition StateM (S A : Type) : Type := S -> Outcome (A * S).

Definition ret {S A : Type} (a : A) : StateM S A := fun s => Ok (a, s).
Definition bindM {S A B : Type} (m : StateM S A) (k : A -> StateM S B) : StateM S B :=
  fun s => r <- m s ;; k (fst r) (snd r).
Definition lift {S A : Type} (o : Outcome A) : StateM S A :=
  fun s => a <- o ;; Ok (a, s).

Notation "x <~ m ;; k" := (bindM m (fun x => k))
  (at level 61, m at next level, right associativity).
Notation "m ;~ k" := (bindM m (fun _ => k))
  (at level 61, right associativity).

(** [NNV_ASSERT(condition)] *)
Inductive BuildMode : Type := Debug | Release.

Definition NNV_ASSERT (mode : BuildMode) (condition : bool) : Outcome unit :=
  match mode with
  | Debug => if condition then Ok tt else AssertFailed
  | Release => Ok tt
  end.

(** [v[i]] on a [std::vector] *)
Definition at_ {A : Type} (v : list A) (i : nat) : Outcome A :=
  match nth_error v i with
  | Some x => Ok x
  | None => Undefined
  end.

(** Monadic map over a vector, left to right. *)
Fixpoint mapM {A B : Type} (f : A -> Outcome B) (l : list A) : Outcome (list B) :=
  match l with
  | [] => Ok []
  | x :: xs => y <- f x ;; ys <- mapM f xs ;; Ok (y :: ys)
  end.

(** ** The numeric type [T] *)

Class Scalar (T : Type) : Type := {
  of_double : float -> T;       (* [T{c}] for a literal [c]; [static_cast<T>(double)] *)
  to_double : T -> float;       (* the value as nlohmann's [number_float_t] *)
  of_Z : Z -> T;                (* [static_cast<T>] of an integer *)
  add : T -> T -> T;
  sub : T -> T -> T;
  mul : T -> T -> T;
  div : T -> T -> T;
  opp : T -> T;
  ltb : T -> T -> bool;         (* [operator<] *)
  leb : T -> T -> bool;         (* [operator<=] *)
  eqb : T -> T -> bool;         (* [operator==] *)
  abs : T -> T;                 (* [std::abs] *)
(* float and double values are doubles: widening then narrowing is exact *)
of_to_double : forall x : T, of_double (to_double x) = x
}.

(** [std::exp], [std::tanh], [std::log], [std::pow] *)
Class Libm (T : Type) : Type := {
  std_exp : T -> T;
  std_tanh : T -> T;
  std_log : T -> T;
  std_pow : T -> T -> T
}.

(** [std::sqrt] *)
Class Sqrt (T : Type) : Type := {
  std_sqrt : T -> T
}.

Section ScalarOps.
Context {T : Type} `{Scalar T}.

Definition zero : T := of_double 0%float.
Definition one : T := of_double 1%float.
Definition gtb (x y : T) : bool := ltb y x.
(** [std::max(a, b)] is [(a < b) ? b : a]; [std::min(a, b)] is [(b < a) ? b : a]. *)
Definition max (a b : T) : T := if ltb a b then b else a.
Definition min (a b : T) : T := if ltb b a then b else a.
(** [static_cast<T>(n)] for a [std::size_t] *)
Definition of_size (n : nat) : T := of_Z (Z.of_nat n).

(** [std::distance(v.begin(), std::max_element(v.begin(), v.end()))]:
    the index of the first largest element, [0] for an empty range. *)
Fixpoint max_element_from (best : T) (besti : nat) (i : nat) (v : list T) : nat :=
  match v with
  | [] => besti
  | x :: xs =>
      if ltb best x then max_element_from x i (S i) xs
      else max_element_from best besti (S i) xs
  end.

Definition max_element (v : list T) : nat :=
  match v with
  | [] => 0%nat
  | x :: xs => max_element_from x 0%nat 1%nat xs
  end.
End ScalarOps.

(** ** binary64 *)

Definition double_of_Z (z : Z) : float :=
  SF2Prim (binary_normalize prec emax z 0 false).

#[export] Instance Scalar_double : Scalar float := {
  of_double := fun d => d;
  to_double := fun d => d;
  of_Z := double_of_Z;
  add := PrimFloat.add;
  sub := PrimFloat.sub;
  mul := PrimFloat.mul;
  div := PrimFloat.div;
  opp := PrimFloat.opp;
  ltb := PrimFloat.ltb;
  leb := PrimFloat.leb;
  eqb := PrimFloat.eqb;
  abs := PrimFloat.abs;
  of_to_double := fun x => eq_refl
}.

(** The conversion of a binary64 value to [Scalar = float] (binary32,
    include/core/Types.hpp): the nearest binary32 value, ties to even, an
    infinity beyond the range, as IEC 559 implementations give it.  The
    result is held as the binary64 value it is. *)
Definition narrow (d : float) : float :=
  match Prim2SF d with
  | S754_finite s m e =>
      SF2Prim (binary_normalize 24 128 (if s then Z.neg m else Z.pos m) e s)
  | _ => d
  end.

(** A [T] passed where a [Scalar] is expected.  For [T = float] nothing
    changes: [to_double] of a binary32 value is that value. *)
Definition toScalar {T : Type} `{Scalar T} (x : T) : float := narrow (to_double x).

(** ** Enumerations (include/core/Types.hpp)

    The ordinals are the values [static_cast<int>] gives; they are part of
    the persisted document. *)

Module ActivationType.
Inductive t : Type :=
| None | ReLU | Sigmoid | Tanh | LeakyReLU | ELU | Swish | GELU | Softmax.

Definition to_int (a : t) : Z :=
  match a with
  | None => 0 | ReLU => 1 | Sigmoid => 2 | Tanh => 3 | LeakyReLU => 4
  | ELU => 5 | Swish => 6 | GELU => 7 | Softmax => 8
  end%Z.

Definition of_int (z : Z) : option t :=
  match z with
  | 0 => Some None | 1 => Some ReLU | 2 => Some Sigmoid | 3 => Some Tanh
  | 4 => Some LeakyReLU | 5 => Some ELU | 6 => Some Swish | 7 => Some GELU
  | 8 => Some Softmax | _ => Datatypes.None
  end%Z.

Definition is_softmax (a : t) : bool :=
  match a with Softmax => true | _ => false end.
End ActivationType.

Module OptimizerType.
Inductive t : Type := SGD | Adam | RMSprop | AdaGrad.

Definition to_int (o : t) : Z :=
  match o with SGD => 0 | Adam => 1 | RMSprop => 2 | AdaGrad => 3 end%Z.

Definition of_int (z : Z) : option t :=
  match z with
  | 0 => Some SGD | 1 => Some Adam | 2 => Some RMSprop | 3 => Some AdaGrad
  | _ => None
  end%Z.
End OptimizerType.

Module LossType.
Inductive t : Type :=
| MeanSquaredError | CrossEntropy | BinaryCrossEntropy | Huber | FocalLoss.

Definition to_int (l : t) : Z :=
  match l with
  | MeanSquaredError => 0 | CrossEntropy => 1 | BinaryCrossEntropy => 2
  | Huber => 3 | FocalLoss => 4
  end%Z.

Definition of_int (z : Z) : option t :=
  match z with
  | 0 => Some MeanSquaredError | 1 => Some CrossEntropy
  | 2 => Some BinaryCrossEntropy | 3 => Some Huber | 4 => Some FocalLoss
  | _ => None
  end%Z.
End LossType.

Module InitializationType.
Inductive t : Type := Random | Xavier | He | Zero | One.
End InitializationType.

(** The configuration structs.  Their numeric members are of type
    [Scalar = float]; a [float] value is a binary64 value, held here as
    such. *)

Module TrainingConfig.
Record t : Type := mk {
  learning_rate : float;
  batch_size : N;
  epochs : N;
  validation_split : float;
  shuffle : bool;
  early_stopping_patience : N;
  early_stopping_min_delta : float
}.
End TrainingConfig.

Module LayerConfig.
Record t : Type := mk {
  size : nat;
  activation : ActivationType.t;
  dropout_rate : float;
  weight_init : InitializationType.t;
  name : string;
  trainable : bool
}.
End LayerConfig.

Module NetworkConfig.
Record t : Type := mk {
  layers : list LayerConfig.t;
  optimizer : OptimizerType.t;
  loss : LossType.t;
  training : TrainingConfig.t;
  name : string
}.
End NetworkConfig.

(** ** Activation functions (include/core/ActivationFunctions.hpp) *)

Module activation.
Section WithScalar.
Context {T : Type} `{Scalar T} `{Libm T}.

Definition linear (x : T) : T := x.
Definition linearDerivative (x : T) : T := one.

Definition relu (x : T) : T := max zero x.
Definition reluDerivative (x : T) : T := if gtb x zero then one else zero.

Definition leakyRelu (x alpha : T) : T :=
  if gtb x zero then x else mul alpha x.
Definition leakyReluDerivative (x alpha : T) : T :=
  if gtb x zero then one else alpha.

Definition sigmoid (x : T) : T :=
  let x := max (of_double (-500)%float) (min (of_double 500%float) x) in
  div one (add one (std_exp (opp x))).
Definition sigmoidDerivative (x : T) : T :=
  let s := sigmoid x in mul s (sub one s).

Definition tanh (x : T) : T := std_tanh x.
Definition tanhDerivative (x : T) : T :=
  let t := std_tanh x in sub one (mul t t).

Definition elu (x alpha : T) : T :=
  if gtb x zero then x else mul alpha (sub (std_exp x) one).
Definition eluDerivative (x alpha : T) : T :=
  if gtb x zero then one else mul alpha (std_exp x).

Definition swish (x : T) : T := mul x (sigmoid x).
Definition swishDerivative (x : T) : T :=
  let s := sigmoid x in
  let sw := mul x s in
  add sw (mul s (sub one sw)).

Definition gelu (x : T) : T :=
  let sqrt_2_over_pi : T := of_double 0.7978845608028654%float in
  let coeff : T := of_double 0.044715%float in
  let x_cubed := mul (mul x x) x in
  mul (mul (of_double 0.5%float) x)
      (add one (std_tanh (mul sqrt_2_over_pi (add x (mul coeff x_cubed))))).

Definition geluDerivative (x : T) : T :=
  let sqrt_2_over_pi : T := of_double 0.7978845608028654%float in
  let coeff : T := of_double 0.044715%float in
  let x_squared := mul x x in
  let x_cubed := mul x_squared x in
  let inner := mul sqrt_2_over_pi (add x (mul coeff x_cubed)) in
  let tanh_inner := std_tanh inner in
  let sech_squared := sub one (mul tanh_inner tanh_inner) in
  add (mul (of_double 0.5%float) (add one tanh_inner))
      (mul (mul (mul (mul (of_double 0.5%float) x) sech_squared) sqrt_2_over_pi)
           (add one (mul (mul (of_double 3%float) coeff) x_squared))).

(** [softmax]: [*std::max_element] of an empty vector dereferences [end()]. *)
Definition softmax (x : list T) : Outcome (list T) :=
  match x with
  | [] => Undefined
  | _ :: _ =>
      let max_val := nth (max_element x) x zero in
      let result := map (fun xi => std_exp (sub xi max_val)) x in
      let sum := fold_left add result zero in
      Ok (map (fun r => div r sum) result)
  end.

(** [softmaxDerivative(x, i, j)] reads [sm[i]] and [sm[j]]. *)
Definition softmaxDerivative (x : list T) (i j : nat) : Outcome T :=
  sm <- softmax x ;;
  if Nat.eqb i j then
    smi <- at_ sm i ;;
    Ok (mul smi (sub one smi))
  else
    smi <- at_ sm i ;;
    smj <- at_ sm j ;;
    Ok (mul (opp smi) smj).
End WithScalar.
End activation.

Module ActivationFactory.
Section WithScalar.
Context {T : Type} `{Scalar T} `{Libm T}.

Definition getFunction (type : ActivationType.t) : T -> T :=
  match type with
  | ActivationType.None => activation.linear
  | ActivationType.ReLU => activation.relu
  | ActivationType.Sigmoid => activation.sigmoid
  | ActivationType.Tanh => activation.tanh
  | ActivationType.LeakyReLU =>
      fun x => activation.leakyRelu x (of_double 0.01%float)
  | ActivationType.ELU => fun x => activation.elu x one
  | ActivationType.Swish => activation.swish
  | ActivationType.GELU => activation.gelu
  | ActivationType.Softmax => activation.linear
  end.

Definition getDerivative (type : ActivationType.t) : T -> T :=
  match type with
  | ActivationType.None => activation.linearDerivative
  | ActivationType.ReLU => activation.reluDerivative
  | ActivationType.Sigmoid => activation.sigmoidDerivative
  | ActivationType.Tanh => activation.tanhDerivative
  | ActivationType.LeakyReLU =>
      fun x => activation.leakyReluDerivative x (of_double 0.01%float)
  | ActivationType.ELU => fun x => activation.eluDerivative x one
  | ActivationType.Swish => activation.swishDerivative
  | ActivationType.GELU => activation.geluDerivative
  | ActivationType.Softmax => activation.linearDerivative
  end.
End WithScalar.
End ActivationFactory.

(** ** Loss functions (include/core/LossFunctions.hpp) *)

Module loss.
Section WithScalar.
Context {T : Type} `{Scalar T} `{Libm T}.

(** The gradient loops run [i] over [outputs.size()] and read
    [targets[i]]: a read past the end of [targets] is undefined. *)
Fixpoint zipOutputs {B : Type} (f : T -> T -> B) (outputs targets : list T)
  : Outcome (list B) :=
  match outputs with
  | [] => Ok []
  | o :: os =>
      match targets with
      | [] => Undefined
      | t :: ts => r <- zipOutputs f os ts ;; Ok (f o t :: r)
      end
  end.

(** The loss loops run only behind [outputs.size() == targets.size()]. *)
Definition accumulate (step : T -> T -> T -> T) (outputs targets : list T) : T :=
  fold_left (fun loss ot => step loss (fst ot) (snd ot)) (combine outputs targets) zero.

Definition same_size (outputs targets : list T) : bool :=
  Nat.eqb (length outputs) (length targets).

Definition epsilon : T := of_double 1e-15%float.
Definition clamp (o : T) : T := max epsilon (min (sub one epsilon) o).

Definition meanSquaredError (outputs targets : list T) : T :=
  if negb (same_size outputs targets) then zero
  else
    let loss := accumulate (fun loss o t =>
                  let diff := sub o t in add loss (mul diff diff)) outputs targets in
    div loss (of_size (length outputs)).

Definition meanSquaredErrorGradient (outputs targets : list T) : Outcome (list T) :=
  zipOutputs (fun o t =>
    div (mul (of_double 2%float) (sub o t)) (of_size (length outputs))) outputs targets.

Definition crossEntropy (outputs targets : list T) : T :=
  if negb (same_size outputs targets) then zero
  else
    accumulate (fun loss o t =>
      let clampedOutput := clamp o in
      sub loss (mul t (std_log clampedOutput))) outputs targets.

Definition crossEntropyGradient (outputs targets : list T) : Outcome (list T) :=
  zipOutputs (fun o t => let clampedOutput := clamp o in
    div (opp t) clampedOutput) outputs targets.

Definition binaryCrossEntropy (outputs targets : list T) : T :=
  if negb (same_size outputs targets) then zero
  else
    let loss := accumulate (fun loss o t =>
      let clampedOutput := clamp o in
      sub loss (add (mul t (std_log clampedOutput))
                    (mul (sub one t) (std_log (sub one clampedOutput)))))
      outputs targets in
    div loss (of_size (length outputs)).

Definition binaryCrossEntropyGradient (outputs targets : list T) : Outcome (list T) :=
  zipOutputs (fun o t =>
    let clampedOutput := clamp o in
    let g := div (sub clampedOutput t) (mul clampedOutput (sub one clampedOutput)) in
    div g (of_size (length outputs))) outputs targets.

Definition huberLoss (outputs targets : list T) (delta : T) : T :=
  if negb (same_size outputs targets) then zero
  else
    let loss := accumulate (fun loss o t =>
      let diff := abs (sub o t) in
      if leb diff delta
      then add loss (mul (mul (of_double 0.5%float) diff) diff)
      else add loss (sub (mul delta diff) (mul (mul (of_double 0.5%float) delta) delta)))
      outputs targets in
    div loss (of_size (length outputs)).

Definition huberLossGradient (outputs targets : list T) (delta : T) : Outcome (list T) :=
  zipOutputs (fun o t =>
    let diff := sub o t in
    let absDiff := abs diff in
    let g := if leb absDiff delta then diff
             else mul delta (if gtb diff zero then one else of_double (-1)%float) in
    div g (of_size (length outputs))) outputs targets.

Definition focalLoss (outputs targets : list T) (alpha gamma : T) : T :=
  if negb (same_size outputs targets) then zero
  else
    let loss := accumulate (fun loss o t =>
      let clampedOutput := clamp o in
      let pt := add (mul t clampedOutput) (mul (sub one t) (sub one clampedOutput)) in
      let logPt := std_log pt in
      sub loss (mul (mul alpha (std_pow (sub one pt) gamma)) logPt))
      outputs targets in
    div loss (of_size (length outputs)).

Definition focalLossGradient (outputs targets : list T) (alpha gamma : T)
  : Outcome (list T) :=
  zipOutputs (fun o t =>
    let clampedOutput := clamp o in
    let pt := add (mul t clampedOutput) (mul (sub one t) (sub one clampedOutput)) in
    let factor1 := mul alpha (std_pow (sub one pt) gamma) in
    let factor2 := mul (mul gamma (std_pow (sub one pt) (sub gamma one))) (std_log pt) in
    let g := if eqb t one
             then add (div (opp factor1) clampedOutput) factor2
             else sub (div factor1 (sub one clampedOutput)) factor2 in
    div g (of_size (length outputs))) outputs targets.
End WithScalar.
End loss.

Module LossFactory.
Section WithScalar.
Context {T : Type} `{Scalar T} `{Libm T}.

Definition getFunction (type : LossType.t) : list T -> list T -> T :=
  match type with
  | LossType.MeanSquaredError => loss.meanSquaredError
  | LossType.CrossEntropy => loss.crossEntropy
  | LossType.BinaryCrossEntropy => loss.binaryCrossEntropy
  | LossType.Huber => fun outputs targets => loss.huberLoss outputs targets one
  | LossType.FocalLoss =>
      fun outputs targets => loss.focalLoss outputs targets one (of_double 2%float)
  end.

Definition getGradient (type : LossType.t) : list T -> list T -> Outcome (list T) :=
  match type with
  | LossType.MeanSquaredError => loss.meanSquaredErrorGradient
  | LossType.CrossEntropy => loss.crossEntropyGradient
  | LossType.BinaryCrossEntropy => loss.binaryCrossEntropyGradient
  | LossType.Huber => fun outputs targets => loss.huberLossGradient outputs targets one
  | LossType.FocalLoss =>
      fun outputs targets =>
        loss.focalLossGradient outputs targets one (of_double 2%float)
  end.
End WithScalar.
End LossFactory.

(** ** JSON values

    [nlohmann::json] is a third-party library; this is the part of its
    documented behaviour that [toJson] and [fromJson] use.  An object is
    kept as an association list with one entry per key. *)

Module Json.
Inductive t : Type :=
| null
| boolean (b : bool)
| number_integer (z : Z)
| number_unsigned (n : N)
| number_float (d : float)
| string (s : String.string)
| array (l : list t)
| object (m : list (String.string * t)).

Fixpoint lookup (m : list (String.string * t)) (key : String.string) : option t :=
  match m with
  | [] => None
  | (k, v) :: r => if String.eqb k key then Some v else lookup r key
  end.

Fixpoint insert (m : list (String.string * t)) (key : String.string) (v : t)
  : list (String.string * t) :=
  match m with
  | [] => [(key, v)]
  | (k, x) :: r =>
      if String.eqb k key then (k, v) :: r else (k, x) :: insert r key v
  end.

(** [j.contains(key)]: false on anything but an object. *)
Definition contains (j : t) (key : String.string) : bool :=
  match j with
  | object m => match lookup m key with Some _ => true | None => false end
  | _ => false
  end.

(** [j[key]] on a const value: the key must be there. *)
Definition at_key (j : t) (key : String.string) : Outcome t :=
  match j with
  | object m => match lookup m key with Some v => Ok v | None => Undefined end
  | _ => Undefined
  end.

(** [j[key] = v]: a null value becomes an object first. *)
Definition set (j : t) (key : String.string) (v : t) : Outcome t :=
  match j with
  | null => Ok (object [(key, v)])
  | object m => Ok (object (insert m key v))
  | _ => Thrown "type_error.305"
  end.

Definition is_array (j : t) : bool :=
  match j with array _ => true | _ => false end.

(** The elements a range-based [for] visits. *)
Definition items (j : t) : list t :=
  match j with
  | array l => l
  | object m => map snd m
  | null => []
  | _ => [j]
  end.

(** [static_cast] of a double to an integer type: truncation, undefined
    when the truncated value is not representable. *)
Definition trunc (d : float) : option Z :=
  match Prim2SF d with
  | S754_zero _ => Some 0%Z
  | S754_finite s m e =>
      let mag := if (0 <=? e)%Z then (Z.pos m * 2 ^ e)%Z
                 else (Z.pos m / 2 ^ (- e))%Z in
      Some (if s then (- mag)%Z else mag)
  | _ => None
  end.

Definition wrap_int (z : Z) : Z := ((z + 2 ^ 31) mod 2 ^ 32 - 2 ^ 31)%Z.
Definition wrap_size (z : Z) : N := Z.to_N (z mod 2 ^ 64).

Definition get_bool (j : t) : Outcome bool :=
  match j with
  | boolean b => Ok b
  | _ => Thrown "type_error.302"
  end.

Definition get_string (j : t) : Outcome String.string :=
  match j with
  | string s => Ok s
  | _ => Thrown "type_error.302"
  end.

(** [get<int>()] *)
Definition get_int (j : t) : Outcome Z :=
  match j with
  | number_integer z => Ok (wrap_int z)
  | number_unsigned n => Ok (wrap_int (Z.of_N n))
  | number_float d =>
      match trunc d with
      | Some z => if ((- 2 ^ 31 <=? z) && (z <? 2 ^ 31))%Z then Ok z else Undefined
      | None => Undefined
      end
  | boolean b => Ok (if b then 1 else 0)%Z
  | _ => Thrown "type_error.302"
  end.

(** [get<std::size_t>()] *)
Definition get_size (j : t) : Outcome N :=
  match j with
  | number_unsigned n => Ok n
  | number_integer z => Ok (wrap_size z)
  | number_float d =>
      match trunc d with
      | Some z => if ((0 <=? z) && (z <? 2 ^ 64))%Z then Ok (Z.to_N z) else Undefined
      | None => Undefined
      end
  | _ => Thrown "type_error.302"
  end.

(** [if (json.contains(key)) { member = json[key].get<...>(); }] *)
Definition field {V O : Type} (json : t) (key : String.string)
  (get : t -> Outcome V) (assign : O -> V -> Outcome O) (self : O) : Outcome O :=
  if contains json key
  then j <- at_key json key ;; v <- get j ;; assign self v
  else Ok self.

Section WithScalar.
Context {T : Type} `{Scalar T}.

(** [json = x] for a [T]: stored as [number_float_t]. *)
Definition of_scalar (x : T) : t := number_float (to_double x).

(** [get<T>()] *)
Definition get_scalar (j : t) : Outcome T :=
  match j with
  | number_float d => Ok (of_double d)
  | number_integer z => Ok (of_Z z)
  | number_unsigned n => Ok (of_Z (Z.of_N n))
  | _ => Thrown "type_error.302"
  end.

(** [json = v] and [get<std::vector<T>>()] *)
Definition of_vector (v : list T) : t := array (map of_scalar v).

Definition get_vector (j : t) : Outcome (list T) :=
  match j with
  | array l => mapM get_scalar l
  | _ => Thrown "type_error.302"
  end.
End WithScalar.
End Json.

(** ** Neuron (include/core/Neuron.hpp, src/core/Neuron.cpp) *)

Module Neuron.
Record t (T : Type) : Type := mk {
  id_ : N;
  activation_ : T;
  bias_ : T;
  weightedInput_ : T;
  gradient_ : T;
  delta_ : T;
  trainable_ : bool;
  name_ : string;
  inputWeights_ : list T
}.

Section WithScalar.
Context {T : Type} `{Scalar T}.

(** [Neuron(NeuronIndex id = 0)] *)
Definition make (id : N) : t T := mk id zero zero zero zero zero true "" [].

Definition setId (n : t T) (id : N) : t T :=
  mk id (activation_ n) (bias_ n) (weightedInput_ n) (gradient_ n) (delta_ n)
     (trainable_ n) (name_ n) (inputWeights_ n).
Definition setActivation (n : t T) (activation : T) : t T :=
  mk (id_ n) activation (bias_ n) (weightedInput_ n) (gradient_ n) (delta_ n)
     (trainable_ n) (name_ n) (inputWeights_ n).
Definition setBias (n : t T) (bias : T) : t T :=
  mk (id_ n) (activation_ n) bias (weightedInput_ n) (gradient_ n) (delta_ n)
     (trainable_ n) (name_ n) (inputWeights_ n).
Definition setWeightedInput (n : t T) (input : T) : t T :=
  mk (id_ n) (activation_ n) (bias_ n) input (gradient_ n) (delta_ n)
     (trainable_ n) (name_ n) (inputWeights_ n).
Definition setGradient (n : t T) (gradient : T) : t T :=
  mk (id_ n) (activation_ n) (bias_ n) (weightedInput_ n) gradient (delta_ n)
     (trainable_ n) (name_ n) (inputWeights_ n).
Definition setDelta (n : t T) (delta : T) : t T :=
  mk (id_ n) (activation_ n) (bias_ n) (weightedInput_ n) (gradient_ n) delta
     (trainable_ n) (name_ n) (inputWeights_ n).
Definition setTrainable (n : t T) (trainable : bool) : t T :=
  mk (id_ n) (activation_ n) (bias_ n) (weightedInput_ n) (gradient_ n) (delta_ n)
     trainable (name_ n) (inputWeights_ n).
Definition setName (n : t T) (name : string) : t T :=
  mk (id_ n) (activation_ n) (bias_ n) (weightedInput_ n) (gradient_ n) (delta_ n)
     (trainable_ n) name (inputWeights_ n).
Definition setInputWeights (n : t T) (weights : list T) : t T :=
  mk (id_ n) (activation_ n) (bias_ n) (weightedInput_ n) (gradient_ n) (delta_ n)
     (trainable_ n) (name_ n) weights.

(** The accessors of the input weights (include/core/Neuron.hpp) *)
Definition addInputWeight (n : t T) (weight : T) : t T :=
  setInputWeights n (inputWeights_ n ++ [weight]).

Definition getInputWeight (n : t T) (index : nat) : T :=
  if Nat.ltb index (length (inputWeights_ n))
  then nth index (inputWeights_ n) zero
  else zero.

Definition setInputWeight (n : t T) (index : nat) (weight : T) : t T :=
  if Nat.ltb index (length (inputWeights_ n))
  then setInputWeights n
         (firstn index (inputWeights_ n) ++ weight :: skipn (S index) (inputWeights_ n))
  else n.

Definition getInputCount (n : t T) : nat := length (inputWeights_ n).

Definition clearInputWeights (n : t T) : t T := setInputWeights n [].

Definition reset (n : t T) : t T :=
  setDelta (setGradient (setWeightedInput (setActivation n zero) zero) zero) zero.

Definition applyActivation (n : t T) (activationFunc : T -> T) : t T :=
  setActivation n (activationFunc (add (weightedInput_ n) (bias_ n))).

Definition computeActivationDerivative (n : t T) (derivativeFunc : T -> T) : T :=
  derivativeFunc (add (weightedInput_ n) (bias_ n)).

Definition toJson (n : t T) : Outcome Json.t :=
  json <- Json.set Json.null "id" (Json.number_unsigned (id_ n)) ;;
  json <- Json.set json "activation" (Json.of_scalar (activation_ n)) ;;
  json <- Json.set json "bias" (Json.of_scalar (bias_ n)) ;;
  json <- Json.set json "weighted_input" (Json.of_scalar (weightedInput_ n)) ;;
  json <- Json.set json "gradient" (Json.of_scalar (gradient_ n)) ;;
  json <- Json.set json "delta" (Json.of_scalar (delta_ n)) ;;
  json <- Json.set json "trainable" (Json.boolean (trainable_ n)) ;;
  json <- Json.set json "name" (Json.string (name_ n)) ;;
  json <- Json.set json "input_weights" (Json.of_vector (inputWeights_ n)) ;;
  Ok json.

Definition fromJson (json : Json.t) (n : t T) : Outcome (t T) :=
  n <- Json.field json "id" Json.get_size (fun n v => Ok (setId n v)) n ;;
  n <- Json.field json "activation" Json.get_scalar (fun n v => Ok (setActivation n v)) n ;;
  n <- Json.field json "bias" Json.get_scalar (fun n v => Ok (setBias n v)) n ;;
  n <- Json.field json "weighted_input" Json.get_scalar
         (fun n v => Ok (setWeightedInput n v)) n ;;
  n <- Json.field json "gradient" Json.get_scalar (fun n v => Ok (setGradient n v)) n ;;
  n <- Json.field json "delta" Json.get_scalar (fun n v => Ok (setDelta n v)) n ;;
  n <- Json.field json "trainable" Json.get_bool (fun n v => Ok (setTrainable n v)) n ;;
  n <- Json.field json "name" Json.get_string (fun n v => Ok (setName n v)) n ;;
  n <- Json.field json "input_weights" Json.get_vector
         (fun n v => Ok (setInputWeights n v)) n ;;
  Ok n.
End WithScalar.
End Neuron.

(** ** Layer (include/core/Layer.hpp, src/core/Layer.cpp)

    [activationFunc_] and [activationDerivFunc_] are not fields here: every
    place that assigns [activationType_] calls [updateActivationFunctions],
    so they are [ActivationFactory.getFunction activationType_] and
    [ActivationFactory.getDerivative activationType_] throughout. *)

Module Layer.
Record t (T : Type) : Type := mk {
  neurons_ : list (Neuron.t T);
  name_ : string;
  activationType_ : ActivationType.t;
  dropoutRate_ : T;
  trainable_ : bool;
  dropoutMask_ : list bool
}.

Section WithScalar.
Context {T : Type} `{Scalar T} `{Libm T}.
Variable mode : BuildMode.
(** The values drawn from [dist(gen)] in [applyDropout], in the order
    they are drawn. *)
Variable uniform01 : nat -> T.
(** The values the weight initialisers draw from a
    [std::uniform_real_distribution<T>(a, b)] and from a
    [std::normal_distribution<T>(mean, stddev)], by the number of the draw.
    The parameters a distribution is built with are taken to meet its
    preconditions. *)
Context `{Sqrt T}.
Variable uniformReal : T -> T -> nat -> T.
Variable normalReal : T -> T -> nat -> T.

Definition setNeurons (l : t T) (neurons : list (Neuron.t T)) : t T :=
  mk neurons (name_ l) (activationType_ l) (dropoutRate_ l) (trainable_ l)
     (dropoutMask_ l).
Definition setName (l : t T) (name : string) : t T :=
  mk (neurons_ l) name (activationType_ l) (dropoutRate_ l) (trainable_ l)
     (dropoutMask_ l).
Definition setActivationType (l : t T) (type : ActivationType.t) : t T :=
  mk (neurons_ l) (name_ l) type (dropoutRate_ l) (trainable_ l) (dropoutMask_ l).
(** direct assignment to [dropoutRate_] (the public setter clamps) *)
Definition assignDropoutRate (l : t T) (rate : T) : t T :=
  mk (neurons_ l) (name_ l) (activationType_ l) rate (trainable_ l) (dropoutMask_ l).
Definition setDropoutRate (l : t T) (rate : T) : t T :=
  assignDropoutRate l (max zero (min one rate)).
Definition setTrainable (l : t T) (trainable : bool) : t T :=
  mk (neurons_ l) (name_ l) (activationType_ l) (dropoutRate_ l) trainable
     (dropoutMask_ l).
Definition setDropoutMask (l : t T) (mask : list bool) : t T :=
  mk (neurons_ l) (name_ l) (activationType_ l) (dropoutRate_ l) (trainable_ l) mask.

(** [initializeNeuronIds] *)
Fixpoint initializeNeuronIds (i : N) (neurons : list (Neuron.t T))
  : list (Neuron.t T) :=
  match neurons with
  | [] => []
  | n :: ns => Neuron.setId n i :: initializeNeuronIds (N.succ i) ns
  end.

(** [Layer(size, activation, name)], the defaults being [ReLU] and [""] *)
Definition make (size : nat) (activation : ActivationType.t) (name : string) : t T :=
  mk (initializeNeuronIds 0%N (repeat (Neuron.make 0%N) size))
     name activation zero true (repeat true size).

(** [Layer(const LayerConfig& config)] *)
Definition fromConfig (config : LayerConfig.t) : t T :=
  mk (initializeNeuronIds 0%N (repeat (Neuron.make 0%N) (LayerConfig.size config)))
     (LayerConfig.name config) (LayerConfig.activation config)
     (of_double (LayerConfig.dropout_rate config)) (LayerConfig.trainable config)
     (repeat true (LayerConfig.size config)).

Definition getSize (l : t T) : nat := length (neurons_ l).

Definition getActivations (l : t T) : list T :=
  map (@Neuron.activation_ T) (neurons_ l).

Definition getBiases (l : t T) : list T :=
  map (@Neuron.bias_ T) (neurons_ l).

Definition getWeightMatrix (l : t T) : list (list T) :=
  map (@Neuron.inputWeights_ T) (neurons_ l).

(** [for (i = 0; i < neurons_.size(); ++i) neurons_[i].set(values[i]);] *)
Fixpoint assignEach {V : Type} (set : Neuron.t T -> V -> Neuron.t T)
  (neurons : list (Neuron.t T)) (values : list V) : Outcome (list (Neuron.t T)) :=
  match neurons with
  | [] => Ok []
  | n :: ns =>
      match values with
      | [] => Undefined
      | v :: vs => r <- assignEach set ns vs ;; Ok (set n v :: r)
      end
  end.

Definition setActivations (l : t T) (activations : list T) : Outcome (t T) :=
  NNV_ASSERT mode (Nat.eqb (length activations) (length (neurons_ l))) ;;;
  ns <- assignEach Neuron.setActivation (neurons_ l) activations ;;
  Ok (setNeurons l ns).

Definition setBiases (l : t T) (biases : list T) : Outcome (t T) :=
  NNV_ASSERT mode (Nat.eqb (length biases) (length (neurons_ l))) ;;;
  ns <- assignEach Neuron.setBias (neurons_ l) biases ;;
  Ok (setNeurons l ns).

Definition setWeightMatrix (l : t T) (weights : list (list T)) : Outcome (t T) :=
  NNV_ASSERT mode (Nat.eqb (length weights) (length (neurons_ l))) ;;;
  ns <- assignEach Neuron.setInputWeights (neurons_ l) weights ;;
  Ok (setNeurons l ns).

(** [std::vector<T> weights(n); for (auto& weight : weights) weight = dist(gen);]
    where draw number [k] of [dist(gen)] is [dist k]: the weights and the
    number of the next draw. *)
Fixpoint drawWeights (dist : nat -> T) (n k : nat) : list T * nat :=
  match n with
  | O => ([], k)
  | S n => let r := drawWeights dist n (S k) in (dist k :: fst r, snd r)
  end.

(** The loop over the units that [initializeXavier], [initializeHe] and
    [initializeRandom] share: every unit gets [prevLayerSize] drawn
    weights; its bias is drawn after them ([initializeRandom]) or set to
    [T{0}]. *)
Fixpoint drawUnits (dist : nat -> T) (drawBias : bool) (prevLayerSize : nat)
  (neurons : list (Neuron.t T)) (k : nat) : list (Neuron.t T) * nat :=
  match neurons with
  | [] => ([], k)
  | neuron :: rest =>
      let weights := drawWeights dist prevLayerSize k in
      let bias := if drawBias then (dist (snd weights), S (snd weights))
                  else (zero, snd weights) in
      let neuron := Neuron.setBias (Neuron.setInputWeights neuron (fst weights))
                                   (fst bias) in
      let r := drawUnits dist drawBias prevLayerSize rest (snd bias) in
      (neuron :: fst r, snd r)
  end.

(** [T{6} / (prevLayerSize + neurons_.size())]: the sum is a [std::size_t]. *)
Definition initializeXavier (l : t T) (prevLayerSize k : nat) : t T * nat :=
  let fan := ((N.of_nat prevLayerSize + N.of_nat (length (neurons_ l))) mod 2 ^ 64)%N in
  let limit := std_sqrt (div (of_double 6%float) (of_Z (Z.of_N fan))) in
  let r := drawUnits (uniformReal (opp limit) limit) false prevLayerSize (neurons_ l) k in
  (setNeurons l (fst r), snd r).

Definition initializeHe (l : t T) (prevLayerSize k : nat) : t T * nat :=
  let stddev := std_sqrt (div (of_double 2%float) (of_size prevLayerSize)) in
  let r := drawUnits (normalReal zero stddev) false prevLayerSize (neurons_ l) k in
  (setNeurons l (fst r), snd r).

Definition initializeRandom (l : t T) (prevLayerSize k : nat) : t T * nat :=
  let r := drawUnits (uniformReal (of_double (-1)%float) one) true prevLayerSize
             (neurons_ l) k in
  (setNeurons l (fst r), snd r).

(** [neuron.setInputWeights(std::vector<T>(prevLayerSize, c)); neuron.setBias(c);] *)
Definition initializeConstant (l : t T) (prevLayerSize : nat) (c : T) : t T :=
  setNeurons l
    (map (fun neuron =>
            Neuron.setBias (Neuron.setInputWeights neuron (repeat c prevLayerSize)) c)
         (neurons_ l)).

(** [initializeWeights(prevLayerSize, initType)], drawing from number [k]
    on; the default of [initType] is [Xavier]. *)
Definition initializeWeights (l : t T) (prevLayerSize : nat)
  (initType : InitializationType.t) (k : nat) : t T * nat :=
  match initType with
  | InitializationType.Xavier => initializeXavier l prevLayerSize k
  | InitializationType.He => initializeHe l prevLayerSize k
  | InitializationType.Random => initializeRandom l prevLayerSize k
  | InitializationType.Zero => (initializeConstant l prevLayerSize zero, k)
  | InitializationType.One => (initializeConstant l prevLayerSize one, k)
  end.

(** The inner loop of [forward]:
    [for (i = 0; i < inputs.size(); ++i) weightedSum += inputs[i] * weights[i];] *)
Fixpoint weightedSum (inputs weights : list T) (acc : T) : Outcome T :=
  match inputs with
  | [] => Ok acc
  | x :: xs =>
      match weights with
      | [] => Undefined
      | w :: ws => weightedSum xs ws (add acc (mul x w))
      end
  end.

Definition forwardNeuron (inputs : list T) (neuron : Neuron.t T)
  : Outcome (Neuron.t T) :=
  let weights := Neuron.inputWeights_ neuron in
  NNV_ASSERT mode (Nat.eqb (length weights) (length inputs)) ;;;
  s <- weightedSum inputs weights zero ;;
  Ok (Neuron.setWeightedInput neuron s).

Definition forward (l : t T) (inputs : list T) : Outcome (t T) :=
  NNV_ASSERT mode (negb (Nat.eqb (length (neurons_ l)) 0)) ;;;
  ns <- mapM (forwardNeuron inputs) (neurons_ l) ;;
  Ok (setNeurons l ns).

Definition applyActivation (l : t T) : Outcome (t T) :=
  if ActivationType.is_softmax (activationType_ l) then
    let weightedInputs :=
      map (fun neuron => add (Neuron.weightedInput_ neuron) (Neuron.bias_ neuron))
          (neurons_ l) in
    softmaxOutputs <- activation.softmax weightedInputs ;;
    ns <- assignEach Neuron.setActivation (neurons_ l) softmaxOutputs ;;
    Ok (setNeurons l ns)
  else
    Ok (setNeurons l
          (map (fun neuron =>
                  Neuron.applyActivation neuron
                    (ActivationFactory.getFunction (activationType_ l)))
               (neurons_ l))).

(** The loop of [applyDropout] over [dropoutMask_], drawing from index [k]:
    returns the mask, the neurons and the next index. *)
Fixpoint dropoutLoop (keepProb : T) (mask : list bool) (neurons : list (Neuron.t T))
  (k : nat) : Outcome (list bool * list (Neuron.t T) * nat) :=
  match mask with
  | [] => Ok ([], neurons, k)
  | _ :: ms =>
      match neurons with
      | [] => Undefined
      | n :: ns =>
          let keep := ltb (uniform01 k) keepProb in
          let n' := if keep
                    then Neuron.setActivation n (div (Neuron.activation_ n) keepProb)
                    else Neuron.setActivation n zero in
          r <- dropoutLoop keepProb ms ns (S k) ;;
          Ok (keep :: fst (fst r), n' :: snd (fst r), snd r)
      end
  end.

Definition applyDropout (training : bool) (l : t T) (k : nat) : Outcome (t T * nat) :=
  if negb training || leb (dropoutRate_ l) zero then
    Ok (setDropoutMask l (map (fun _ => true) (dropoutMask_ l)), k)
  else
    let keepProb := sub one (dropoutRate_ l) in
    r <- dropoutLoop keepProb (dropoutMask_ l) (neurons_ l) k ;;
    Ok (setDropoutMask (setNeurons l (snd (fst r))) (fst (fst r)), snd r).

(** The inner loop of [computeGradients] for neuron [i]. *)
Fixpoint weightedDeltas (i : nat) (nextLayerDeltas : list T)
  (nextLayerWeights : list (list T)) (delta : T) : Outcome T :=
  match nextLayerDeltas with
  | [] => Ok delta
  | d :: ds =>
      match nextLayerWeights with
      | [] => Undefined
      | w :: ws =>
          NNV_ASSERT mode (Nat.ltb i (length w)) ;;;
          wi <- at_ w i ;;
          weightedDeltas i ds ws (add delta (mul d wi))
      end
  end.

Fixpoint gradientLoop (derivFunc : T -> T) (nextLayerDeltas : list T)
  (nextLayerWeights : list (list T)) (i : nat) (neurons : list (Neuron.t T))
  : Outcome (list (Neuron.t T)) :=
  match neurons with
  | [] => Ok []
  | n :: ns =>
      delta <- weightedDeltas i nextLayerDeltas nextLayerWeights zero ;;
      let activationDeriv := Neuron.computeActivationDerivative n derivFunc in
      let n' := Neuron.setDelta n (mul delta activationDeriv) in
      r <- gradientLoop derivFunc nextLayerDeltas nextLayerWeights (S i) ns ;;
      Ok (n' :: r)
  end.

Definition computeGradients (l : t T) (nextLayerDeltas : list T)
  (nextLayerWeights : list (list T)) : Outcome (t T) :=
  NNV_ASSERT mode (Nat.eqb (length nextLayerDeltas) (length nextLayerWeights)) ;;;
  ns <- gradientLoop (ActivationFactory.getDerivative (activationType_ l))
          nextLayerDeltas nextLayerWeights 0 (neurons_ l) ;;
  Ok (setNeurons l ns).

(** The inner loop of [updateWeights]:
    [weights[i] -= learningRate * delta * prevLayerActivations[i];] *)
Fixpoint updatedWeights (learningRate delta : T) (weights prevLayerActivations : list T)
  : Outcome (list T) :=
  match weights with
  | [] => Ok []
  | w :: ws =>
      match prevLayerActivations with
      | [] => Undefined
      | a :: acts =>
          r <- updatedWeights learningRate delta ws acts ;;
          Ok (sub w (mul (mul learningRate delta) a) :: r)
      end
  end.

Definition updateNeuron (learningRate : T) (prevLayerActivations : list T)
  (neuron : Neuron.t T) : Outcome (Neuron.t T) :=
  let weights := Neuron.inputWeights_ neuron in
  NNV_ASSERT mode (Nat.eqb (length weights) (length prevLayerActivations)) ;;;
  let delta := Neuron.delta_ neuron in
  weights <- updatedWeights learningRate delta weights prevLayerActivations ;;
  let bias := sub (Neuron.bias_ neuron) (mul learningRate delta) in
  Ok (Neuron.setBias (Neuron.setInputWeights neuron weights) bias).

Definition updateWeights (l : t T) (learningRate : T) (prevLayerActivations : list T)
  : Outcome (t T) :=
  if negb (trainable_ l) then Ok l
  else
    ns <- mapM (updateNeuron learningRate prevLayerActivations) (neurons_ l) ;;
    Ok (setNeurons l ns).

Definition reset (l : t T) : t T :=
  setDropoutMask (setNeurons l (map Neuron.reset (neurons_ l)))
                 (map (fun _ => true) (dropoutMask_ l)).

Definition toJson (l : t T) : Outcome Json.t :=
  json <- Json.set Json.null "name" (Json.string (name_ l)) ;;
  json <- Json.set json "size" (Json.number_unsigned (N.of_nat (length (neurons_ l)))) ;;
  json <- Json.set json "activation_type"
            (Json.number_integer (ActivationType.to_int (activationType_ l))) ;;
  json <- Json.set json "dropout_rate" (Json.of_scalar (dropoutRate_ l)) ;;
  json <- Json.set json "trainable" (Json.boolean (trainable_ l)) ;;
  neurons <- mapM Neuron.toJson (neurons_ l) ;;
  json <- Json.set json "neurons" (Json.array neurons) ;;
  Ok json.

(** [v.resize(n, true)] *)
Definition resize (v : list bool) (n : nat) : list bool :=
  firstn n v ++ repeat true (n - length v).

Definition fromJson (json : Json.t) (l : t T) : Outcome (t T) :=
  l <- Json.field json "name" Json.get_string (fun l v => Ok (setName l v)) l ;;
  l <- Json.field json "activation_type" Json.get_int
         (fun l v => match ActivationType.of_int v with
                     | Some a => Ok (setActivationType l a)
                     | None => Unmodelled
                     end) l ;;
  l <- Json.field json "dropout_rate" Json.get_scalar
         (fun l v => Ok (assignDropoutRate l v)) l ;;
  l <- Json.field json "trainable" Json.get_bool
         (fun l v => Ok (setTrainable l v)) l ;;
  if Json.contains json "neurons" then
    arr <- Json.at_key json "neurons" ;;
    if Json.is_array arr then
      neurons <- mapM (fun neuronJson => Neuron.fromJson neuronJson (Neuron.make 0%N))
                   (Json.items arr) ;;
      Ok (setDropoutMask (setNeurons l neurons)
            (resize (dropoutMask_ l) (length neurons)))
    else Ok l
  else Ok l.
End WithScalar.
End Layer.

(** ** NeuralNetwork (include/core/NeuralNetwork.hpp, src/core/NeuralNetwork.cpp)

    [lossFunction_] and [lossGradientFunction_] are
    [LossFactory.getFunction lossType_] and [LossFactory.getGradient lossType_]:
    every assignment to [lossType_] is followed by [updateLossFunction]. *)

Inductive LogLevel : Type := LogDebug | LogInfo | LogWarning | LogError | LogCritical.

Module NeuralNetwork.
Record t (T : Type) : Type := mk {
  name_ : string;
  layers_ : list (Layer.t T);
  learningRate_ : T;
  lossType_ : LossType.t;
  optimizerType_ : OptimizerType.t;
  isTraining_ : bool;
  shouldStop_ : bool;
  trainingProgress_ : T
}.

(** What a member function acts on: the network, the calls made to the
    logger so far (level and format string), and the number of values
    drawn from the random generators so far. *)
Record state (T : Type) : Type := mkState {
  self : t T;
  logged : list (LogLevel * string);
  drawn : nat
}.

Record TrainingHistory (T : Type) : Type := mkHistory {
  trainLoss : list T;
  trainAccuracy : list T;
  valLoss : list T;
  valAccuracy : list T
}.

(** Calls of [stopTraining()] that reach a running [train] from another
    thread.  [shouldStop_] is a [std::atomic<bool>] that the body of the
    epoch loop neither reads nor writes, so a call is placed by the stores
    and loads of [train] it falls between:
    - [stopBeforeReset]: after [isTraining_.store(true)] and before
      [shouldStop_.store(false)];
    - [stopAfterReset]: after [shouldStop_.store(false)] and before the
      loop condition is first evaluated;
    - [stopDuringEpoch e]: after the loop condition was evaluated for epoch
      [e] and before it is evaluated for epoch [e + 1]; the call is made to
      land first thing in the body, the whole of epoch [e] still ahead. *)
Record StopSchedule : Type := mkSchedule {
  stopBeforeReset : bool;
  stopAfterReset : bool;
  stopDuringEpoch : nat -> bool
}.

Section WithScalar.
Context {T : Type} `{Scalar T} `{Libm T}.
Variable mode : BuildMode.
Variable uniform01 : nat -> T.
(** The integers [std::shuffle] draws from its generator, in order. *)
Variable randomIndex : nat -> nat.
(** The values the weight initialisers draw, as in [Layer]. *)
Context `{Sqrt T}.
Variable uniformReal : T -> T -> nat -> T.
Variable normalReal : T -> T -> nat -> T.

Definition M (A : Type) : Type := StateM (state T) A.

Definition get : M (t T) := fun s => Ok (self s, s).
Definition modify (f : t T -> t T) : M unit :=
  fun s => Ok (tt, mkState (f (self s)) (logged s) (drawn s)).
Definition NNV_LOG (level : LogLevel) (msg : string) : M unit :=
  fun s => Ok (tt, mkState (self s) (logged s ++ [(level, msg)]) (drawn s)).
(** A computation that draws random values, starting at [drawn]. *)
Definition drawing {A : Type} (f : nat -> Outcome (A * nat)) : M A :=
  fun s => r <- f (drawn s) ;; Ok (fst r, mkState (self s) (logged s) (snd r)).

Definition setLayers (n : t T) (layers : list (Layer.t T)) : t T :=
  mk (name_ n) layers (learningRate_ n) (lossType_ n) (optimizerType_ n)
     (isTraining_ n) (shouldStop_ n) (trainingProgress_ n).
Definition setName (n : t T) (name : string) : t T :=
  mk name (layers_ n) (learningRate_ n) (lossType_ n) (optimizerType_ n)
     (isTraining_ n) (shouldStop_ n) (trainingProgress_ n).
Definition setLearningRate (n : t T) (learningRate : T) : t T :=
  mk (name_ n) (layers_ n) learningRate (lossType_ n) (optimizerType_ n)
     (isTraining_ n) (shouldStop_ n) (trainingProgress_ n).
Definition setLossType (n : t T) (lossType : LossType.t) : t T :=
  mk (name_ n) (layers_ n) (learningRate_ n) lossType (optimizerType_ n)
     (isTraining_ n) (shouldStop_ n) (trainingProgress_ n).
Definition setOptimizerType (n : t T) (optimizerType : OptimizerType.t) : t T :=
  mk (name_ n) (layers_ n) (learningRate_ n) (lossType_ n) optimizerType
     (isTraining_ n) (shouldStop_ n) (trainingProgress_ n).
Definition storeIsTraining (n : t T) (b : bool) : t T :=
  mk (name_ n) (layers_ n) (learningRate_ n) (lossType_ n) (optimizerType_ n)
     b (shouldStop_ n) (trainingProgress_ n).
Definition storeShouldStop (n : t T) (b : bool) : t T :=
  mk (name_ n) (layers_ n) (learningRate_ n) (lossType_ n) (optimizerType_ n)
     (isTraining_ n) b (trainingProgress_ n).
Definition storeTrainingProgress (n : t T) (p : T) : t T :=
  mk (name_ n) (layers_ n) (learningRate_ n) (lossType_ n) (optimizerType_ n)
     (isTraining_ n) (shouldStop_ n) p.

(** [NeuralNetwork(name)] *)
Definition make (name : string) : t T :=
  mk name [] (of_double 0.001%float) LossType.MeanSquaredError OptimizerType.Adam
     false false zero.

Definition getLayerCount (n : t T) : nat := length (layers_ n).
Definition isTraining (n : t T) : bool := isTraining_ n.
Definition getTrainingProgress (n : t T) : T := trainingProgress_ n.
Definition stopTraining (n : t T) : t T := storeShouldStop n true.

(** [getLayer(index)] *)
Definition getLayer (n : t T) (index : nat) : Outcome (Layer.t T) :=
  NNV_ASSERT mode (Nat.ltb index (length (layers_ n))) ;;;
  at_ (layers_ n) index.

(** [addLayer(std::unique_ptr<Layer<T>> layer)] *)
Definition addLayer (layer : Layer.t T) : M unit :=
  n <~ get ;;
  layer <~ (if negb (Nat.eqb (length (layers_ n)) 0) then
              drawing (fun k =>
                Ok (Layer.initializeWeights uniformReal normalReal layer
                      (Layer.getSize (last (layers_ n) layer))
                      InitializationType.Xavier k))
            else ret layer) ;;
  modify (fun n => setLayers n (layers_ n ++ [layer])) ;~
  NNV_LOG LogDebug "Added layer to network '{}'. Total layers: {}".

(** [addLayer(const LayerConfig& config)] *)
Definition addLayerConfig (config : LayerConfig.t) : M unit :=
  addLayer (Layer.fromConfig config).

(** [for (i = first; i < layers_.size(); ++i)
       if (i > 0) layers_[i]->initializeWeights(layers_[i-1]->getSize(), initType);]
    over [layers_[first ..]]; [prev] is [layers_[first - 1]], if there is
    one. *)
Fixpoint reinitialize (initType : InitializationType.t) (prev : option (Layer.t T))
  (layers : list (Layer.t T)) (k : nat) : list (Layer.t T) * nat :=
  match layers with
  | [] => ([], k)
  | layer :: rest =>
      let r := match prev with
               | Some p =>
                   Layer.initializeWeights uniformReal normalReal layer
                     (Layer.getSize p) initType k
               | None => (layer, k)
               end in
      let r' := reinitialize initType (Some (fst r)) rest (snd r) in
      (fst r :: fst r', snd r')
  end.

Definition removeLayer (index : nat) : M unit :=
  n <~ get ;;
  if Nat.leb (length (layers_ n)) index then
    NNV_LOG LogWarning "Attempted to remove layer {} from network with {} layers"
  else
    let before := firstn index (layers_ n) in
    let prev := match index with
                | O => None
                | S i => nth_error (layers_ n) i
                end in
    after <~ drawing (fun k =>
               Ok (reinitialize InitializationType.Xavier prev
                     (skipn (S index) (layers_ n)) k)) ;;
    modify (fun n => setLayers n (before ++ after)) ;~
    NNV_LOG LogDebug "Removed layer {} from network '{}'. Total layers: {}".

Definition clearLayers : M unit :=
  modify (fun n => setLayers n []) ;~
  NNV_LOG LogDebug "Cleared all layers from network '{}'".

(** [initializeWeights(initType)]; the default of [initType] is [Xavier]. *)
Definition initializeWeights (initType : InitializationType.t) : M unit :=
  n <~ get ;;
  layers <~ drawing (fun k => Ok (reinitialize initType None (layers_ n) k)) ;;
  modify (fun n => setLayers n layers) ;~
  NNV_LOG LogDebug "Initialized weights for network '{}' using {} initialization".

(** [NeuralNetwork(const NetworkConfig& config)]: the object under
    construction takes the place of [self]. *)
Fixpoint addLayers (configs : list LayerConfig.t) : M unit :=
  match configs with
  | [] => ret tt
  | layerConfig :: configs => addLayerConfig layerConfig ;~ addLayers configs
  end.

Definition makeFromConfig (config : NetworkConfig.t) : M unit :=
  modify (fun _ =>
    mk (NetworkConfig.name config) []
       (of_double (TrainingConfig.learning_rate (NetworkConfig.training config)))
       (NetworkConfig.loss config) (NetworkConfig.optimizer config)
       false false zero) ;~
  addLayers (NetworkConfig.layers config) ;~
  n <~ get ;;
  if negb (Nat.eqb (length (layers_ n)) 0)
  then initializeWeights InitializationType.Xavier
  else ret tt.

Definition reset : M unit :=
  modify (fun n => setLayers n (map Layer.reset (layers_ n))) ;~
  modify (fun n => storeIsTraining n false) ;~
  modify (fun n => storeShouldStop n false) ;~
  modify (fun n => storeTrainingProgress n zero) ;~
  NNV_LOG LogDebug "Reset network '{}'".

(** The loop of [forward] over layers [1 .. size-1]; [prevActivations] is
    [layers_[i-1]->getActivations()]. *)
Fixpoint forwardLayers (training : bool) (prevActivations : list T)
  (layers : list (Layer.t T)) (k : nat) : Outcome (list (Layer.t T) * nat) :=
  match layers with
  | [] => Ok ([], k)
  | layer :: rest =>
      layer <- Layer.forward mode layer prevActivations ;;
      layer <- Layer.applyActivation layer ;;
      r <- Layer.applyDropout uniform01 training layer k ;;
      let layer := fst r in
      r' <- forwardLayers training (Layer.getActivations layer) rest (snd r) ;;
      Ok (layer :: fst r', snd r')
  end.

Definition forward (inputs : list T) : M (list T) :=
  n <~ get ;;
  match layers_ n with
  | [] =>
      NNV_LOG LogError "Cannot perform forward pass on empty network" ;~
      ret []
  | input :: rest =>
      if negb (Nat.eqb (length inputs) (Layer.getSize input)) then
        NNV_LOG LogError "Input size {} doesn't match first layer size {}" ;~
        ret []
      else
        input <~ lift (Layer.setActivations mode input inputs) ;;
        rest <~ drawing (forwardLayers (isTraining_ n) (Layer.getActivations input) rest) ;;
        modify (fun n => setLayers n (input :: rest)) ;~
        ret (Layer.getActivations (last rest input))
  end.

(** [outputLayer.getNeuron(i).setDelta(outputGradients[i])] for every [i],
    on the last layer. *)
Fixpoint seedOutputLayer (outputGradients : list T) (layers : list (Layer.t T))
  : Outcome (list (Layer.t T)) :=
  match layers with
  | [] => Ok []
  | layer :: rest =>
      match rest with
      | [] =>
          ns <- Layer.assignEach Neuron.setDelta (Layer.neurons_ layer) outputGradients ;;
          Ok [Layer.setNeurons layer ns]
      | _ :: _ => r <- seedOutputLayer outputGradients rest ;; Ok (layer :: r)
      end
  end.

(** The loop of [backward] over [i = size-2 .. 1], on [layers_[1 ..]]:
    the layers behind [current] are done first. *)
Fixpoint hiddenGradients (layers : list (Layer.t T)) : Outcome (list (Layer.t T)) :=
  match layers with
  | [] => Ok []
  | currentLayer :: rest =>
      match rest with
      | [] => Ok [currentLayer]
      | _ :: _ =>
          rest <- hiddenGradients rest ;;
          match rest with
          | [] => Ok [currentLayer]
          | nextLayer :: _ =>
              let nextLayerDeltas :=
                map (@Neuron.delta_ T) (Layer.neurons_ nextLayer) in
              let nextLayerWeights :=
                map (@Neuron.inputWeights_ T) (Layer.neurons_ nextLayer) in
              currentLayer <- Layer.computeGradients mode currentLayer
                                nextLayerDeltas nextLayerWeights ;;
              Ok (currentLayer :: rest)
          end
      end
  end.

(** The loop of [backward] that updates layers [1 .. size-1]; [prev] is
    [layers_[i-1]]. *)
Fixpoint updateLayers (learningRate : T) (prev : Layer.t T) (layers : list (Layer.t T))
  : Outcome (list (Layer.t T)) :=
  match layers with
  | [] => Ok []
  | layer :: rest =>
      let prevActivations := Layer.getActivations prev in
      layer <- Layer.updateWeights mode layer learningRate prevActivations ;;
      r <- updateLayers learningRate layer rest ;;
      Ok (layer :: r)
  end.

Definition backward (targets outputs : list T) : M T :=
  n <~ get ;;
  match layers_ n with
  | input :: (_ :: _) as rest =>
      let loss := LossFactory.getFunction (lossType_ n) outputs targets in
      outputGradients <~ lift (LossFactory.getGradient (lossType_ n) outputs targets) ;;
      rest <~ lift (seedOutputLayer outputGradients rest) ;;
      rest <~ lift (hiddenGradients rest) ;;
      rest <~ lift (updateLayers (learningRate_ n) input rest) ;;
      modify (fun n => setLayers n (input :: rest)) ;~
      ret loss
  | _ =>
      NNV_LOG LogError
        "Cannot perform backward pass on network with less than 2 layers" ;~
      ret zero
  end.

Definition trainSample (inputs targets : list T) : M T :=
  outputs <~ forward inputs ;;
  backward targets outputs.

(** The loop of [trainBatch]; it runs behind the size check. *)
Fixpoint trainSamples (inputBatch targetBatch : list (list T)) (totalLoss : T) : M T :=
  match inputBatch with
  | [] => ret totalLoss
  | inputs :: inputBatch =>
      match targetBatch with
      | [] => lift Undefined
      | targets :: targetBatch =>
          l <~ trainSample inputs targets ;;
          trainSamples inputBatch targetBatch (add totalLoss l)
      end
  end.

Definition trainBatch (inputBatch targetBatch : list (list T)) : M T :=
  if negb (Nat.eqb (length inputBatch) (length targetBatch)) then
    NNV_LOG LogError "Input batch size {} doesn't match target batch size {}" ;~
    ret zero
  else
    totalLoss <~ trainSamples inputBatch targetBatch zero ;;
    ret (div totalLoss (of_size (length inputBatch))).

Definition predict (inputs : list T) : M (list T) :=
  n <~ get ;;
  let wasTraining := isTraining_ n in
  modify (fun n => storeIsTraining n false) ;~
  outputs <~ forward inputs ;;
  modify (fun n => storeIsTraining n wasTraining) ;~
  ret outputs.

Fixpoint predictBatch (inputBatch : list (list T)) : M (list (list T)) :=
  match inputBatch with
  | [] => ret []
  | inputs :: inputBatch =>
      o <~ predict inputs ;;
      os <~ predictBatch inputBatch ;;
      ret (o :: os)
  end.

(** One iteration of the loop of [computeAccuracy]: is sample [i] counted? *)
Definition sampleCorrect (output target : list T) : Outcome bool :=
  if Nat.eqb (length output) 1 then
    o <- at_ output 0 ;;
    t <- at_ target 0 ;;
    let prediction := if gtb o (of_double 0.5%float) then one else zero in
    Ok (ltb (abs (sub prediction t)) (of_double 0.5%float))
  else
    Ok (Nat.eqb (max_element output) (max_element target)).

Fixpoint countCorrect (outputs targets : list (list T)) (correct : nat) : Outcome nat :=
  match outputs with
  | [] => Ok correct
  | output :: outputs =>
      match targets with
      | [] => Undefined
      | target :: targets =>
          c <- sampleCorrect output target ;;
          countCorrect outputs targets (if c then S correct else correct)
      end
  end.

Definition computeAccuracy (outputs targets : list (list T)) : Outcome T :=
  if Nat.eqb (length outputs) 0 || Nat.eqb (length targets) 0
     || negb (Nat.eqb (length outputs) (length targets))
  then Ok zero
  else
    correct <- countCorrect outputs targets 0 ;;
    Ok (div (of_size correct) (of_size (length outputs))).

(** The loop of [evaluate] that sums the losses. *)
Fixpoint totalLossOf (lossFunction : list T -> list T -> T)
  (outputs targetData : list (list T)) (totalLoss : T) : Outcome T :=
  match outputs with
  | [] => Ok totalLoss
  | o :: outputs =>
      match targetData with
      | [] => Undefined
      | t :: targetData =>
          totalLossOf lossFunction outputs targetData (add totalLoss (lossFunction o t))
      end
  end.

Definition evaluate (inputData targetData : list (list T)) : M (T * T) :=
  if negb (Nat.eqb (length inputData) (length targetData)) then
    NNV_LOG LogError "Input data size {} doesn't match target data size {}" ;~
    ret (zero, zero)
  else
    outputs <~ predictBatch inputData ;;
    n <~ get ;;
    totalLoss <~ lift (totalLossOf (LossFactory.getFunction (lossType_ n))
                         outputs targetData zero) ;;
    let avgLoss := div totalLoss (of_size (length outputs)) in
    accuracy <~ lift (computeAccuracy outputs targetData) ;;
    ret (avgLoss, accuracy).

(** [v[i] = x] *)
Fixpoint update {A : Type} (v : list A) (i : nat) (x : A) : list A :=
  match v, i with
  | [], _ => []
  | _ :: r, O => x :: r
  | y :: r, S i => y :: update r i x
  end.

Definition swap {A : Type} (v : list A) (i j : nat) : list A :=
  match nth_error v i, nth_error v j with
  | Some a, Some b => update (update v i b) j a
  | _, _ => v
  end.

(** [std::shuffle(indices.begin(), indices.end(), gen)]: the permutation
    is fixed by the values the generator yields; here position [i], from
    the last down to the second, is exchanged with a position drawn
    among [0 .. i]. *)
Fixpoint shuffle (i : nat) (indices : list nat) (k : nat) : list nat * nat :=
  match i with
  | O => (indices, k)
  | S i' => shuffle i' (swap indices i (randomIndex k mod (S i))) (S k)
  end.

Definition shuffleData (inputs targets : list (list T))
  : M (list (list T) * list (list T)) :=
  if negb (Nat.eqb (length inputs) (length targets)) then ret (inputs, targets)
  else
    indices <~ drawing (fun k =>
      Ok (shuffle (length inputs - 1) (seq 0 (length inputs)) k)) ;;
    shuffledInputs <~ lift (mapM (at_ inputs) indices) ;;
    shuffledTargets <~ lift (mapM (at_ targets) indices) ;;
    ret (shuffledInputs, shuffledTargets).

(** [std::size_t] arithmetic wraps at [2^64]. *)
Definition size_add (a b : N) : N := ((a + b) mod 2 ^ 64)%N.

(** [std::vector<...>(v.begin() + first, v.begin() + last)] *)
Definition range {A : Type} (v : list A) (first last : N) : Outcome (list A) :=
  if ((first <=? last) && (last <=? N.of_nat (length v)))%N
  then Ok (firstn (N.to_nat last - N.to_nat first) (skipn (N.to_nat first) v))
  else Undefined.

Definition Batch : Type := (list (list T) * list (list T))%type.

(** The body of the loop of [createBatches] at index [i]: the batch it
    appends and the next value of [i]. *)
Definition createBatch (inputs targets : list (list T)) (batchSize i : N)
  : Outcome (Batch * N) :=
  let endIdx := N.min (size_add i batchSize) (N.of_nat (length inputs)) in
  batchInputs <- range inputs i endIdx ;;
  batchTargets <- range targets i endIdx ;;
  Ok ((batchInputs, batchTargets), size_add i batchSize).

(** No vector holds more than [PTRDIFF_MAX] elements: [max_size()] is at
    most that, whatever the element type. *)
Definition max_elements : N := (2 ^ 63 - 1)%N.

(** [v.emplace_back(x)]: a vector that cannot grow throws.  The allocator
    is taken never to fail, here as everywhere in this model, so that the
    vector itself throws, [std::length_error], when it is full; where memory
    runs out first the program throws [std::bad_alloc] earlier. *)
Definition emplace_back {A : Type} (v : list A) (x : A) : Outcome (list A) :=
  if (N.of_nat (length v) <? max_elements)%N then Ok (v ++ [x])
  else Thrown "std::length_error".

(** The loop of [createBatches]; [fuel] bounds the number of times the
    loop condition is evaluated. *)
Fixpoint createBatchesFrom (fuel : nat) (inputs targets : list (list T))
  (batchSize i : N) (batches : list Batch) : Outcome (list Batch) :=
  match fuel with
  | O => OutOfFuel
  | S fuel =>
      if (i <? N.of_nat (length inputs))%N then
        r <- createBatch inputs targets batchSize i ;;
        batches <- emplace_back batches (fst r) ;;
        createBatchesFrom fuel inputs targets batchSize (snd r) batches
      else Ok batches
  end.

Definition createBatches (fuel : nat) (inputs targets : list (list T)) (batchSize : N)
  : Outcome (list Batch) :=
  createBatchesFrom fuel inputs targets batchSize 0%N [].

(** The loop of [train] over the batches of an epoch. *)
Fixpoint trainBatches (batches : list Batch) (epochLoss : T) : M T :=
  match batches with
  | [] => ret epochLoss
  | batch :: batches =>
      l <~ trainBatch (fst batch) (snd batch) ;;
      trainBatches batches (add epochLoss l)
  end.

Definition pushTrain (h : TrainingHistory T) (loss accuracy : T)
  : TrainingHistory T :=
  mkHistory (trainLoss h ++ [loss]) (trainAccuracy h ++ [accuracy])
            (valLoss h) (valAccuracy h).
Definition pushVal (h : TrainingHistory T) (loss accuracy : T) : TrainingHistory T :=
  mkHistory (trainLoss h) (trainAccuracy h)
            (valLoss h ++ [loss]) (valAccuracy h ++ [accuracy]).

(** A call of [stopTraining()] from outside, if one lands here. *)
Definition externalStop (lands : bool) : M unit :=
  if lands then modify stopTraining else ret tt.

Section Train.
(** [fuel] is handed to [createBatches]. *)
Variable fuel : nat.
Variable schedule : StopSchedule.
Variables (epochs : nat) (batchSize : N).
Variables (validationInputs validationTargets : option (list (list T))).
(** [progressCallback(epoch, loss, accuracy)], a
    [std::function<void(std::size_t, Scalar, Scalar)>]: the callback sees
    the epoch and, as [Scalar]s, the loss and the accuracy; its result here
    tells whether it called [stopTraining()].  Other effects of a callback
    on the network are not represented. *)
Variable progressCallback : option (nat -> float -> float -> bool).

(** One run of the body of the [for] loop of [train]. *)
Definition trainEpoch (epoch : nat) (inputs targets : list (list T))
  (history : TrainingHistory T)
  : M (list (list T) * list (list T) * TrainingHistory T) :=
  shuffled <~ shuffleData inputs targets ;;
  let inputs := fst shuffled in
  let targets := snd shuffled in
  batches <~ lift (createBatches fuel inputs targets batchSize) ;;
  epochLoss <~ trainBatches batches zero ;;
  let epochLoss := div epochLoss (of_size (length batches)) in
  trainOutputs <~ predictBatch inputs ;;
  trainAccuracy <~ lift (computeAccuracy trainOutputs targets) ;;
  let history := pushTrain history epochLoss trainAccuracy in
  history <~ match validationInputs, validationTargets with
             | Some vi, Some vt =>
                 valResult <~ evaluate vi vt ;;
                 ret (pushVal history (fst valResult) (snd valResult))
             | _, _ => ret history
             end ;;
  modify (fun n => storeTrainingProgress n
                     (div (of_size (epoch + 1)) (of_size epochs))) ;~
  match progressCallback with
  | Some callback =>
      externalStop (callback epoch (toScalar epochLoss) (toScalar trainAccuracy))
  | None => ret tt
  end ;~
  (if Nat.eqb (epoch mod 10) 0 || Nat.eqb epoch (epochs - 1)
   then NNV_LOG LogInfo "Epoch {}/{}: Loss = {:.6f}, Accuracy = {:.4f}"
   else ret tt) ;~
  ret (inputs, targets, history).

(** [for (epoch = 0; epoch < epochs && !shouldStop_.load(); ++epoch)],
    with [remaining = epochs - epoch]. *)
Fixpoint trainLoop (remaining epoch : nat) (inputs targets : list (list T))
  (history : TrainingHistory T) : M (TrainingHistory T) :=
  match remaining with
  | O => ret history
  | S remaining =>
      n <~ get ;;
      if shouldStop_ n then ret history
      else
        externalStop (stopDuringEpoch schedule epoch) ;~
        r <~ trainEpoch epoch inputs targets history ;;
        trainLoop remaining (S epoch) (fst (fst r)) (snd (fst r)) (snd r)
  end.

Definition train (inputData targetData : list (list T)) : M (TrainingHistory T) :=
  let history := mkHistory [] [] [] [] in
  modify (fun n => storeIsTraining n true) ;~
  externalStop (stopBeforeReset schedule) ;~
  modify (fun n => storeShouldStop n false) ;~
  externalStop (stopAfterReset schedule) ;~
  NNV_LOG LogInfo "Starting training for network '{}': {} epochs, batch size {}" ;~
  history <~ trainLoop epochs 0 inputData targetData history ;;
  modify (fun n => storeIsTraining n false) ;~
  modify (fun n => storeTrainingProgress n one) ;~
  NNV_LOG LogInfo "Training completed for network '{}'" ;~
  ret history.
End Train.

Definition toJson (n : t T) : Outcome Json.t :=
  json <- Json.set Json.null "name" (Json.string (name_ n)) ;;
  json <- Json.set json "learning_rate" (Json.of_scalar (learningRate_ n)) ;;
  json <- Json.set json "loss_type"
            (Json.number_integer (LossType.to_int (lossType_ n))) ;;
  json <- Json.set json "optimizer_type"
            (Json.number_integer (OptimizerType.to_int (optimizerType_ n))) ;;
  layers <- mapM Layer.toJson (layers_ n) ;;
  json <- Json.set json "layers" (Json.array layers) ;;
  Ok json.

Definition fromJson (json : Json.t) (n : t T) : Outcome (t T) :=
  n <- Json.field json "name" Json.get_string (fun n v => Ok (setName n v)) n ;;
  n <- Json.field json "learning_rate" Json.get_scalar
         (fun n v => Ok (setLearningRate n v)) n ;;
  n <- Json.field json "loss_type" Json.get_int
         (fun n v => match LossType.of_int v with
                     | Some l => Ok (setLossType n l)
                     | None => Unmodelled
                     end) n ;;
  n <- Json.field json "optimizer_type" Json.get_int
         (fun n v => match OptimizerType.of_int v with
                     | Some o => Ok (setOptimizerType n o)
                     | None => Unmodelled
                     end) n ;;
  if Json.contains json "layers" then
    arr <- Json.at_key json "layers" ;;
    if Json.is_array arr then
      layers <- mapM (fun layerJson =>
                        Layer.fromJson layerJson
                          (Layer.make 1 ActivationType.ReLU ""))
                  (Json.items arr) ;;
      Ok (setLayers n layers)
    else Ok n
  else Ok n.
End WithScalar.
End NeuralNetwork.

(** ** DataLoader (src/utils/DataLoader.cpp): the encoding of class labels *)

Module DataLoader.
Section WithScalar.
Context {T : Type} `{Scalar T}.

(** [*std::max_element(labels.begin(), labels.end())] on a non-empty vector
    of [int] *)
Definition maxLabel (first : Z) (labels : list Z) : Z := fold_left Z.max labels first.

(** A row of [numClasses] zeros after [if (label >= 0 && label < numClasses)
    encoded[i][label] = T{1};] *)
Definition oneHotRow (numClasses : nat) (label : Z) : list T :=
  let row := repeat zero numClasses in
  if ((0 <=? label) && (label <? Z.of_nat numClasses))%Z
  then firstn (Z.to_nat label) row ++ one :: skipn (S (Z.to_nat label)) row
  else row.

(** [oneHotEncode(labels, numClasses)] on [int] labels.  [max + 1]
    overflows for [INT_MAX]; a negative [int] handed to the constructor of
    [std::vector] as a size makes it throw. *)
Definition oneHotEncode (labels : list Z) (numClasses : Z) : Outcome (list (list T)) :=
  match labels with
  | [] => Ok []
  | first :: rest =>
      numClasses <- (if (numClasses <=? 0)%Z then
                       let largest := maxLabel first rest in
                       if (largest =? 2 ^ 31 - 1)%Z then Undefined
                       else Ok (largest + 1)%Z
                     else Ok numClasses) ;;
      if (numClasses <? 0)%Z then Thrown "std::length_error"
      else Ok (map (oneHotRow (Z.to_nat numClasses)) labels)
  end.
End WithScalar.
End DataLoader.

(** ** [NeuralNetwork<double>]: values to run the engine on

    [std::exp] and the other C library functions are stood for by short
    series on binary64; no statement below depends on their accuracy. *)

Module Examples.
#[local] Open Scope float_scope.

(** Binary64 has no primitive [std::exp], [std::tanh], [std::log] or
    [std::pow]: the instance below puts short series in their place, which
    are close to the values of the C library and not equal to them.  The
    runs below go through ReLU and linear units and the mean squared error
    only, so that none of them evaluates these four functions. *)
Definition exp_series (x : float) : float :=
  let y := x / 1024 in
  let p := 1 + y * (1 + y / 2 * (1 + y / 3 * (1 + y / 4))) in
  Nat.iter 10 (fun q => q * q) p.

Definition log_newton (x : float) : float :=
  Nat.iter 40 (fun y => let e := exp_series y in y + 2 * (x - e) / (x + e)) 0.

#[export] Instance Libm_double : Libm float := {
  std_exp := exp_series;
  std_tanh := fun x => let e := exp_series (2 * x) in (e - 1) / (e + 1);
  std_log := log_newton;
  std_pow := fun x y => exp_series (y * log_newton x)
}.

Definition neuron (id : N) (bias : float) (weights : list float) : Neuron.t float :=
  Neuron.mk id 0 bias 0 0 0 true "" weights.

Definition layer (name : string) (activation : ActivationType.t)
  (neurons : list (Neuron.t float)) : Layer.t float :=
  Layer.mk neurons name activation 0 true (map (fun _ => true) neurons).

(** A 2-2-1 network: ReLU hidden layer, linear output. *)
Definition xorNet : NeuralNetwork.t float :=
  NeuralNetwork.mk "xor"
    [ layer "input" ActivationType.None [neuron 0 0 []; neuron 1 0 []];
      layer "hidden" ActivationType.ReLU
        [neuron 0 0.125 [0.5; -0.25]; neuron 1 (-0.25) [0.75; 0.5]];
      layer "output" ActivationType.None [neuron 0 0.0625 [1; -1.5]] ]
    0.5 LossType.MeanSquaredError OptimizerType.SGD false false 0.

Definition start (n : NeuralNetwork.t float) : NeuralNetwork.state float :=
  NeuralNetwork.mkState n [] 0.

Definition xorInputs : list (list float) := [[0; 0]; [0; 1]; [1; 0]; [1; 1]].
Definition xorTargets : list (list float) := [[0]; [1]; [1]; [0]].

(** The values the generators yield in the runs below. *)
Definition draws01 : nat -> float := fun _ => 0.5.
Definition drawsIndex : nat -> nat := fun k => (7 * k + 3)%nat.

Definition noStop : NeuralNetwork.StopSchedule :=
  NeuralNetwork.mkSchedule false false (fun _ => false).
(** [stopTraining()] is called while the second epoch runs. *)
Definition stopInSecondEpoch : NeuralNetwork.StopSchedule :=
  NeuralNetwork.mkSchedule false false (fun e => Nat.eqb e 1).
(** [stopTraining()] is called after [train] has set [isTraining_] and
    before it clears [shouldStop_]. *)
Definition stopOnEntry : NeuralNetwork.StopSchedule :=
  NeuralNetwork.mkSchedule true false (fun _ => false).

(** A progress callback that calls [stopTraining()] when it is shown a
    loss below one half. *)
Definition stopBelowHalf : nat -> float -> float -> bool :=
  fun _ loss _ => loss <? 0.5.

(** A hidden unit with two weights behind an input layer of one unit. *)
Definition wideUnit : Layer.t float :=
  layer "hidden" ActivationType.ReLU [neuron 0 0 [1; 1]].
Definition mismatchedNet : NeuralNetwork.t float :=
  NeuralNetwork.mk "mismatched"
    [ layer "input" ActivationType.None [neuron 0 0 []];
      layer "output" ActivationType.None [neuron 0 0 []] ]
    0.5 LossType.MeanSquaredError OptimizerType.SGD false false 0.
#[export] Instance Sqrt_double : Sqrt float := {
  std_sqrt := PrimFloat.sqrt
}.

(** The values the weight initialisers draw in the runs below: the middle
    of the interval, and the mean. *)
Definition drawsUniform : float -> float -> nat -> float := fun a b _ => (a + b) / 2.
Definition drawsNormal : float -> float -> nat -> float := fun mean _ _ => mean.

(** The configuration of a 2-3-1 network. *)
Definition xorConfig : NetworkConfig.t :=
  NetworkConfig.mk
    [ LayerConfig.mk 2 ActivationType.None 0 InitializationType.Xavier "input" true;
      LayerConfig.mk 3 ActivationType.ReLU 0.25 InitializationType.He "hidden" true;
      LayerConfig.mk 1 ActivationType.Sigmoid 0 InitializationType.Xavier "output" true ]
    OptimizerType.SGD LossType.MeanSquaredError
    (TrainingConfig.mk 0.5 2 4 0 true 0 0) "xor".
End Examples.

(** * The terms in which the properties are stated *)

Section Vocabulary.
Context {T : Type} `{Scalar T}.

(** Σ_k input_k × weight_k, summed from the left starting at [T{0}]. *)
Definition dotProduct (inputs weights : list T) : T :=
  fold_left add (map (fun xw => mul (fst xw) (snd xw)) (combine inputs weights)) zero.

(** The unit after one step of gradient descent, in the spec's words:
    [weight_k -= lr × delta × prevActivations_k], [bias -= lr × delta]. *)
Definition descended (lr : T) (prevActivations : list T) (n : Neuron.t T) : Neuron.t T :=
  Neuron.setBias
    (Neuron.setInputWeights n
       (map (fun wa => sub (fst wa) (mul (mul lr (Neuron.delta_ n)) (snd wa)))
            (combine (Neuron.inputWeights_ n) prevActivations)))
    (sub (Neuron.bias_ n) (mul lr (Neuron.delta_ n))).

(** ceil(n / b) *)
Definition ceilDiv (n b : nat) : nat := (n + b - 1) / b.

(** What the spec says of the batches cut from [inputs] and [targets]
    with batch size [b]: ceil(N/b) of them, each of at most [b] samples, all
    but the last of exactly [b], and in order they make up the lists. *)
Definition batchesCover (b : nat) (batches : list (list (list T) * list (list T)))
  (inputs targets : list (list T)) : Prop :=
  length batches = ceilDiv (length inputs) b /\
  Forall (fun batch => length (fst batch) <= b /\
                       length (snd batch) = length (fst batch)) batches /\
  Forall (fun batch => length (fst batch) = b) (removelast batches) /\
  concat (map fst batches) = inputs /\
  concat (map snd batches) = targets.

(** [computeAccuracy] reads a single output through a threshold at 0.5. *)
Definition thresholded (o : T) : T :=
  if gtb o (of_double 0.5%float) then one else zero.

(** Is a sample counted as correct?  For one output,
    [|thresholded(output) - target| < 0.5]; otherwise the first largest
    output and the first largest target sit at the same index. *)
Definition countsAsCorrect (output target : list T) : bool :=
  if Nat.eqb (length output) 1
  then ltb (abs (sub (thresholded (hd zero output)) (hd zero target)))
           (of_double 0.5%float)
  else Nat.eqb (max_element output) (max_element target).

Definition correctCount (outputs targets : list (list T)) : nat :=
  length (filter (fun ot => countsAsCorrect (fst ot) (snd ot)) (combine outputs targets)).

(** What the round trip through the persisted document keeps of a layer. *)
Definition sameParameters (a b : Layer.t T) : Prop :=
  length (Layer.neurons_ a) = length (Layer.neurons_ b) /\
  Layer.activationType_ a = Layer.activationType_ b /\
  Layer.dropoutRate_ a = Layer.dropoutRate_ b /\
  Layer.trainable_ a = Layer.trainable_ b /\
  map (@Neuron.inputWeights_ T) (Layer.neurons_ a)
  = map (@Neuron.inputWeights_ T) (Layer.neurons_ b) /\
  map (@Neuron.bias_ T) (Layer.neurons_ a) = map (@Neuron.bias_ T) (Layer.neurons_ b).

(** A layer as [fromJson] rebuilds it: everything but the dropout mask,
    which is all [true] again. *)
Definition reloaded (l : Layer.t T) : Layer.t T :=
  Layer.mk (Layer.neurons_ l) (Layer.name_ l) (Layer.activationType_ l)
           (Layer.dropoutRate_ l) (Layer.trainable_ l)
           (repeat true (length (Layer.neurons_ l))).

(** A layer that fits behind a layer of [prevSize] units: it has a unit,
    every unit has [prevSize] weights, and the dropout mask is no longer
    than the layer. *)
Definition layerFits (prevSize : nat) (l : Layer.t T) : Prop :=
  Layer.neurons_ l <> [] /\
  Forall (fun n => length (Neuron.inputWeights_ n) = prevSize) (Layer.neurons_ l) /\
  length (Layer.dropoutMask_ l) <= length (Layer.neurons_ l).

Fixpoint chainFits (prevSize : nat) (layers : list (Layer.t T)) : Prop :=
  match layers with
  | [] => True
  | l :: rest => layerFits prevSize l /\ chainFits (Layer.getSize l) rest
  end.

(** The invariant of the data model: layer [i >= 1] fits behind layer
    [i - 1]. *)
Definition wellFormed (n : NeuralNetwork.t T) : Prop :=
  match NeuralNetwork.layers_ n with
  | [] => True
  | input :: rest => chainFits (Layer.getSize input) rest
  end.

(** A unit with its activation and weighted input erased: what a forward
    pass does not overwrite. *)
Definition settled (n : Neuron.t T) : Neuron.t T :=
  Neuron.setWeightedInput (Neuron.setActivation n zero) zero.

(** Two states of a layer that differ at most in the activations and
    weighted inputs of the units and in the entries of the dropout mask. *)
Definition sameUnits (a b : Layer.t T) : Prop :=
  Forall2 (fun n n' => settled n = settled n') (Layer.neurons_ a) (Layer.neurons_ b) /\
  Layer.name_ a = Layer.name_ b /\
  Layer.activationType_ a = Layer.activationType_ b /\
  Layer.dropoutRate_ a = Layer.dropoutRate_ b /\
  Layer.trainable_ a = Layer.trainable_ b /\
  length (Layer.dropoutMask_ a) = length (Layer.dropoutMask_ b).

(** The weights and biases of a network, layer by layer and unit by unit. *)
Definition parameters (n : NeuralNetwork.t T) : list (list (list T * T)) :=
  map (fun l => map (fun u => (Neuron.inputWeights_ u, Neuron.bias_ u)) (Layer.neurons_ l))
      (NeuralNetwork.layers_ n).

(** Two states of a unit that differ at most in the activation. *)
Definition activationOnly (n2 n1 : Neuron.t T) : Prop :=
  Neuron.setActivation n2 zero = Neuron.setActivation n1 zero.

(** The state [predict] runs [forward] in: [isTraining_] is false. *)
Definition inference (s : NeuralNetwork.state T) : NeuralNetwork.state T :=
  NeuralNetwork.mkState (NeuralNetwork.storeIsTraining (NeuralNetwork.self s) false)
                        (NeuralNetwork.logged s) (NeuralNetwork.drawn s).

(** Does a call of [stopTraining()] reach the run during epoch [e]?  It
    comes from another thread, or from the callback, which is shown the
    loss and the accuracy of the epoch, the values [h] records for it, as
    [Scalar]s. *)
Definition stopsDuring (schedule : NeuralNetwork.StopSchedule)
  (progressCallback : option (nat -> float -> float -> bool))
  (h : NeuralNetwork.TrainingHistory T) (e : nat) : bool :=
  NeuralNetwork.stopDuringEpoch schedule e
  || match progressCallback, nth_error (NeuralNetwork.trainLoss h) e,
           nth_error (NeuralNetwork.trainAccuracy h) e with
     | Some callback, Some loss, Some accuracy =>
         callback e (toScalar loss) (toScalar accuracy)
     | _, _, _ => false
     end.
End Vocabulary.

(** [std::round] on binary64: the nearest integer, halfway cases away from
    zero.  It is the [round] of the spec's accuracy definition. *)
Definition round (d : float) : float :=
  match Prim2SF d with
  | S754_finite s m e =>
      let mag := if (0 <=? e)%Z then (Z.pos m * 2 ^ e)%Z
                 else ((2 * Z.pos m + 2 ^ (- e)) / 2 ^ (1 - e))%Z in
      double_of_Z (if s then (- mag)%Z else mag)
  | _ => d
  end.

(** The spec's test for a single output: [|round(output) - target| < 0.5]. *)
Definition roundedCorrect (output target : float) : bool :=
  PrimFloat.ltb (PrimFloat.abs (PrimFloat.sub (round output) target)) 0.5%float.

(** ** The terms of the further properties *)

Section ForwardVocabulary.
Context {T : Type} `{Scalar T} `{Libm T}.

(** The argument a unit's activation function is applied to:
    Σ_k prev_k × weight_k + bias. *)
Definition preActivation (prev : list T) (u : Neuron.t T) : T :=
  add (dotProduct prev (Neuron.inputWeights_ u)) (Neuron.bias_ u).

(** exp(x_i - max) / Σ_j exp(x_j - max), the sum taken from the left. *)
Definition softmaxValues (x : list T) : list T :=
  let max_val := nth (max_element x) x zero in
  let result := map (fun xi => std_exp (sub xi max_val)) x in
  map (fun r => div r (fold_left add result zero)) result.

(** The activations of a layer fed with the activations [prev] of the
    layer before it, dropout left out. *)
Definition layerOutput (l : Layer.t T) (prev : list T) : list T :=
  let z := map (preActivation prev) (Layer.neurons_ l) in
  if ActivationType.is_softmax (Layer.activationType_ l) then softmaxValues z
  else map (ActivationFactory.getFunction (Layer.activationType_ l)) z.

(** The function a network stands for: the input handed through the
    layers behind the first. *)
Fixpoint feedForward (prev : list T) (layers : list (Layer.t T)) : list T :=
  match layers with
  | [] => prev
  | l :: rest => feedForward (layerOutput l prev) rest
  end.
End ForwardVocabulary.

Section TrainingVocabulary.
Context {T : Type} `{Scalar T}.

Definition weightsAndBias (u : Neuron.t T) : list T * T :=
  (Neuron.inputWeights_ u, Neuron.bias_ u).

(** What training keeps of a unit: its id, gradient, flag and name, and
    the number of its weights. *)
Definition unitKept (u u' : Neuron.t T) : Prop :=
  Neuron.id_ u' = Neuron.id_ u /\
  Neuron.gradient_ u' = Neuron.gradient_ u /\
  Neuron.trainable_ u' = Neuron.trainable_ u /\
  Neuron.name_ u' = Neuron.name_ u /\
  length (Neuron.inputWeights_ u') = length (Neuron.inputWeights_ u).

(** What training keeps of a layer: its units as above, its name,
    activation type, dropout rate and flag, the length of its dropout mask
    and, if it is marked non-trainable, every weight and every bias. *)
Definition layerKept (l l' : Layer.t T) : Prop :=
  Forall2 unitKept (Layer.neurons_ l) (Layer.neurons_ l') /\
  Layer.name_ l' = Layer.name_ l /\
  Layer.activationType_ l' = Layer.activationType_ l /\
  Layer.dropoutRate_ l' = Layer.dropoutRate_ l /\
  Layer.trainable_ l' = Layer.trainable_ l /\
  length (Layer.dropoutMask_ l') = length (Layer.dropoutMask_ l) /\
  (Layer.trainable_ l = false ->
   map weightsAndBias (Layer.neurons_ l') = map weightsAndBias (Layer.neurons_ l)).

(** The weights and biases of the first layer, which no training step
    writes. *)
Definition firstParameters (n : NeuralNetwork.t T) : list (list T * T) :=
  match NeuralNetwork.layers_ n with
  | [] => []
  | input :: _ => map weightsAndBias (Layer.neurons_ input)
  end.

Definition trainingKeeps (n n' : NeuralNetwork.t T) : Prop :=
  NeuralNetwork.name_ n' = NeuralNetwork.name_ n /\
  NeuralNetwork.learningRate_ n' = NeuralNetwork.learningRate_ n /\
  NeuralNetwork.lossType_ n' = NeuralNetwork.lossType_ n /\
  NeuralNetwork.optimizerType_ n' = NeuralNetwork.optimizerType_ n /\
  Forall2 layerKept (NeuralNetwork.layers_ n) (NeuralNetwork.layers_ n') /\
  firstParameters n' = firstParameters n.

(** A well-formed network of at least one layer that takes [w] inputs and
    gives [o] outputs. *)
Definition fits (w o : nat) (n : NeuralNetwork.t T) : Prop :=
  exists input rest,
    NeuralNetwork.layers_ n = input :: rest /\
    Layer.getSize input = w /\
    chainFits w rest /\
    Layer.getSize (last rest input) = o.

(** A call that, when it returns, leaves the network related by [R] to
    what it was. *)
Definition preserves (R : NeuralNetwork.t T -> NeuralNetwork.t T -> Prop)
  {A : Type} (m : StateM (NeuralNetwork.state T) A) : Prop :=
  forall s a s', m s = Ok (a, s') -> R (NeuralNetwork.self s) (NeuralNetwork.self s').
(** The samples of a training run: every input has the width of the
    network, every target at least the width of its output, and there is a
    target for every input. *)
Definition trainable (w o : nat) (inputs targets : list (list T)) : Prop :=
  Forall (fun x => length x = w) inputs /\
  Forall (fun t => o <= length t) targets /\
  length targets = length inputs.
End TrainingVocabulary.

Section HistoryVocabulary.
Context {T : Type}.

(** Does [train] evaluate on validation data?  Both pointers are given. *)
Definition validated (validationInputs validationTargets : option (list (list T)))
  : bool :=
  match validationInputs, validationTargets with
  | Some _, Some _ => true
  | _, _ => false
  end.

(** A history of [k] epochs: [k] training losses and accuracies, and as
    many validation losses and accuracies, or none. *)
Definition recorded (validation : bool) (k : nat) (h : NeuralNetwork.TrainingHistory T)
  : Prop :=
  length (NeuralNetwork.trainLoss h) = k /\
  length (NeuralNetwork.trainAccuracy h) = k /\
  length (NeuralNetwork.valLoss h) = (if validation then k else 0) /\
  length (NeuralNetwork.valAccuracy h) = (if validation then k else 0).

(** [shouldStop_] is as it was. *)
Definition stopKept (n n' : NeuralNetwork.t T) : Prop :=
  NeuralNetwork.shouldStop_ n' = NeuralNetwork.shouldStop_ n.
End HistoryVocabulary.

Section ConstructionVocabulary.
Context {T : Type} `{Scalar T}.

(** Two states of a unit that differ at most in the weights and the bias. *)
Definition sameButParameters (u u' : Neuron.t T) : Prop :=
  Neuron.setBias (Neuron.setInputWeights u' []) zero
  = Neuron.setBias (Neuron.setInputWeights u []) zero.

(** Two states of a layer that differ at most in the weights and biases of
    the units. *)
Definition reinitialized (l l' : Layer.t T) : Prop :=
  Forall2 sameButParameters (Layer.neurons_ l) (Layer.neurons_ l') /\
  Layer.setNeurons l' [] = Layer.setNeurons l [].

(** A layer with a unit, whose dropout mask is no longer than the layer. *)
Definition populated (l : Layer.t T) : Prop :=
  Layer.neurons_ l <> [] /\
  length (Layer.dropoutMask_ l) <= length (Layer.neurons_ l).

(** Every bias of the layer is [T{0}]. *)
Definition unbiased (l : Layer.t T) : Prop :=
  Forall (fun u => Neuron.bias_ u = zero) (Layer.neurons_ l).

(** The number of values [Layer::initializeWeights] draws for a layer of
    [size] units behind [prevLayerSize] units. *)
Definition drawsOf (initType : InitializationType.t) (prevLayerSize size : nat) : nat :=
  match initType with
  | InitializationType.Xavier | InitializationType.He => size * prevLayerSize
  | InitializationType.Random => size * (prevLayerSize + 1)
  | InitializationType.Zero | InitializationType.One => 0
  end.
End ConstructionVocabulary.
Section ConfiguredVocabulary.
Context {T : Type} `{Scalar T}.

(** A layer as a [LayerConfig] describes it, with every bias [T{0}]. *)
Definition configured (c : LayerConfig.t) (l : Layer.t T) : Prop :=
  Layer.getSize l = LayerConfig.size c /\
  Layer.name_ l = LayerConfig.name c /\
  Layer.activationType_ l = LayerConfig.activation c /\
  Layer.dropoutRate_ l = of_double (LayerConfig.dropout_rate c) /\
  Layer.trainable_ l = LayerConfig.trainable c /\
  Layer.dropoutMask_ l = repeat true (LayerConfig.size c) /\
  unbiased l.
End ConfiguredVocabulary.
Section GradientVocabulary.
Context {T : Type} `{Scalar T}.

(** Σ_j nextDelta_j × nextWeights_j[i], summed from the left starting at
    [T{0}]: what reaches unit [i] from the layer behind it. *)
Definition propagated (nextLayerDeltas : list T) (nextLayerWeights : list (list T))
  (i : nat) : T :=
  fold_left add
    (map (fun dw => mul (fst dw) (nth i (snd dw) zero))
         (combine nextLayerDeltas nextLayerWeights))
    zero.
End GradientVocabulary.

(** * Properties *)

(** ** Outcomes *)

Lemma bind_Ok {A B : Type} (m : Outcome A) (k : A -> Outcome B) (b : B) :
  bind m k = Ok b -> exists a, m = Ok a /\ k a = Ok b.
Proof. destruct m; simpl; intros E; try discriminate. eauto. Qed.

Lemma bindM_Ok {S A B : Type} (m : StateM S A) (k : A -> StateM S B) s b s' :
  bindM m k s = Ok (b, s') -> exists a s1, m s = Ok (a, s1) /\ k a s1 = Ok (b, s').
Proof.
  unfold bindM. intros E. apply bind_Ok in E. destruct E as [[a s1] [E1 E2]]. eauto.
Qed.

Lemma mapM_Ok_map {A B : Type} (f : A -> Outcome B) (g : A -> B) (l : list A) :
  Forall (fun x => f x = Ok (g x)) l -> mapM f l = Ok (map g l).
Proof.
  induction 1 as [|x l Hx _ IH]; simpl; [reflexivity|].
  rewrite Hx. simpl. rewrite IH. reflexivity.
Qed.

Lemma mapM_length {A B : Type} (f : A -> Outcome B) (l : list A) (r : list B) :
  mapM f l = Ok r -> length r = length l.
Proof.
  revert r. induction l as [|x l IH]; simpl; intros r E.
  - inversion E. reflexivity.
  - apply bind_Ok in E. destruct E as [y [_ E]].
    apply bind_Ok in E. destruct E as [ys [E1 E2]].
    inversion E2. simpl. f_equal. auto.
Qed.

Lemma NNV_ASSERT_true (mode : BuildMode) : NNV_ASSERT mode true = Ok tt.
Proof. destruct mode; reflexivity. Qed.

Lemma NNV_ASSERT_Release (c : bool) : NNV_ASSERT Release c = Ok tt.
Proof. reflexivity. Qed.

Section LayerProperties.
Context {T : Type} `{Scalar T} `{Libm T}.

Lemma weightedSum_fold (inputs weights : list T) (acc : T) :
  length weights = length inputs ->
  Layer.weightedSum inputs weights acc =
  Ok (fold_left add (map (fun xw => mul (fst xw) (snd xw)) (combine inputs weights)) acc).
Proof.
  revert weights acc.
  induction inputs as [|x xs IH]; intros [|w ws] acc E; simpl in *; try discriminate.
  - reflexivity.
  - apply IH. congruence.
Qed.

Lemma forwardNeuron_matching (mode : BuildMode) (inputs : list T) (n : Neuron.t T) :
  length (Neuron.inputWeights_ n) = length inputs ->
  Layer.forwardNeuron mode inputs n =
  Ok (Neuron.setWeightedInput n (dotProduct inputs (Neuron.inputWeights_ n))).
Proof.
  intros E. unfold Layer.forwardNeuron.
  rewrite E, Nat.eqb_refl, NNV_ASSERT_true. simpl.
  rewrite weightedSum_fold by exact E. reflexivity.
Qed.

Lemma forwardNeuron_mismatch (inputs : list T) (n : Neuron.t T) :
  length (Neuron.inputWeights_ n) <> length inputs ->
  Layer.forwardNeuron Debug inputs n = AssertFailed.
Proof.
  intros E. unfold Layer.forwardNeuron.
  apply Nat.eqb_neq in E. rewrite E. reflexivity.
Qed.

Lemma mapM_forwardNeuron_mismatch (inputs : list T) (ns : list (Neuron.t T)) :
  Exists (fun n => length (Neuron.inputWeights_ n) <> length inputs) ns ->
  mapM (Layer.forwardNeuron Debug inputs) ns = AssertFailed.
Proof.
  induction ns as [|n ns IH]; intros E.
  - inversion E.
  - simpl.
    destruct (Nat.eq_dec (length (Neuron.inputWeights_ n)) (length inputs)) as [Hn|Hn].
    + rewrite forwardNeuron_matching by exact Hn. simpl.
      rewrite IH; [reflexivity|].
      inversion E; subst; [contradiction|assumption].
    + rewrite forwardNeuron_mismatch by exact Hn. reflexivity.
Qed.

Lemma updatedWeights_map (lr delta : T) (weights prev : list T) :
  length weights = length prev ->
  Layer.updatedWeights lr delta weights prev =
  Ok (map (fun wa => sub (fst wa) (mul (mul lr delta) (snd wa))) (combine weights prev)).
Proof.
  revert prev.
  induction weights as [|w ws IH]; intros [|a acts] E; simpl in *; try discriminate.
  - reflexivity.
  - rewrite IH by congruence. reflexivity.
Qed.

Lemma updateNeuron_descended (mode : BuildMode) (lr : T) (prev : list T) (n : Neuron.t T) :
  length (Neuron.inputWeights_ n) = length prev ->
  Layer.updateNeuron mode lr prev n = Ok (descended lr prev n).
Proof.
  intros E. unfold Layer.updateNeuron.
  rewrite E, Nat.eqb_refl, NNV_ASSERT_true. simpl.
  rewrite updatedWeights_map by exact E. reflexivity.
Qed.

Lemma Layer_forward_matching (mode : BuildMode) (l : Layer.t T) (inputs : list T) :
  Layer.neurons_ l <> [] \/ mode = Release ->
  Forall (fun n => length (Neuron.inputWeights_ n) = length inputs) (Layer.neurons_ l) ->
  Layer.forward mode l inputs =
  Ok (Layer.setNeurons l
        (map (fun n => Neuron.setWeightedInput n
                         (dotProduct inputs (Neuron.inputWeights_ n)))
             (Layer.neurons_ l))).
Proof.
  intros Hne Hall. unfold Layer.forward.
  assert (Ha : NNV_ASSERT mode (negb (Nat.eqb (length (Layer.neurons_ l)) 0)) = Ok tt).
  { destruct Hne as [Hne | ->]; [|reflexivity].
    destruct (Layer.neurons_ l); [contradiction|apply NNV_ASSERT_true]. }
  rewrite Ha. simpl.
  rewrite mapM_Ok_map with
    (g := fun n => Neuron.setWeightedInput n (dotProduct inputs (Neuron.inputWeights_ n))).
  - reflexivity.
  - eapply Forall_impl; [|exact Hall].
    intros n Hn. apply forwardNeuron_matching. exact Hn.
Qed.

(** C3 (as amended): when every unit's weight vector has the length of
    [inputs] (and, in a debug build, the layer has a unit), [Layer::forward]
    sets every unit's weighted input to the dot product Σ(input_k × weight_k)
    and changes nothing else; when some unit's weight vector has another
    length, a debug build stops on the failed assertion. *)
Theorem C3_layer_forward (mode : BuildMode) (l : Layer.t T) (inputs : list T) :
  (Layer.neurons_ l <> [] \/ mode = Release ->
   Forall (fun n => length (Neuron.inputWeights_ n) = length inputs) (Layer.neurons_ l) ->
   Layer.forward mode l inputs =
   Ok (Layer.setNeurons l
         (map (fun n => Neuron.setWeightedInput n
                          (dotProduct inputs (Neuron.inputWeights_ n)))
              (Layer.neurons_ l))))
  /\
  (Exists (fun n => length (Neuron.inputWeights_ n) <> length inputs) (Layer.neurons_ l) ->
   Layer.forward Debug l inputs = AssertFailed).
Proof.
  split.
  - apply Layer_forward_matching.
  - intros Hex. unfold Layer.forward.
    destruct (Layer.neurons_ l) as [|n ns] eqn:En; [inversion Hex|].
    simpl NNV_ASSERT. cbn [bind].
    rewrite mapM_forwardNeuron_mismatch by exact Hex. reflexivity.
Qed.

(** C7: for a trainable layer whose units' weight vectors have the length
    of [prevActivations], [Layer::updateWeights] replaces each [weight_k] by
    [weight_k - lr × delta × prevActivations_k] and the bias by
    [bias - lr × delta]; for a layer marked non-trainable it changes no
    weight and no bias. *)
Theorem C7_updateWeights (mode : BuildMode) (l : Layer.t T) (lr : T)
  (prevActivations : list T) :
  (Layer.trainable_ l = true ->
   Forall (fun n => length (Neuron.inputWeights_ n) = length prevActivations)
          (Layer.neurons_ l) ->
   Layer.updateWeights mode l lr prevActivations =
   Ok (Layer.setNeurons l (map (descended lr prevActivations) (Layer.neurons_ l))))
  /\
  (Layer.trainable_ l = false ->
   Layer.updateWeights mode l lr prevActivations = Ok l).
Proof.
  unfold Layer.updateWeights. split.
  - intros Ht Hall. rewrite Ht. simpl.
    rewrite mapM_Ok_map with (g := descended lr prevActivations).
    + reflexivity.
    + eapply Forall_impl; [|exact Hall].
      intros n Hn. apply updateNeuron_descended. exact Hn.
  - intros Ht. rewrite Ht. reflexivity.
Qed.
End LayerProperties.

Section BatchProperties.
Context {T : Type} `{Scalar T} `{Libm T}.

Lemma size_add_of_nat (k : nat) (B : N) :
  (N.of_nat k + B < 2 ^ 64)%N ->
  NeuralNetwork.size_add (N.of_nat k) B = N.of_nat (k + N.to_nat B).
Proof.
  intros Hlt. unfold NeuralNetwork.size_add.
  rewrite N.mod_small by exact Hlt. lia.
Qed.

Lemma range_of_nat {A : Type} (v : list A) (k e : nat) :
  k <= e -> e <= length v ->
  NeuralNetwork.range v (N.of_nat k) (N.of_nat e) = Ok (firstn (e - k) (skipn k v)).
Proof.
  intros Hke Hev. unfold NeuralNetwork.range.
  replace (N.of_nat k <=? N.of_nat e)%N with true by (symmetry; apply N.leb_le; lia).
  replace (N.of_nat e <=? N.of_nat (length v))%N with true
    by (symmetry; apply N.leb_le; lia).
  simpl. rewrite !Nat2N.id. reflexivity.
Qed.

(** No wrap-around: an index reached by the loop is [0] or at least one
    batch size, and it is below the size of a vector. *)
Lemma index_no_wrap (k n : nat) (B : N) :
  (N.of_nat n < 2 ^ 63)%N -> (B < 2 ^ 64)%N -> k < n ->
  k = 0 \/ N.to_nat B <= k ->
  (N.of_nat k + B < 2 ^ 64)%N.
Proof.
  intros Hn HB Hk Hinv.
  change (2 ^ 63)%N with 9223372036854775808%N in Hn.
  change (2 ^ 64)%N with 18446744073709551616%N in *.
  lia.
Qed.

Lemma createBatch_of_nat (inputs targets : list (list T)) (B : N) (k : nat) :
  (N.of_nat (length inputs) < 2 ^ 63)%N -> (B < 2 ^ 64)%N ->
  length targets = length inputs ->
  k < length inputs -> k = 0 \/ N.to_nat B <= k ->
  let e := Nat.min (k + N.to_nat B) (length inputs) in
  NeuralNetwork.createBatch inputs targets B (N.of_nat k) =
  Ok ((firstn (e - k) (skipn k inputs), firstn (e - k) (skipn k targets)),
      N.of_nat (k + N.to_nat B)).
Proof.
  intros Hn HB Ht Hk Hinv e. unfold NeuralNetwork.createBatch.
  rewrite size_add_of_nat by (eapply index_no_wrap; eassumption).
  replace (N.min (N.of_nat (k + N.to_nat B)) (N.of_nat (length inputs)))
    with (N.of_nat e) by (unfold e; lia).
  rewrite !range_of_nat by (unfold e; lia).
  reflexivity.
Qed.

Lemma ceilDiv_0 (b : nat) : 1 <= b -> ceilDiv 0 b = 0.
Proof. intros Hb. unfold ceilDiv. apply Nat.div_small. lia. Qed.

Lemma ceilDiv_step (m b : nat) :
  1 <= b -> 1 <= m -> ceilDiv m b = S (ceilDiv (m - b) b).
Proof.
  intros Hb Hm. unfold ceilDiv.
  destruct (Nat.le_gt_cases m b) as [Hle|Hgt].
  - replace (m - b) with 0 by lia.
    rewrite (Nat.div_small (0 + b - 1) b) by lia.
    replace (m + b - 1) with ((m - 1) + 1 * b) by lia.
    rewrite Nat.div_add by lia.
    rewrite Nat.div_small by lia. reflexivity.
  - replace (m + b - 1) with ((m - b + b - 1) + 1 * b) by lia.
    rewrite Nat.div_add by lia. lia.
Qed.

Lemma emplace_back_fits {A : Type} (v : list A) (x : A) :
  (N.of_nat (length v) < NeuralNetwork.max_elements)%N ->
  NeuralNetwork.emplace_back v x = Ok (v ++ [x]).
Proof.
  intros Hv. unfold NeuralNetwork.emplace_back.
  replace (N.of_nat (length v) <? NeuralNetwork.max_elements)%N with true
    by (symmetry; apply N.ltb_lt; exact Hv).
  reflexivity.
Qed.


Section Loop.
Variables (inputs targets : list (list T)) (B : N).
Hypothesis Hsize : (N.of_nat (length inputs) < 2 ^ 63)%N.
Hypothesis HB : (1 <= B < 2 ^ 64)%N.

(** The batch vector has room: every batch made so far took a sample. *)
Lemma batches_fit (k : nat) (acc : list (NeuralNetwork.Batch (T := T)))
  (batch : NeuralNetwork.Batch (T := T)) :
  k < length inputs -> length acc <= k ->
  NeuralNetwork.emplace_back acc batch = Ok (acc ++ [batch]).
Proof.
  intros Hk Hacc. apply emplace_back_fits. unfold NeuralNetwork.max_elements.
  change (2 ^ 63)%N with 9223372036854775808%N in *. lia.
Qed.

Lemma createBatchesFrom_done (fuel : nat) (i : N) (acc : list NeuralNetwork.Batch) :
  (N.of_nat (length inputs) <= i)%N ->
  NeuralNetwork.createBatchesFrom (S fuel) inputs targets B i acc = Ok acc.
Proof.
  intros Hi. simpl.
  replace (i <? N.of_nat (length inputs))%N with false
    by (symmetry; apply N.ltb_ge; exact Hi).
  reflexivity.
Qed.

Lemma createBatchesFrom_cover (fuel k : nat) (acc : list NeuralNetwork.Batch) :
  length targets = length inputs ->
  k = 0 \/ N.to_nat B <= k ->
  length acc <= k ->
  length inputs - k < fuel ->
  exists batches,
    NeuralNetwork.createBatchesFrom fuel inputs targets B (N.of_nat k) acc
    = Ok (acc ++ batches) /\
    batchesCover (N.to_nat B) batches (skipn k inputs) (skipn k targets).
Proof.
  intros Ht. revert k acc.
  induction fuel as [|fuel IH]; intros k acc Hinv Hacc Hfuel; [lia|].
  destruct (Nat.le_gt_cases (length inputs) k) as [Hdone|Hk].
  - exists []. rewrite createBatchesFrom_done by lia.
    rewrite app_nil_r. split; [reflexivity|].
    rewrite !skipn_all2 by lia.
    unfold batchesCover; simpl. rewrite ceilDiv_0 by lia.
    repeat split; constructor.
  - simpl.
    replace (N.of_nat k <? N.of_nat (length inputs))%N with true
      by (symmetry; apply N.ltb_lt; lia).
    rewrite createBatch_of_nat by (try lia; try assumption).
    cbn [bind fst snd]. rewrite (@batches_fit k acc _ Hk Hacc). cbn [bind].
    destruct (IH (k + N.to_nat B)
                (acc ++ [(firstn (Nat.min (k + N.to_nat B) (length inputs) - k)
                                 (skipn k inputs),
                          firstn (Nat.min (k + N.to_nat B) (length inputs) - k)
                                 (skipn k targets))]))
      as [rest [Erest Hcover]]; [lia|rewrite length_app; simpl; lia|lia|].
    eexists (_ :: rest). split.
    { rewrite <- app_assoc in Erest. exact Erest. }
    destruct Hcover as [Hlen [Hall [Hfull [Hin Htg]]]].
    rewrite length_skipn in Hlen.
    unfold batchesCover. rewrite !length_skipn.
    assert (Hcut : forall v : list (list T), length v = length inputs ->
              firstn (Nat.min (k + N.to_nat B) (length inputs) - k) (skipn k v)
              ++ skipn (k + N.to_nat B) v = skipn k v).
    { intros v Hv.
      destruct (Nat.le_gt_cases (k + N.to_nat B) (length inputs)) as [Hfit|Hlast].
      - replace (Nat.min (k + N.to_nat B) (length inputs) - k) with (N.to_nat B) by lia.
        replace (k + N.to_nat B) with (N.to_nat B + k) by lia.
        rewrite <- skipn_skipn. apply firstn_skipn.
      - rewrite (skipn_all2 (n := k + N.to_nat B)) by lia.
        rewrite app_nil_r. apply firstn_all2. rewrite length_skipn. lia. }
    repeat split.
    + simpl. rewrite Hlen.
      rewrite (ceilDiv_step (m := length inputs - k)) by lia.
      f_equal. f_equal. lia.
    + constructor; [|exact Hall]. simpl.
      rewrite !length_firstn, !length_skipn. lia.
    + destruct rest as [|r rest']; [constructor|].
      change (removelast (?x :: r :: rest')) with (x :: removelast (r :: rest')).
      constructor; [|exact Hfull]. simpl.
      rewrite length_firstn, length_skipn.
      assert (k + N.to_nat B < length inputs).
      { destruct (Nat.le_gt_cases (length inputs) (k + N.to_nat B)) as [Hle|]; [|lia].
        simpl in Hlen.
        replace (length inputs - (k + N.to_nat B)) with 0 in Hlen by lia.
        rewrite ceilDiv_0 in Hlen by lia. discriminate. }
      lia.
    + simpl. rewrite Hin. apply Hcut. reflexivity.
    + simpl. rewrite Htg. apply Hcut. exact Ht.
Qed.


End Loop.




(** C5: for every list of samples and every batch size [B >= 1],
    [createBatches] returns exactly ceil(N/B) batches, each of at most [B]
    samples and all but possibly the last of exactly [B], whose
    concatenation in order is the list of samples: the inputs and, next to
    them, the targets.  ([B] is a [std::size_t] and [N] the size of a
    vector; the loop finishes within [N + 1] evaluations of its
    condition.) *)
Theorem C5_createBatches (inputs targets : list (list T)) (B : N) (fuel : nat) :
  (1 <= B < 2 ^ 64)%N ->
  (N.of_nat (length inputs) < 2 ^ 63)%N ->
  length targets = length inputs ->
  length inputs < fuel ->
  exists batches,
    NeuralNetwork.createBatches fuel inputs targets B = Ok batches /\
    batchesCover (N.to_nat B) batches inputs targets.
Proof.
  intros HB Hsize Ht Hfuel. unfold NeuralNetwork.createBatches.
  destruct (@createBatchesFrom_cover inputs targets B Hsize HB fuel 0 [] Ht)
    as [batches [E Hcover]]; [left; reflexivity|simpl; lia|lia|].
  exists batches. split; [exact E|exact Hcover].
Qed.
End BatchProperties.

Section AccuracyProperties.
Context {T : Type} `{Scalar T} `{Libm T}.

Lemma sampleCorrect_counts (output target : list T) :
  (length output = 1 -> target <> []) ->
  NeuralNetwork.sampleCorrect output target = Ok (countsAsCorrect output target).
Proof.
  intros Ht. unfold NeuralNetwork.sampleCorrect, countsAsCorrect.
  destruct (Nat.eqb (length output) 1) eqn:E; [|reflexivity].
  apply Nat.eqb_eq in E. specialize (Ht E).
  destruct output as [|o [|]]; try discriminate.
  destruct target as [|t ts]; [contradiction|].
  reflexivity.
Qed.

Lemma countCorrect_count (outputs targets : list (list T)) (correct : nat) :
  Forall2 (fun o t => length o = 1 -> t <> []) outputs targets ->
  NeuralNetwork.countCorrect outputs targets correct
  = Ok (correct + correctCount outputs targets).
Proof.
  intros Hall. revert correct.
  induction Hall as [|o t os ts Hot _ IH]; intros correct; simpl.
  - unfold correctCount. simpl. f_equal. lia.
  - rewrite sampleCorrect_counts by exact Hot. cbn [bind].
    rewrite IH. unfold correctCount. simpl.
    destruct (countsAsCorrect o t); simpl; f_equal; lia.
Qed.

(** C6 (as amended): for non-empty lists of outputs and targets of equal
    length, [computeAccuracy] counts a single-output sample as correct
    exactly when [|p - target| < 0.5], where [p] is 1 if the output exceeds
    0.5 and 0 otherwise, and a multi-output sample exactly when the first
    largest output and the first largest target have the same index; it
    returns the count of correct samples divided by the number of samples.
    (The target of a single-output sample has at least one entry.) *)
Theorem C6_computeAccuracy (outputs targets : list (list T)) :
  outputs <> [] ->
  length targets = length outputs ->
  Forall2 (fun o t => length o = 1 -> t <> []) outputs targets ->
  NeuralNetwork.computeAccuracy outputs targets
  = Ok (div (of_size (correctCount outputs targets)) (of_size (length outputs))).
Proof.
  intros Hne Hlen Hall. unfold NeuralNetwork.computeAccuracy.
  rewrite Hlen, Nat.eqb_refl.
  destruct outputs as [|o os]; [contradiction|].
  simpl length. simpl Nat.eqb. cbn [orb negb].
  rewrite countCorrect_count by exact Hall. reflexivity.
Qed.
End AccuracyProperties.

Section PersistenceProperties.
Context {T : Type} `{Scalar T} `{Libm T}.

Lemma get_vector_of_vector (v : list T) : Json.get_vector (Json.of_vector v) = Ok v.
Proof.
  unfold Json.get_vector, Json.of_vector.
  induction v as [|x v IH]; simpl; [reflexivity|].
  rewrite of_to_double, IH. reflexivity.
Qed.

Lemma Neuron_roundtrip (n m : Neuron.t T) :
  exists json, Neuron.toJson n = Ok json /\ Neuron.fromJson json m = Ok n.
Proof.
  eexists. split; [reflexivity|].
  destruct n. cbn - [Json.get_vector Json.of_vector].
  rewrite get_vector_of_vector. cbn. rewrite !of_to_double. reflexivity.
Qed.

Lemma neurons_roundtrip (ns : list (Neuron.t T)) :
  exists jsons,
    mapM Neuron.toJson ns = Ok jsons /\
    mapM (fun neuronJson => Neuron.fromJson neuronJson (Neuron.make 0%N)) jsons = Ok ns.
Proof.
  induction ns as [|n ns [jsons [E1 E2]]].
  - exists []. split; reflexivity.
  - destruct (Neuron_roundtrip n (Neuron.make 0%N)) as [json [En1 En2]].
    exists (json :: jsons). cbn [mapM]. rewrite En1, En2. cbn [bind]. rewrite E1, E2.
    split; reflexivity.
Qed.

Lemma ActivationType_roundtrip (a : ActivationType.t) :
  ActivationType.of_int (Json.wrap_int (ActivationType.to_int a)) = Some a.
Proof. destruct a; reflexivity. Qed.

Lemma LossType_roundtrip (l : LossType.t) :
  LossType.of_int (Json.wrap_int (LossType.to_int l)) = Some l.
Proof. destruct l; reflexivity. Qed.

Lemma OptimizerType_roundtrip (o : OptimizerType.t) :
  OptimizerType.of_int (Json.wrap_int (OptimizerType.to_int o)) = Some o.
Proof. destruct o; reflexivity. Qed.

Lemma resize_repeat (mask : list bool) (n : nat) :
  Forall (fun b => b = true) mask -> Layer.resize mask n = repeat true n.
Proof.
  unfold Layer.resize. revert n.
  induction mask as [|b mask IH]; intros n Hall.
  - rewrite firstn_nil. simpl. f_equal. lia.
  - inversion Hall; subst. destruct n as [|n]; [reflexivity|].
    simpl. f_equal. apply IH. assumption.
Qed.

Lemma Layer_roundtrip (l m : Layer.t T) :
  exists json,
    Layer.toJson l = Ok json /\
    Layer.fromJson json m
    = Ok (Layer.mk (Layer.neurons_ l) (Layer.name_ l) (Layer.activationType_ l)
                   (Layer.dropoutRate_ l) (Layer.trainable_ l)
                   (Layer.resize (Layer.dropoutMask_ m) (length (Layer.neurons_ l)))).
Proof.
  destruct (neurons_roundtrip (Layer.neurons_ l)) as [jsons [E1 E2]].
  unfold Layer.toJson. rewrite E1.
  eexists. split; [reflexivity|].
  unfold Layer.fromJson.
  cbn - [ActivationType.of_int Json.wrap_int mapM Layer.resize].
  rewrite ActivationType_roundtrip.
  cbn - [mapM Layer.resize]. rewrite E2.
  cbn - [Layer.resize]. rewrite of_to_double. reflexivity.
Qed.

Lemma layers_roundtrip (ls : list (Layer.t T)) :
  exists jsons,
    mapM Layer.toJson ls = Ok jsons /\
    mapM (fun layerJson =>
            Layer.fromJson layerJson (Layer.make 1 ActivationType.ReLU "")) jsons
    = Ok (map reloaded ls).
Proof.
  induction ls as [|l ls [jsons [E1 E2]]].
  - exists []. split; reflexivity.
  - destruct (Layer_roundtrip l (Layer.make 1 ActivationType.ReLU "")) as [json [El1 El2]].
    exists (json :: jsons). cbn [mapM]. rewrite El1, El2. cbn [bind]. rewrite E1, E2.
    split; [reflexivity|]. simpl. f_equal. f_equal.
    unfold reloaded. f_equal. apply resize_repeat. repeat constructor.
Qed.

Lemma NeuralNetwork_roundtrip (n m : NeuralNetwork.t T) :
  exists json,
    NeuralNetwork.toJson n = Ok json /\
    NeuralNetwork.fromJson json m
    = Ok (NeuralNetwork.mk (NeuralNetwork.name_ n) (map reloaded (NeuralNetwork.layers_ n))
            (NeuralNetwork.learningRate_ n) (NeuralNetwork.lossType_ n)
            (NeuralNetwork.optimizerType_ n) (NeuralNetwork.isTraining_ m)
            (NeuralNetwork.shouldStop_ m) (NeuralNetwork.trainingProgress_ m)).
Proof.
  destruct (layers_roundtrip (NeuralNetwork.layers_ n)) as [jsons [E1 E2]].
  unfold NeuralNetwork.toJson. rewrite E1.
  eexists. split; [reflexivity|].
  unfold NeuralNetwork.fromJson.
  cbn - [LossType.of_int OptimizerType.of_int Json.wrap_int mapM].
  rewrite LossType_roundtrip.
  cbn - [LossType.of_int OptimizerType.of_int Json.wrap_int mapM].
  rewrite OptimizerType_roundtrip.
  cbn - [mapM]. rewrite E2.
  cbn. rewrite of_to_double. reflexivity.
Qed.

Lemma reloaded_sameParameters (ls : list (Layer.t T)) :
  Forall2 sameParameters (map reloaded ls) ls.
Proof.
  induction ls as [|l ls IH]; simpl; constructor; [|exact IH].
  unfold sameParameters, reloaded. simpl. repeat split; reflexivity.
Qed.

(** C1: for every network, [toJson] followed by [fromJson] (into any
    network object) yields a network with the same number of layers, each
    with the same size, activation type, dropout rate and trainable flag and
    exactly the same weight vector and bias for every unit, and with the
    same learning rate, loss tag and optimizer tag. *)
Theorem C1_json_roundtrip (n m : NeuralNetwork.t T) :
  exists json r,
    NeuralNetwork.toJson n = Ok json /\
    NeuralNetwork.fromJson json m = Ok r /\
    NeuralNetwork.getLayerCount r = NeuralNetwork.getLayerCount n /\
    Forall2 sameParameters (NeuralNetwork.layers_ r) (NeuralNetwork.layers_ n) /\
    NeuralNetwork.learningRate_ r = NeuralNetwork.learningRate_ n /\
    NeuralNetwork.lossType_ r = NeuralNetwork.lossType_ n /\
    NeuralNetwork.optimizerType_ r = NeuralNetwork.optimizerType_ n.
Proof.
  destruct (NeuralNetwork_roundtrip n m) as [json [E1 E2]].
  exists json. eexists. split; [exact E1|]. split; [exact E2|].
  unfold NeuralNetwork.getLayerCount. simpl.
  rewrite length_map. repeat split. apply reloaded_sameParameters.
Qed.
End PersistenceProperties.

Section ForwardProperties.
Context {T : Type} `{Scalar T} `{Libm T}.
Variable mode : BuildMode.
Variable uniform01 : nat -> T.

Lemma settled_setActivation (n : Neuron.t T) (a : T) :
  settled (Neuron.setActivation n a) = settled n.
Proof. destruct n; reflexivity. Qed.

Lemma settled_setWeightedInput (n : Neuron.t T) (x : T) :
  settled (Neuron.setWeightedInput n x) = settled n.
Proof. destruct n; reflexivity. Qed.

Lemma settled_weights (n n' : Neuron.t T) :
  settled n = settled n' ->
  Neuron.inputWeights_ n = Neuron.inputWeights_ n' /\ Neuron.bias_ n = Neuron.bias_ n'.
Proof.
  destruct n, n'; unfold settled; simpl; intros E; inversion E; subst; auto.
Qed.

Lemma mapM_Forall2 {A B : Type} (R : B -> A -> Prop) (f : A -> Outcome B)
  (l : list A) (r : list B) :
  (forall a b, f a = Ok b -> R b a) -> mapM f l = Ok r -> Forall2 R r l.
Proof.
  intros Hf. revert r. induction l as [|a l IH]; simpl; intros r E.
  - inversion E. constructor.
  - apply bind_Ok in E. destruct E as [b [Eb E]].
    apply bind_Ok in E. destruct E as [bs [Ebs E]].
    inversion E; subst. constructor; auto.
Qed.

Lemma assignEach_Forall2 {V : Type} (R : Neuron.t T -> Neuron.t T -> Prop)
  (set : Neuron.t T -> V -> Neuron.t T) (ns : list (Neuron.t T)) (vs : list V)
  (r : list (Neuron.t T)) :
  (forall n v, R (set n v) n) -> Layer.assignEach set ns vs = Ok r -> Forall2 R r ns.
Proof.
  intros Hset. revert vs r.
  induction ns as [|n ns IH]; intros vs r E; simpl in E.
  - inversion E. constructor.
  - destruct vs as [|v vs]; [discriminate|].
    apply bind_Ok in E. destruct E as [r' [Er E]].
    inversion E; subst. constructor; eauto.
Qed.

Lemma assignEach_total {V : Type} (set : Neuron.t T -> V -> Neuron.t T)
  (ns : list (Neuron.t T)) (vs : list V) :
  length ns <= length vs -> exists r, Layer.assignEach set ns vs = Ok r.
Proof.
  revert vs. induction ns as [|n ns IH]; intros vs Hlen; simpl.
  - eauto.
  - destruct vs as [|v vs]; simpl in Hlen; [lia|].
    destruct (IH vs) as [r Er]; [lia|]. rewrite Er. simpl. eauto.
Qed.

Lemma sameUnits_refl (l : Layer.t T) : sameUnits l l.
Proof.
  unfold sameUnits. repeat split.
  induction (Layer.neurons_ l); constructor; auto.
Qed.

Lemma Forall2_trans_eq {A B : Type} (f : A -> B) (l1 l2 l3 : list A) :
  Forall2 (fun a b => f a = f b) l1 l2 -> Forall2 (fun a b => f a = f b) l2 l3 ->
  Forall2 (fun a b => f a = f b) l1 l3.
Proof.
  intros H12. revert l3. induction H12; intros l3 H23; inversion H23; subst;
    constructor; [congruence|auto].
Qed.

Lemma sameUnits_trans (a b c : Layer.t T) : sameUnits a b -> sameUnits b c -> sameUnits a c.
Proof.
  unfold sameUnits. intros [U1 [N1 [A1 [D1 [T1 M1]]]]] [U2 [N2 [A2 [D2 [T2 M2]]]]].
  repeat split; try congruence.
  eapply Forall2_trans_eq; eassumption.
Qed.

Lemma sameUnits_size (a b : Layer.t T) : sameUnits a b -> Layer.getSize a = Layer.getSize b.
Proof. intros [U _]. unfold Layer.getSize. eapply Forall2_length; eassumption. Qed.

Lemma setNeurons_sameUnits (l : Layer.t T) (ns : list (Neuron.t T)) :
  Forall2 (fun n n' => settled n = settled n') ns (Layer.neurons_ l) ->
  sameUnits (Layer.setNeurons l ns) l.
Proof. intros U. unfold sameUnits. simpl. repeat split. exact U. Qed.

Lemma Layer_forward_sameUnits (l l' : Layer.t T) (inputs : list T) :
  Layer.forward mode l inputs = Ok l' -> sameUnits l' l.
Proof.
  unfold Layer.forward. intros E.
  apply bind_Ok in E. destruct E as [_ [_ E]].
  apply bind_Ok in E. destruct E as [ns [Ens E]]. inversion E; subst.
  apply setNeurons_sameUnits.
  eapply mapM_Forall2; [|exact Ens].
  intros n n' En. unfold Layer.forwardNeuron in En.
  apply bind_Ok in En. destruct En as [_ [_ En]].
  apply bind_Ok in En. destruct En as [s0 [_ En]]. inversion En; subst.
  apply settled_setWeightedInput.
Qed.

Lemma map_Forall2 {A : Type} (R : A -> A -> Prop) (f : A -> A) (l : list A) :
  (forall a, R (f a) a) -> Forall2 R (map f l) l.
Proof. intros Hf. induction l; simpl; constructor; auto. Qed.

Lemma applyActivation_sameUnits (l l' : Layer.t T) :
  Layer.applyActivation l = Ok l' -> sameUnits l' l.
Proof.
  unfold Layer.applyActivation. intros E.
  destruct (ActivationType.is_softmax (Layer.activationType_ l)).
  - apply bind_Ok in E. destruct E as [outs [_ E]].
    apply bind_Ok in E. destruct E as [ns [Ens E]]. inversion E; subst.
    apply setNeurons_sameUnits.
    eapply assignEach_Forall2; [|exact Ens].
    intros n v. apply settled_setActivation.
  - inversion E; subst. apply setNeurons_sameUnits.
    apply map_Forall2. intros n. apply settled_setActivation.
Qed.

Lemma dropoutLoop_settled (keepProb : T) (mask : list bool) (ns : list (Neuron.t T))
  (k : nat) r :
  Layer.dropoutLoop uniform01 keepProb mask ns k = Ok r ->
  Forall2 (fun n n' => settled n = settled n') (snd (fst r)) ns /\
  length (fst (fst r)) = length mask.
Proof.
  revert ns k r. induction mask as [|m mask IH]; intros ns k r E; simpl in E.
  - inversion E; subst. simpl. split; [|reflexivity].
    induction ns; constructor; auto.
  - destruct ns as [|n ns]; [discriminate|].
    apply bind_Ok in E. destruct E as [r' [Er E]]. inversion E; subst. simpl.
    destruct (IH _ _ _ Er) as [U L]. split; [|congruence].
    constructor; [|exact U].
    destruct (ltb _ _); apply settled_setActivation.
Qed.

Lemma dropoutLoop_total (keepProb : T) (mask : list bool) (ns : list (Neuron.t T))
  (k : nat) :
  length mask <= length ns ->
  exists r, Layer.dropoutLoop uniform01 keepProb mask ns k = Ok r.
Proof.
  revert ns k. induction mask as [|m mask IH]; intros ns k Hlen; simpl.
  - eauto.
  - destruct ns as [|n ns]; simpl in Hlen; [lia|].
    destruct (IH ns (S k)) as [r Er]; [lia|]. rewrite Er. simpl. eauto.
Qed.

Lemma applyDropout_sameUnits (training : bool) (l : Layer.t T) (k : nat) r :
  Layer.applyDropout uniform01 training l k = Ok r -> sameUnits (fst r) l.
Proof.
  unfold Layer.applyDropout. intros E.
  destruct (negb training || leb (Layer.dropoutRate_ l) zero).
  - inversion E; subst. simpl. unfold sameUnits. simpl.
    rewrite length_map. repeat split.
    induction (Layer.neurons_ l); constructor; auto.
  - apply bind_Ok in E. destruct E as [r' [Er E]]. inversion E; subst. simpl.
    destruct (dropoutLoop_settled _ _ _ _ Er) as [U L].
    unfold sameUnits. simpl. repeat split; assumption.
Qed.

Lemma applyDropout_total (training : bool) (l : Layer.t T) (k : nat) :
  length (Layer.dropoutMask_ l) <= length (Layer.neurons_ l) ->
  exists r, Layer.applyDropout uniform01 training l k = Ok r.
Proof.
  intros Hlen. unfold Layer.applyDropout.
  destruct (negb training || leb (Layer.dropoutRate_ l) zero); [eauto|].
  destruct (dropoutLoop_total (sub one (Layer.dropoutRate_ l)) _ _ k Hlen) as [r Er].
  rewrite Er. simpl. eauto.
Qed.

Lemma softmax_total (x : list T) :
  x <> [] -> exists r, activation.softmax x = Ok r /\ length r = length x.
Proof.
  intros Hne. destruct x as [|a x]; [contradiction|].
  unfold activation.softmax. eexists. split; [reflexivity|].
  rewrite !length_map. reflexivity.
Qed.

Lemma applyActivation_total (l : Layer.t T) :
  Layer.neurons_ l <> [] -> exists l', Layer.applyActivation l = Ok l'.
Proof.
  intros Hne. unfold Layer.applyActivation.
  destruct (ActivationType.is_softmax (Layer.activationType_ l)); [|eauto].
  destruct (softmax_total
              (x := map (fun neuron => add (Neuron.weightedInput_ neuron)
                                           (Neuron.bias_ neuron)) (Layer.neurons_ l)))
    as [outs [Eo Lo]].
  { destruct (Layer.neurons_ l); [contradiction|discriminate]. }
  rewrite Eo. cbn [bind].
  destruct (assignEach_total Neuron.setActivation (Layer.neurons_ l) outs) as [ns Ens].
  { rewrite Lo, length_map. lia. }
  rewrite Ens. simpl. eauto.
Qed.

Lemma forwardLayers_sameUnits (training : bool) (prev : list T)
  (layers : list (Layer.t T)) (k : nat) r :
  NeuralNetwork.forwardLayers mode uniform01 training prev layers k = Ok r ->
  Forall2 sameUnits (fst r) layers.
Proof.
  revert prev k r. induction layers as [|l rest IH]; intros prev k r E; simpl in E.
  - inversion E. constructor.
  - apply bind_Ok in E. destruct E as [l1 [E1 E]].
    apply bind_Ok in E. destruct E as [l2 [E2 E]].
    apply bind_Ok in E. destruct E as [r3 [E3 E]].
    apply bind_Ok in E. destruct E as [r' [Er E]].
    inversion E; subst. simpl. constructor; [|eapply IH; exact Er].
    eapply sameUnits_trans; [eapply applyDropout_sameUnits; exact E3|].
    eapply sameUnits_trans; [eapply applyActivation_sameUnits; exact E2|].
    eapply Layer_forward_sameUnits; exact E1.
Qed.

Lemma forwardLayers_total (training : bool) (prev : list T)
  (layers : list (Layer.t T)) (k : nat) :
  chainFits (length prev) layers ->
  exists r, NeuralNetwork.forwardLayers mode uniform01 training prev layers k = Ok r.
Proof.
  revert prev k. induction layers as [|l rest IH]; intros prev k Hfit; simpl.
  - eauto.
  - destruct Hfit as [[Hne [Hw Hm]] Hrest].
    pose proof (@Layer_forward_matching _ _ mode l prev (or_introl Hne) Hw) as E1.
    rewrite E1. cbn [bind].
    pose proof (Layer_forward_sameUnits _ _ E1) as S1.
    destruct (@applyActivation_total
                (Layer.setNeurons l
                   (map (fun n => Neuron.setWeightedInput n
                                    (dotProduct prev (Neuron.inputWeights_ n)))
                        (Layer.neurons_ l)))) as [l2 E2].
    { simpl. destruct (Layer.neurons_ l); [contradiction|discriminate]. }
    rewrite E2. cbn [bind].
    pose proof (applyActivation_sameUnits _ E2) as S2.
    pose proof (sameUnits_trans S2 S1) as S12.
    destruct (@applyDropout_total training l2 k) as [r3 E3].
    { pose proof (sameUnits_size S12) as Hs. unfold Layer.getSize in Hs.
      destruct S12 as [_ [_ [_ [_ [_ Hmask]]]]]. lia. }
    rewrite E3. cbn [bind].
    pose proof (applyDropout_sameUnits _ _ _ E3) as S3.
    pose proof (sameUnits_trans S3 S12) as S.
    destruct (IH (Layer.getActivations (fst r3)) (snd r3)) as [r' Er].
    { unfold Layer.getActivations. rewrite length_map.
      fold (Layer.getSize (fst r3)). rewrite (sameUnits_size S). exact Hrest. }
    rewrite Er. simpl. eauto.
Qed.

Lemma setActivations_Ok (l : Layer.t T) (activations : list T) :
  length activations = Layer.getSize l ->
  exists l', Layer.setActivations mode l activations = Ok l' /\ sameUnits l' l.
Proof.
  intros Hlen. unfold Layer.setActivations.
  unfold Layer.getSize in Hlen. rewrite Hlen, Nat.eqb_refl, NNV_ASSERT_true. cbn [bind].
  destruct (assignEach_total Neuron.setActivation (Layer.neurons_ l) activations)
    as [ns Ens]; [lia|].
  rewrite Ens. simpl. eexists. split; [reflexivity|].
  apply setNeurons_sameUnits.
  eapply assignEach_Forall2; [|exact Ens].
  intros n v. apply settled_setActivation.
Qed.

Lemma Forall2_last {A : Type} (R : A -> A -> Prop) (l l' : list A) (d d' : A) :
  Forall2 R l l' -> R d d' -> R (last l d) (last l' d').
Proof.
  intros Hl. revert d d'. induction Hl as [|a b l l' Hab Hl IH]; intros d d' Hd.
  - exact Hd.
  - destruct Hl as [|a' b' l l' Hab' Hl].
    + exact Hab.
    + change (R (last (a' :: l) d) (last (b' :: l') d')). apply IH. exact Hd.
Qed.

(** What [forward] does to the state when it goes past its two checks. *)
Lemma forward_run (inputs : list T) (s : NeuralNetwork.state T)
  (input : Layer.t T) (rest : list (Layer.t T)) :
  NeuralNetwork.layers_ (NeuralNetwork.self s) = input :: rest ->
  length inputs = Layer.getSize input ->
  NeuralNetwork.forward mode uniform01 inputs s =
  (input' <- Layer.setActivations mode input inputs ;;
   r <- NeuralNetwork.forwardLayers mode uniform01
          (NeuralNetwork.isTraining_ (NeuralNetwork.self s))
          (Layer.getActivations input') rest (NeuralNetwork.drawn s) ;;
   Ok (Layer.getActivations (last (fst r) input'),
       NeuralNetwork.mkState
         (NeuralNetwork.setLayers (NeuralNetwork.self s) (input' :: fst r))
         (NeuralNetwork.logged s) (snd r))).
Proof.
  intros Hl Hlen. unfold NeuralNetwork.forward, bindM, NeuralNetwork.get.
  cbn [bind fst snd]. rewrite Hl, Hlen, Nat.eqb_refl. cbn [negb].
  unfold lift. destruct (Layer.setActivations mode input inputs) as [input'| | | | |];
    try reflexivity.
  cbn [bind fst snd]. unfold NeuralNetwork.drawing.
  destruct (NeuralNetwork.forwardLayers _ _ _ _ _ _) as [r| | | | |]; reflexivity.
Qed.

Lemma forward_empty (inputs : list T) (s : NeuralNetwork.state T) :
  NeuralNetwork.layers_ (NeuralNetwork.self s) = [] ->
  NeuralNetwork.forward mode uniform01 inputs s =
  Ok ([], NeuralNetwork.mkState (NeuralNetwork.self s)
            (NeuralNetwork.logged s
             ++ [(LogError, "Cannot perform forward pass on empty network"%string)])
            (NeuralNetwork.drawn s)).
Proof.
  intros Hl. unfold NeuralNetwork.forward, bindM, NeuralNetwork.get.
  cbn [bind fst snd]. rewrite Hl. reflexivity.
Qed.

Lemma forward_mismatch (inputs : list T) (s : NeuralNetwork.state T)
  (input : Layer.t T) (rest : list (Layer.t T)) :
  NeuralNetwork.layers_ (NeuralNetwork.self s) = input :: rest ->
  length inputs <> Layer.getSize input ->
  NeuralNetwork.forward mode uniform01 inputs s =
  Ok ([], NeuralNetwork.mkState (NeuralNetwork.self s)
            (NeuralNetwork.logged s
             ++ [(LogError, "Input size {} doesn't match first layer size {}"%string)])
            (NeuralNetwork.drawn s)).
Proof.
  intros Hl Hlen. unfold NeuralNetwork.forward, bindM, NeuralNetwork.get.
  cbn [bind fst snd]. rewrite Hl. apply Nat.eqb_neq in Hlen. rewrite Hlen. reflexivity.
Qed.

(** C2 (as amended): [forward] returns an empty result when the network
    has no layer or when the input length differs from the first layer's
    size; otherwise, for a network that satisfies the invariant of the data
    model, it returns a vector whose length is the size of the last
    layer. *)
Theorem C2_forward (inputs : list T) (s : NeuralNetwork.state T) :
  (NeuralNetwork.layers_ (NeuralNetwork.self s) = [] ->
   exists s', NeuralNetwork.forward mode uniform01 inputs s = Ok ([], s'))
  /\
  (forall input rest,
     NeuralNetwork.layers_ (NeuralNetwork.self s) = input :: rest ->
     length inputs <> Layer.getSize input ->
     exists s', NeuralNetwork.forward mode uniform01 inputs s = Ok ([], s'))
  /\
  (forall input rest,
     NeuralNetwork.layers_ (NeuralNetwork.self s) = input :: rest ->
     length inputs = Layer.getSize input ->
     wellFormed (NeuralNetwork.self s) ->
     exists outputs s',
       NeuralNetwork.forward mode uniform01 inputs s = Ok (outputs, s') /\
       length outputs = Layer.getSize (last rest input)).
Proof.
  split; [|split].
  - intros Hl. rewrite forward_empty by exact Hl. eauto.
  - intros input rest Hl Hlen. rewrite (forward_mismatch _ _ Hl Hlen). eauto.
  - intros input rest Hl Hlen Hwf.
    rewrite (forward_run _ _ Hl Hlen).
    destruct (@setActivations_Ok input inputs Hlen) as [input' [E0 S0]].
    rewrite E0. cbn [bind].
    unfold wellFormed in Hwf. rewrite Hl in Hwf.
    destruct (@forwardLayers_total (NeuralNetwork.isTraining_ (NeuralNetwork.self s))
                (Layer.getActivations input') rest (NeuralNetwork.drawn s)) as [r Er].
    { unfold Layer.getActivations. rewrite length_map.
      fold (Layer.getSize input'). rewrite (sameUnits_size S0). exact Hwf. }
    rewrite Er. cbn [bind]. eexists. eexists. split; [reflexivity|].
    unfold Layer.getActivations. rewrite length_map.
    fold (Layer.getSize (last (fst r) input')).
    apply sameUnits_size.
    apply Forall2_last; [|exact S0].
    eapply forwardLayers_sameUnits. exact Er.
Qed.

(** ** [predict] *)

Lemma mapM_Ok_Forall2 {A B : Type} (f : A -> Outcome B) (l : list A) (r : list B) :
  mapM f l = Ok r <-> Forall2 (fun a b => f a = Ok b) l r.
Proof.
  split.
  - revert r. induction l as [|a l IH]; simpl; intros r E.
    + inversion E. constructor.
    + apply bind_Ok in E. destruct E as [b [Eb E]].
      apply bind_Ok in E. destruct E as [bs [Ebs E]].
      inversion E; subst. constructor; auto.
  - induction 1 as [|a b l r Hab _ IH]; simpl; [reflexivity|].
    rewrite Hab. cbn [bind]. rewrite IH. reflexivity.
Qed.

Lemma assignEach_again {V : Type} (set : Neuron.t T -> V -> Neuron.t T)
  (ns r : list (Neuron.t T)) (vs : list V) :
  (forall n v, set (set n v) v = set n v) ->
  Layer.assignEach set ns vs = Ok r -> Layer.assignEach set r vs = Ok r.
Proof.
  intros Hset. revert vs r.
  induction ns as [|n ns IH]; intros vs r E; simpl in E.
  - inversion E. reflexivity.
  - destruct vs as [|v vs]; [discriminate|].
    apply bind_Ok in E. destruct E as [r' [Er E]]. inversion E; subst.
    simpl. rewrite (IH _ _ Er). simpl. rewrite Hset. reflexivity.
Qed.

Lemma setActivation_again (n : Neuron.t T) (a : T) :
  Neuron.setActivation (Neuron.setActivation n a) a = Neuron.setActivation n a.
Proof. reflexivity. Qed.

Lemma setNeurons_same (l : Layer.t T) : Layer.setNeurons l (Layer.neurons_ l) = l.
Proof. destruct l; reflexivity. Qed.

(** A unit that a forward pass has been through goes through it unchanged,
    whatever its activation was set to since. *)
Lemma forwardNeuron_again (inputs : list T) (n n1 n2 : Neuron.t T) :
  Layer.forwardNeuron mode inputs n = Ok n1 ->
  Neuron.setActivation n2 zero = Neuron.setActivation n1 zero ->
  Layer.forwardNeuron mode inputs n2 = Ok n2.
Proof.
  unfold Layer.forwardNeuron. intros E Hsame.
  apply bind_Ok in E. destruct E as [[] [Ea E]].
  apply bind_Ok in E. destruct E as [s0 [Es E]]. inversion E; subst.
  destruct n, n2. unfold Neuron.setActivation, Neuron.setWeightedInput in *.
  simpl in *. inversion Hsame; subst.
  rewrite Ea. cbn [bind]. rewrite Es. reflexivity.
Qed.

Lemma Forall2_fixed {A : Type} (f : A -> Outcome A) (l : list A) :
  Forall (fun a => f a = Ok a) l -> mapM f l = Ok l.
Proof.
  induction 1 as [|a l Ha _ IH]; simpl; [reflexivity|].
  rewrite Ha. cbn [bind]. rewrite IH. reflexivity.
Qed.

Lemma Layer_forward_again (l l1 l3 : Layer.t T) (inputs : list T) :
  Layer.forward mode l inputs = Ok l1 ->
  Forall2 activationOnly (Layer.neurons_ l3) (Layer.neurons_ l1) ->
  Layer.forward mode l3 inputs = Ok l3.
Proof.
  unfold Layer.forward. intros E Hsame.
  apply bind_Ok in E. destruct E as [[] [Ea E]].
  apply bind_Ok in E. destruct E as [ns [Ens E]]. inversion E; subst. simpl in Hsame.
  replace (length (Layer.neurons_ l3)) with (length (Layer.neurons_ l)).
  2:{ apply mapM_length in Ens. apply Forall2_length in Hsame. congruence. }
  rewrite Ea. cbn [bind].
  rewrite Forall2_fixed; [cbn [bind]; rewrite setNeurons_same; reflexivity|].
  apply mapM_Ok_Forall2 in Ens.
  clear Ea E. revert Hsame. generalize (Layer.neurons_ l3) as ns3.
  induction Ens as [|n n1 ns ns1 Hn _ IH]; intros ns3 Hsame;
    inversion Hsame; subst; constructor.
  - eapply forwardNeuron_again; eassumption.
  - apply IH. assumption.
Qed.

Lemma applyActivation_shape (l1 l2 : Layer.t T) :
  Layer.applyActivation l1 = Ok l2 ->
  l2 = Layer.setNeurons l1 (Layer.neurons_ l2) /\
  Forall2 activationOnly (Layer.neurons_ l2) (Layer.neurons_ l1).
Proof.
  unfold Layer.applyActivation. intros E.
  destruct (ActivationType.is_softmax (Layer.activationType_ l1)).
  - apply bind_Ok in E. destruct E as [outs [_ E]].
    apply bind_Ok in E. destruct E as [ns [Ens E]]. inversion E; subst.
    split; [reflexivity|]. simpl.
    eapply assignEach_Forall2; [|exact Ens]. intros n v. reflexivity.
  - inversion E; subst. split; [reflexivity|]. simpl.
    apply map_Forall2. intros n. reflexivity.
Qed.

Lemma activationOnly_preactivation (ns2 ns1 : list (Neuron.t T)) :
  Forall2 activationOnly ns2 ns1 ->
  map (fun neuron => add (Neuron.weightedInput_ neuron) (Neuron.bias_ neuron)) ns2
  = map (fun neuron => add (Neuron.weightedInput_ neuron) (Neuron.bias_ neuron)) ns1.
Proof.
  induction 1 as [|n2 n1 ns2 ns1 Hn _ IH]; simpl; [reflexivity|].
  rewrite IH. f_equal.
  destruct n2, n1. unfold activationOnly, Neuron.setActivation in Hn. simpl in *.
  inversion Hn; subst. reflexivity.
Qed.

Lemma applyActivation_again (l1 l2 : Layer.t T) (mask : list bool) :
  Layer.applyActivation l1 = Ok l2 ->
  Layer.applyActivation (Layer.setDropoutMask l2 mask) = Ok (Layer.setDropoutMask l2 mask).
Proof.
  intros E. destruct (applyActivation_shape _ E) as [Hl2 Hact].
  revert E. unfold Layer.applyActivation.
  replace (Layer.activationType_ (Layer.setDropoutMask l2 mask))
    with (Layer.activationType_ l1) by (rewrite Hl2; reflexivity).
  replace (Layer.neurons_ (Layer.setDropoutMask l2 mask)) with (Layer.neurons_ l2)
    by reflexivity.
  destruct (ActivationType.is_softmax (Layer.activationType_ l1)); intros E.
  - rewrite (activationOnly_preactivation Hact).
    apply bind_Ok in E. destruct E as [outs [Eo E]].
    apply bind_Ok in E. destruct E as [ns [Ens E]]. inversion E; subst.
    rewrite Eo. cbn [bind]. simpl Layer.neurons_.
    rewrite (assignEach_again _ _ _ setActivation_again Ens). reflexivity.
  - inversion E; subst. simpl. f_equal. unfold Layer.setNeurons, Layer.setDropoutMask.
    simpl. f_equal. rewrite map_map. apply map_ext. intros n. reflexivity.
Qed.

Lemma applyDropout_inference (l : Layer.t T) (k : nat) :
  Layer.applyDropout uniform01 false l k
  = Ok (Layer.setDropoutMask l (map (fun _ => true) (Layer.dropoutMask_ l)), k).
Proof. reflexivity. Qed.

Lemma applyDropout_again (l : Layer.t T) (mask : list bool) (k : nat) :
  Layer.applyDropout uniform01 false
    (Layer.setDropoutMask l (map (fun _ => true) mask)) k
  = Ok (Layer.setDropoutMask l (map (fun _ => true) mask), k).
Proof.
  rewrite applyDropout_inference. simpl. rewrite map_map. reflexivity.
Qed.

(** A second inference pass with the same input leaves every layer as the
    first pass left it. *)
Lemma forwardLayers_again (prev : list T) (layers : list (Layer.t T)) (k k2 : nat) r :
  NeuralNetwork.forwardLayers mode uniform01 false prev layers k = Ok r ->
  NeuralNetwork.forwardLayers mode uniform01 false prev (fst r) k2 = Ok (fst r, k2).
Proof.
  revert prev k k2 r. induction layers as [|l rest IH]; intros prev k k2 r E;
    cbn [NeuralNetwork.forwardLayers] in E.
  - inversion E. reflexivity.
  - apply bind_Ok in E. destruct E as [l1 [E1 E]].
    apply bind_Ok in E. destruct E as [l2 [E2 E]].
    rewrite applyDropout_inference in E. cbn [bind fst snd] in E.
    apply bind_Ok in E. destruct E as [r' [Er E]].
    inversion E; subst. cbn [fst NeuralNetwork.forwardLayers].
    destruct (applyActivation_shape _ E2) as [_ Hact].
    rewrite (@Layer_forward_again l l1 _ prev E1) by exact Hact.
    cbn [bind]. rewrite (@applyActivation_again l1 l2 _ E2). cbn [bind].
    rewrite applyDropout_again. cbn [bind fst snd].
    rewrite (IH _ _ k2 _ Er). reflexivity.
Qed.

Lemma setActivations_again (l l' : Layer.t T) (activations : list T) :
  Layer.setActivations mode l activations = Ok l' ->
  Layer.setActivations mode l' activations = Ok l'.
Proof.
  unfold Layer.setActivations. intros E.
  apply bind_Ok in E. destruct E as [[] [Ea E]].
  apply bind_Ok in E. destruct E as [ns [Ens E]]. inversion E; subst. simpl.
  replace (length ns) with (length (Layer.neurons_ l)).
  2:{ symmetry. eapply Forall2_length.
      eapply assignEach_Forall2 with (R := fun _ _ => True); [auto|exact Ens]. }
  rewrite Ea. cbn [bind].
  rewrite (assignEach_again _ _ _ setActivation_again Ens). reflexivity.
Qed.

Lemma sameUnits_parameters (layers' layers : list (Layer.t T)) :
  Forall2 sameUnits layers' layers ->
  map (fun l => map (fun u => (Neuron.inputWeights_ u, Neuron.bias_ u)) (Layer.neurons_ l))
      layers'
  = map (fun l => map (fun u => (Neuron.inputWeights_ u, Neuron.bias_ u))
                      (Layer.neurons_ l)) layers.
Proof.
  induction 1 as [|l' l ls' ls [U _] _ IH]; simpl; [reflexivity|].
  rewrite IH. f_equal.
  induction U as [|n' n ns' ns Hn _ IHU]; simpl; [reflexivity|].
  rewrite IHU. destruct (settled_weights Hn) as [-> ->]. reflexivity.
Qed.

Lemma predict_eq (inputs : list T) (s : NeuralNetwork.state T) :
  NeuralNetwork.predict mode uniform01 inputs s =
  (r <- NeuralNetwork.forward mode uniform01 inputs (inference s) ;;
   Ok (fst r,
       NeuralNetwork.mkState
         (NeuralNetwork.storeIsTraining (NeuralNetwork.self (snd r))
            (NeuralNetwork.isTraining_ (NeuralNetwork.self s)))
         (NeuralNetwork.logged (snd r)) (NeuralNetwork.drawn (snd r)))).
Proof.
  unfold NeuralNetwork.predict, bindM, NeuralNetwork.get, NeuralNetwork.modify, inference.
  cbn [bind fst snd NeuralNetwork.self NeuralNetwork.logged NeuralNetwork.drawn].
  destruct (NeuralNetwork.forward _ _ _ _) as [[o s1]| | | | |]; reflexivity.
Qed.

(** C4: [predict] leaves every unit's weight vector and bias as they were
    and restores the training-mode flag to its value before the call; a
    second [predict] with the same input, nothing in between, returns the
    same output. *)
Theorem C4_predict (inputs outputs : list T) (s s' : NeuralNetwork.state T) :
  NeuralNetwork.predict mode uniform01 inputs s = Ok (outputs, s') ->
  parameters (NeuralNetwork.self s') = parameters (NeuralNetwork.self s) /\
  NeuralNetwork.isTraining_ (NeuralNetwork.self s')
  = NeuralNetwork.isTraining_ (NeuralNetwork.self s) /\
  exists s'', NeuralNetwork.predict mode uniform01 inputs s' = Ok (outputs, s'').
Proof.
  intros E. rewrite predict_eq in E.
  destruct (NeuralNetwork.layers_ (NeuralNetwork.self s)) as [|input rest] eqn:Hl.
  - rewrite forward_empty in E by exact Hl. inversion E; subst. clear E.
    unfold parameters. simpl. rewrite Hl. repeat split.
    rewrite predict_eq, forward_empty by exact Hl. cbn [bind fst]. eauto.
  - destruct (Nat.eq_dec (length inputs) (Layer.getSize input)) as [Hlen|Hlen].
    + rewrite (@forward_run inputs (inference s) input rest Hl Hlen) in E.
      apply bind_Ok in E. destruct E as [[o s1] [Ef E]].
      inversion E; subst. clear E.
      apply bind_Ok in Ef. destruct Ef as [input' [E0 E]].
      apply bind_Ok in E. destruct E as [r [Er E]]. inversion E; subst. clear E.
      assert (S0 : sameUnits input' input).
      { destruct (setActivations_Ok input inputs Hlen) as [i' [Ei Si]]. congruence. }
      pose proof (forwardLayers_sameUnits _ _ _ _ Er) as Sr.
      unfold parameters. simpl. rewrite Hl. repeat split.
      * apply (@sameUnits_parameters (input' :: fst r) (input :: rest)).
        constructor; assumption.
      * rewrite predict_eq.
        rewrite (@forward_run inputs _ input' (fst r)); [|reflexivity|].
        2:{ rewrite (sameUnits_size S0). exact Hlen. }
        rewrite (setActivations_again _ _ E0). cbn [bind].
        simpl in Er. simpl.
        rewrite (forwardLayers_again _ _ _ _ Er). cbn [bind fst snd]. eauto.
    + rewrite (@forward_mismatch inputs (inference s) input rest Hl Hlen) in E.
      inversion E; subst. clear E.
      unfold parameters. simpl. rewrite Hl. repeat split.
      rewrite predict_eq.
      rewrite (@forward_mismatch inputs _ input rest); [cbn [bind fst]; eauto| |exact Hlen].
      simpl. exact Hl.
Qed.
End ForwardProperties.

Section TrainProperties.
Context {T : Type} `{Scalar T} `{Libm T}.
Variable mode : BuildMode.
Variable uniform01 : nat -> T.
Variable randomIndex : nat -> nat.

#[local] Abbreviation M := (StateM (NeuralNetwork.state T)).




(** ** [shuffleData] returns the samples in some order *)

Lemma update_length {A : Type} (v : list A) (i : nat) (x : A) :
  length (NeuralNetwork.update v i x) = length v.
Proof.
  revert i. induction v as [|y v IH]; intros [|i]; simpl; auto.
Qed.

Lemma update_Forall {A : Type} (P : A -> Prop) (v : list A) (i : nat) (x : A) :
  Forall P v -> P x -> Forall P (NeuralNetwork.update v i x).
Proof.
  intros Hv Hx. revert i. induction Hv as [|y v Hy Hv IH]; intros [|i]; simpl;
    constructor; auto.
Qed.

Lemma swap_length {A : Type} (v : list A) (i j : nat) :
  length (NeuralNetwork.swap v i j) = length v.
Proof.
  unfold NeuralNetwork.swap.
  destruct (nth_error v i); [|reflexivity].
  destruct (nth_error v j); [|reflexivity].
  rewrite !update_length. reflexivity.
Qed.

Lemma swap_Forall {A : Type} (P : A -> Prop) (v : list A) (i j : nat) :
  Forall P v -> Forall P (NeuralNetwork.swap v i j).
Proof.
  intros Hv. unfold NeuralNetwork.swap.
  destruct (nth_error v i) as [a|] eqn:Ea; [|exact Hv].
  destruct (nth_error v j) as [b|] eqn:Eb; [|exact Hv].
  rewrite Forall_forall in Hv.
  apply update_Forall; [apply update_Forall|].
  - apply Forall_forall. exact Hv.
  - apply Hv. eapply nth_error_In. exact Eb.
  - apply Hv. eapply nth_error_In. exact Ea.
Qed.

Lemma shuffle_keeps (P : nat -> Prop) (i : nat) (indices : list nat) (k : nat) :
  Forall P indices ->
  Forall P (fst (NeuralNetwork.shuffle randomIndex i indices k)) /\
  length (fst (NeuralNetwork.shuffle randomIndex i indices k)) = length indices.
Proof.
  revert indices k. induction i as [|i IH]; intros indices k Hall;
    cbn [NeuralNetwork.shuffle].
  - cbn [fst]. auto.
  - destruct (IH (NeuralNetwork.swap indices (S i) (randomIndex k mod S (S i))) (S k))
      as [HP HL].
    + apply swap_Forall. exact Hall.
    + split; [exact HP|]. rewrite HL. apply swap_length.
Qed.



Section Run.
Variable fuel : nat.
Variable schedule : NeuralNetwork.StopSchedule.
Variables (epochs : nat) (batchSize : N).
Variables (validationInputs validationTargets : option (list (list T))).
Variable progressCallback : option (nat -> float -> float -> bool).

#[local] Abbreviation trainEpoch :=
  (NeuralNetwork.trainEpoch mode uniform01 randomIndex fuel epochs batchSize
     validationInputs validationTargets progressCallback).
#[local] Abbreviation trainLoop :=
  (NeuralNetwork.trainLoop mode uniform01 randomIndex fuel schedule epochs batchSize
     validationInputs validationTargets progressCallback).
#[local] Abbreviation train :=
  (NeuralNetwork.train mode uniform01 randomIndex fuel schedule epochs batchSize
     validationInputs validationTargets progressCallback).

(** What [train] does around the loop. *)
Lemma train_Ok (inputData targetData : list (list T)) h s s' :
  train inputData targetData s = Ok (h, s') ->
  exists s0 s1,
    NeuralNetwork.shouldStop_ (NeuralNetwork.self s0)
    = NeuralNetwork.stopAfterReset schedule /\
    trainLoop epochs 0 inputData targetData (NeuralNetwork.mkHistory [] [] [] []) s0
    = Ok (h, s1) /\
    NeuralNetwork.self s'
    = NeuralNetwork.storeTrainingProgress
        (NeuralNetwork.storeIsTraining (NeuralNetwork.self s1) false) one.
Proof.
  unfold NeuralNetwork.train. intros E.
  apply bindM_Ok in E. destruct E as [[] [sa [Ea E]]].
  apply bindM_Ok in E. destruct E as [[] [sb [Eb E]]].
  apply bindM_Ok in E. destruct E as [[] [sc [Ec E]]].
  apply bindM_Ok in E. destruct E as [[] [sd [Ed E]]].
  apply bindM_Ok in E. destruct E as [[] [se [Ee E]]].
  apply bindM_Ok in E. destruct E as [h' [s1 [El E]]].
  apply bindM_Ok in E. destruct E as [[] [sf [Ef E]]].
  apply bindM_Ok in E. destruct E as [[] [sg [Eg E]]].
  apply bindM_Ok in E. destruct E as [[] [sh [Eh E]]].
  inversion E; subst. inversion Eh; subst. inversion Eg; subst. inversion Ef; subst.
  exists se, s1. split; [|split; [exact El|reflexivity]].
  inversion Ee; subst. inversion Ec; subst. simpl.
  destruct (NeuralNetwork.stopAfterReset schedule); inversion Ed; subst; reflexivity.
Qed.

(** C9: on every return from [train], runs halted early by
    [stopTraining()] included, [isTraining_] is false and
    [trainingProgress_] is [T{1}]: reading [getTrainingProgress()] afterwards
    does not tell a cancelled run from a completed one. *)
Theorem C9_train_returns (inputData targetData : list (list T)) h s s' :
  train inputData targetData s = Ok (h, s') ->
  NeuralNetwork.isTraining (NeuralNetwork.self s') = false /\
  NeuralNetwork.getTrainingProgress (NeuralNetwork.self s') = one.
Proof.
  intros E. destruct (train_Ok _ _ _ E) as [s0 [s1 [_ [_ Hs']]]].
  rewrite Hs'. split; reflexivity.
Qed.



End Run.

End TrainProperties.

(** ** What [predict] computes *)

Section InferenceProperties.
Context {T : Type} `{Scalar T} `{Libm T}.
Variable mode : BuildMode.
Variable uniform01 : nat -> T.

Lemma assignEach_activations (ns : list (Neuron.t T)) (values : list T) :
  length values = length ns ->
  exists r, Layer.assignEach Neuron.setActivation ns values = Ok r /\
            map (@Neuron.activation_ T) r = values.
Proof.
  revert values. induction ns as [|n ns IH]; intros [|v vs] E; simpl in *; try discriminate.
  - eauto.
  - destruct (IH vs) as [r [Er Hr]]; [congruence|].
    rewrite Er. cbn [bind]. eexists. split; [reflexivity|]. simpl. congruence.
Qed.

Lemma last_cons {A : Type} (a d : A) (l : list A) : last (a :: l) d = last l a.
Proof.
  revert a d. induction l as [|b l IH]; intros a d; [reflexivity|].
  change (last (a :: b :: l) d) with (last (b :: l) d).
  rewrite (IH b d), (IH b a). reflexivity.
Qed.

Lemma softmax_values (x : list T) :
  x <> [] -> activation.softmax x = Ok (softmaxValues x).
Proof. destruct x; [contradiction|reflexivity]. Qed.

(** One layer of an inference pass. *)
Lemma layer_inference (l : Layer.t T) (prev : list T) (k : nat) :
  layerFits (length prev) l ->
  exists l3,
    (l1 <- Layer.forward mode l prev ;;
     l2 <- Layer.applyActivation l1 ;;
     Layer.applyDropout uniform01 false l2 k) = Ok (l3, k) /\
    Layer.getActivations l3 = layerOutput l prev.
Proof.
  intros [Hne [Hw Hm]].
  rewrite (@Layer_forward_matching _ _ mode l prev (or_introl Hne) Hw). cbn [bind].
  unfold Layer.applyActivation, layerOutput. cbn [Layer.activationType_ Layer.setNeurons Layer.neurons_].
  destruct (ActivationType.is_softmax (Layer.activationType_ l)).
  - rewrite map_map. cbn [Neuron.weightedInput_ Neuron.setWeightedInput Neuron.bias_].
    change (map (fun x : Neuron.t T => add (dotProduct prev (Neuron.inputWeights_ x)) (Neuron.bias_ x))
              (Layer.neurons_ l)) with (map (preActivation prev) (Layer.neurons_ l)).
    rewrite softmax_values by (destruct (Layer.neurons_ l); [contradiction|discriminate]).
    cbn [bind].
    destruct (@assignEach_activations
                (map (fun n => Neuron.setWeightedInput n (dotProduct prev (Neuron.inputWeights_ n)))
                     (Layer.neurons_ l))
                (softmaxValues (map (preActivation prev) (Layer.neurons_ l)))) as [r [Er Hr]].
    { unfold softmaxValues. rewrite !length_map. reflexivity. }
    rewrite Er. cbn [bind]. eexists. split; [reflexivity|]. exact Hr.
  - cbn [bind]. eexists. split; [reflexivity|].
    unfold Layer.getActivations. cbn. rewrite !map_map. reflexivity.
Qed.

Lemma forwardLayers_inference (prev : list T) (layers : list (Layer.t T)) (k : nat) :
  chainFits (length prev) layers ->
  exists layers',
    NeuralNetwork.forwardLayers mode uniform01 false prev layers k = Ok (layers', k) /\
    forall d, Layer.getActivations d = prev ->
              Layer.getActivations (last layers' d) = feedForward prev layers.
Proof.
  revert prev. induction layers as [|l rest IH]; intros prev Hfit.
  - exists []. split; [reflexivity|]. intros d Hd. exact Hd.
  - destruct Hfit as [Hl Hrest].
    destruct (@layer_inference l prev k Hl) as [l3 [E3 H3]].
    cbn [NeuralNetwork.forwardLayers].
    destruct (Layer.forward mode l prev) as [l1| | | | |]; try discriminate E3.
    cbn [bind] in E3 |- *.
    destruct (Layer.applyActivation l1) as [l2| | | | |]; try discriminate E3.
    cbn [bind] in E3 |- *. rewrite E3. cbn [bind fst snd].
    destruct (IH (Layer.getActivations l3)) as [rest' [Er Hr]].
    { rewrite H3. unfold layerOutput, softmaxValues.
      destruct (ActivationType.is_softmax _); rewrite !length_map; exact Hrest. }
    rewrite Er. cbn [bind fst snd]. eexists. split; [reflexivity|].
    intros d _. cbn [feedForward fst]. rewrite <- H3, last_cons.
    apply Hr. reflexivity.
Qed.

Lemma setActivations_get (l : Layer.t T) (activations : list T) :
  length activations = Layer.getSize l ->
  exists l', Layer.setActivations mode l activations = Ok l' /\
             Layer.getActivations l' = activations.
Proof.
  intros Hlen. unfold Layer.setActivations.
  unfold Layer.getSize in Hlen. rewrite Hlen, Nat.eqb_refl, NNV_ASSERT_true. cbn [bind].
  destruct (@assignEach_activations (Layer.neurons_ l) activations Hlen) as [r [Er Hr]].
  rewrite Er. cbn [bind]. eexists. split; [reflexivity|]. exact Hr.
Qed.

(** A forward pass outside training computes the function the network
    stands for. *)
Lemma forward_inference (inputs : list T) (s : NeuralNetwork.state T)
  (input : Layer.t T) (rest : list (Layer.t T)) :
  NeuralNetwork.layers_ (NeuralNetwork.self s) = input :: rest ->
  length inputs = Layer.getSize input ->
  wellFormed (NeuralNetwork.self s) ->
  NeuralNetwork.isTraining_ (NeuralNetwork.self s) = false ->
  exists s',
    NeuralNetwork.forward mode uniform01 inputs s = Ok (feedForward inputs rest, s') /\
    NeuralNetwork.drawn s' = NeuralNetwork.drawn s /\
    NeuralNetwork.logged s' = NeuralNetwork.logged s.
Proof.
  intros Hl Hlen Hwf Ht.
  rewrite (@forward_run _ _ _ mode uniform01 inputs s input rest Hl Hlen).
  destruct (@setActivations_get input inputs Hlen) as [input' [E0 H0']].
  rewrite E0. cbn [bind].
  unfold wellFormed in Hwf. rewrite Hl in Hwf.
  destruct (@forwardLayers_inference (Layer.getActivations input') rest
              (NeuralNetwork.drawn s)) as [rest' [Er Hr]].
  { rewrite H0', Hlen. exact Hwf. }
  rewrite Ht, Er. cbn [bind fst snd].
  rewrite (Hr input' eq_refl), H0'.
  eexists. split; [reflexivity|]. split; reflexivity.
Qed.

(** X1: on a well-formed network and an input of the width of the first
    layer, [predict] returns the function the network stands for
    ([feedForward]: every layer's activation function applied to the
    weighted sums plus biases of the layer before, softmax over the whole
    layer); it draws no random value and logs nothing. *)
Theorem X1_predict_feedForward (inputs : list T) (s : NeuralNetwork.state T)
  (input : Layer.t T) (rest : list (Layer.t T)) :
  NeuralNetwork.layers_ (NeuralNetwork.self s) = input :: rest ->
  length inputs = Layer.getSize input ->
  wellFormed (NeuralNetwork.self s) ->
  exists s',
    NeuralNetwork.predict mode uniform01 inputs s = Ok (feedForward inputs rest, s') /\
    NeuralNetwork.drawn s' = NeuralNetwork.drawn s /\
    NeuralNetwork.logged s' = NeuralNetwork.logged s.
Proof.
  intros Hl Hlen Hwf. rewrite predict_eq.
  destruct (@forward_inference inputs (inference s) input rest) as [s1 [E [Ed Eg]]];
    try assumption; try reflexivity.
  rewrite E. cbn [bind fst snd]. eexists. split; [reflexivity|].
  cbn [NeuralNetwork.drawn NeuralNetwork.logged]. split; assumption.
Qed.
End InferenceProperties.

(** ** What training keeps of a network *)

Section FrameProperties.
Context {T : Type} `{Scalar T} `{Libm T}.

#[local] Abbreviation M := (StateM (NeuralNetwork.state T)).

Section Frames.
Variable R : NeuralNetwork.t T -> NeuralNetwork.t T -> Prop.
Hypothesis R_refl : forall n, R n n.
Hypothesis R_trans : forall a b c, R a b -> R b c -> R a c.

Lemma preserves_ret {A : Type} (a : A) : preserves R (ret a : M A).
Proof. intros s a' s' E. inversion E; subst. apply R_refl. Qed.

Lemma preserves_bindM {A B : Type} (m : M A) (k : A -> M B) :
  preserves R m -> (forall a, preserves R (k a)) -> preserves R (bindM m k).
Proof.
  intros Hm Hk s b s' E.
  apply bindM_Ok in E. destruct E as [a [s1 [E1 E2]]].
  eapply R_trans; [eapply Hm; exact E1|eapply Hk; exact E2].
Qed.

Lemma preserves_lift {A : Type} (o : Outcome A) : preserves R (lift o : M A).
Proof.
  intros s a s' E. unfold lift in E.
  apply bind_Ok in E. destruct E as [a' [_ E]]. inversion E; subst. apply R_refl.
Qed.

Lemma preserves_get : preserves R (@NeuralNetwork.get T).
Proof. intros s a s' E. inversion E; subst. apply R_refl. Qed.

Lemma preserves_log (level : LogLevel) (msg : string) :
  preserves R (@NeuralNetwork.NNV_LOG T level msg).
Proof. intros s a s' E. inversion E; subst. apply R_refl. Qed.

Lemma preserves_drawing {A : Type} (f : nat -> Outcome (A * nat)) :
  preserves R (NeuralNetwork.drawing f : M A).
Proof.
  intros s a s' E. unfold NeuralNetwork.drawing in E.
  apply bind_Ok in E. destruct E as [r [_ E]]. inversion E; subst. apply R_refl.
Qed.

Lemma preserves_modify (f : NeuralNetwork.t T -> NeuralNetwork.t T) :
  (forall n, R n (f n)) -> preserves R (NeuralNetwork.modify f).
Proof. intros Hf s a s' E. inversion E; subst. apply Hf. Qed.
End Frames.

(** ** What training keeps *)

Lemma Forall2_refl {A : Type} (P : A -> A -> Prop) (l : list A) :
  (forall a, P a a) -> Forall2 P l l.
Proof. intros HP. induction l; constructor; auto. Qed.

Lemma Forall2_trans {A : Type} (P : A -> A -> Prop) (l1 l2 l3 : list A) :
  (forall a b c, P a b -> P b c -> P a c) ->
  Forall2 P l1 l2 -> Forall2 P l2 l3 -> Forall2 P l1 l3.
Proof.
  intros HP H12. revert l3. induction H12; intros l3 H23; inversion H23; subst;
    constructor; eauto.
Qed.

Lemma unitKept_refl (u : Neuron.t T) : unitKept u u.
Proof. unfold unitKept. repeat split. Qed.

Lemma unitKept_trans (a b c : Neuron.t T) : unitKept a b -> unitKept b c -> unitKept a c.
Proof. unfold unitKept. intros [? [? [? [? ?]]]] [? [? [? [? ?]]]]. repeat split; congruence. Qed.

Lemma layerKept_refl (l : Layer.t T) : layerKept l l.
Proof.
  unfold layerKept. repeat split. apply Forall2_refl. apply unitKept_refl.
Qed.

Lemma layerKept_trans (a b c : Layer.t T) : layerKept a b -> layerKept b c -> layerKept a c.
Proof.
  unfold layerKept.
  intros [U1 [N1 [A1 [D1 [T1 [M1 F1]]]]]] [U2 [N2 [A2 [D2 [T2 [M2 F2]]]]]].
  repeat split; try congruence.
  - eapply Forall2_trans; [apply unitKept_trans|eassumption|eassumption].
  - intros Hf. rewrite F2 by congruence. apply F1. exact Hf.
Qed.

Lemma trainingKeeps_refl (n : NeuralNetwork.t T) : trainingKeeps n n.
Proof.
  unfold trainingKeeps. repeat split. apply Forall2_refl. apply layerKept_refl.
Qed.

Lemma trainingKeeps_trans (a b c : NeuralNetwork.t T) :
  trainingKeeps a b -> trainingKeeps b c -> trainingKeeps a c.
Proof.
  unfold trainingKeeps.
  intros [N1 [L1 [S1 [O1 [F1 P1]]]]] [N2 [L2 [S2 [O2 [F2 P2]]]]].
  repeat split; try congruence.
  eapply Forall2_trans; [apply layerKept_trans|eassumption|eassumption].
Qed.

Lemma layerKept_size (l l' : Layer.t T) : layerKept l l' -> Layer.getSize l' = Layer.getSize l.
Proof.
  intros [U _]. unfold Layer.getSize. symmetry. eapply Forall2_length. exact U.
Qed.

Lemma layerKept_fits (p : nat) (l l' : Layer.t T) :
  layerKept l l' -> layerFits p l -> layerFits p l'.
Proof.
  intros K [Hne [Hw Hm]]. pose proof (layerKept_size K) as Hs. unfold Layer.getSize in Hs.
  destruct K as [U [_ [_ [_ [_ [M _]]]]]].
  split; [|split].
  - destruct (Layer.neurons_ l'); [|discriminate].
    destruct (Layer.neurons_ l); [contradiction|discriminate].
  - clear Hne Hm Hs M. induction U as [|u u' us us' Hu _ IH]; [constructor|].
    inversion Hw; subst. constructor; [|auto].
    destruct Hu as [_ [_ [_ [_ Hlen]]]]. congruence.
  - lia.
Qed.

Lemma chainFits_kept (p : nat) (layers layers' : list (Layer.t T)) :
  Forall2 layerKept layers layers' -> chainFits p layers -> chainFits p layers'.
Proof.
  intros K. revert p. induction K as [|l l' ls ls' Hl _ IH]; intros p Hfit; [exact I|].
  destruct Hfit as [Hf Hrest]. split.
  - eapply layerKept_fits; eassumption.
  - rewrite (layerKept_size Hl). apply IH. exact Hrest.
Qed.

Lemma Forall2_last_kept (layers layers' : list (Layer.t T)) (d d' : Layer.t T) :
  Forall2 layerKept layers layers' -> layerKept d d' ->
  layerKept (last layers d) (last layers' d').
Proof. intros K Hd. apply Forall2_last; assumption. Qed.

Lemma fits_kept (w o : nat) (n n' : NeuralNetwork.t T) :
  trainingKeeps n n' -> fits w o n -> fits w o n'.
Proof.
  intros [_ [_ [_ [_ [K _]]]]] [input [rest [Hl [Hw [Hc Ho]]]]].
  rewrite Hl in K. inversion K as [|? input' ? rest' Hi Hr E1 E2]; subst.
  exists input', rest'. split; [symmetry; exact E2|]. split; [|split].
  - apply (layerKept_size Hi).
  - eapply chainFits_kept; eassumption.
  - apply (layerKept_size (Forall2_last_kept Hr Hi)).
Qed.

Variable mode : BuildMode.
Variable uniform01 : nat -> T.

Lemma settled_kept (u u' : Neuron.t T) :
  settled u' = settled u -> unitKept u u' /\ weightsAndBias u' = weightsAndBias u.
Proof.
  destruct u, u'. unfold settled, unitKept, weightsAndBias. simpl.
  intros E. inversion E; subst. repeat split.
Qed.

Lemma units_layerKept (l : Layer.t T) (ns : list (Neuron.t T)) :
  Forall2 (fun u u' => unitKept u u' /\ weightsAndBias u' = weightsAndBias u)
          (Layer.neurons_ l) ns ->
  layerKept l (Layer.setNeurons l ns).
Proof.
  intros U. unfold layerKept. simpl. repeat split.
  - eapply Forall2_impl; [|exact U]. intros a b [Hk _]. exact Hk.
  - intros _. induction U as [|u u' us us' [_ Hu] _ IH]; simpl; [reflexivity|].
    rewrite Hu, IH. reflexivity.
Qed.

Lemma sameUnits_layerKept (l l' : Layer.t T) : sameUnits l' l -> layerKept l l'.
Proof.
  intros [U [N [A [D [Tr M]]]]].
  assert (U' : Forall2 (fun u u' => unitKept u u' /\ weightsAndBias u' = weightsAndBias u)
                 (Layer.neurons_ l) (Layer.neurons_ l')).
  { apply Forall2_flip. eapply Forall2_impl; [|exact U].
    intros a b E. apply settled_kept. exact E. }
  unfold layerKept. repeat split; try assumption.
  - eapply Forall2_impl; [|exact U']. intros a b [Hk _]. exact Hk.
  - intros _. clear U. induction U' as [|u u' us us' [_ Hu] _ IH]; simpl; [reflexivity|].
    rewrite Hu, IH. reflexivity.
Qed.

Lemma sameUnits_weights (l l' : Layer.t T) :
  sameUnits l' l ->
  map weightsAndBias (Layer.neurons_ l') = map weightsAndBias (Layer.neurons_ l).
Proof.
  intros [U _]. induction U as [|u' u us' us Hu _ IH]; simpl; [reflexivity|].
  rewrite IH. destruct (settled_kept Hu) as [_ ->]. reflexivity.
Qed.

Lemma setActivations_sameUnits (l l' : Layer.t T) (activations : list T) :
  Layer.setActivations mode l activations = Ok l' -> sameUnits l' l.
Proof.
  unfold Layer.setActivations. intros E.
  apply bind_Ok in E. destruct E as [_ [_ E]].
  apply bind_Ok in E. destruct E as [ns [Ens E]]. inversion E; subst.
  apply setNeurons_sameUnits.
  eapply assignEach_Forall2; [|exact Ens].
  intros n v. apply settled_setActivation.
Qed.

(** What [forward] leaves of the state. *)
Lemma forward_frame (inputs outputs : list T) (s s' : NeuralNetwork.state T) :
  NeuralNetwork.forward mode uniform01 inputs s = Ok (outputs, s') ->
  Forall2 sameUnits (NeuralNetwork.layers_ (NeuralNetwork.self s'))
                    (NeuralNetwork.layers_ (NeuralNetwork.self s)) /\
  NeuralNetwork.self s'
  = NeuralNetwork.setLayers (NeuralNetwork.self s)
      (NeuralNetwork.layers_ (NeuralNetwork.self s')).
Proof.
  intros E.
  assert (Hsame : forall n : NeuralNetwork.t T,
            Forall2 sameUnits (NeuralNetwork.layers_ n) (NeuralNetwork.layers_ n) /\
            n = NeuralNetwork.setLayers n (NeuralNetwork.layers_ n)).
  { intros n. split; [apply Forall2_refl; apply sameUnits_refl|destruct n; reflexivity]. }
  destruct (NeuralNetwork.layers_ (NeuralNetwork.self s)) as [|input rest] eqn:Hl.
  - rewrite forward_empty in E by exact Hl. inversion E; subst. simpl.
    rewrite <- Hl. apply Hsame.
  - destruct (Nat.eq_dec (length inputs) (Layer.getSize input)) as [Hlen|Hlen].
    + rewrite (@forward_run _ _ _ mode uniform01 inputs s input rest Hl Hlen) in E.
      apply bind_Ok in E. destruct E as [input' [E0 E]].
      apply bind_Ok in E. destruct E as [r [Er E]]. inversion E; subst. simpl.
      split; [|reflexivity]. constructor.
      * eapply setActivations_sameUnits. exact E0.
      * eapply forwardLayers_sameUnits. exact Er.
    + rewrite (@forward_mismatch _ _ _ mode uniform01 inputs s input rest Hl Hlen) in E.
      inversion E; subst. simpl. rewrite <- Hl. apply Hsame.
Qed.

Lemma sameUnits_trainingKeeps (n : NeuralNetwork.t T) (layers : list (Layer.t T)) :
  Forall2 sameUnits layers (NeuralNetwork.layers_ n) ->
  trainingKeeps n (NeuralNetwork.setLayers n layers).
Proof.
  intros S. unfold trainingKeeps. simpl. repeat split.
  - apply Forall2_flip. eapply Forall2_impl; [|exact S].
    intros a b. apply sameUnits_layerKept.
  - unfold firstParameters. simpl.
    destruct S as [|l' l ls' ls Hl _]; [reflexivity|].
    apply sameUnits_weights. exact Hl.
Qed.

Lemma preserves_forward (inputs : list T) :
  preserves trainingKeeps (NeuralNetwork.forward mode uniform01 inputs).
Proof.
  intros s out s' E. destruct (forward_frame _ _ E) as [S ->].
  apply sameUnits_trainingKeeps. exact S.
Qed.

Lemma setDelta_kept (u : Neuron.t T) (delta : T) :
  unitKept u (Neuron.setDelta u delta) /\
  weightsAndBias (Neuron.setDelta u delta) = weightsAndBias u.
Proof. unfold unitKept, weightsAndBias. simpl. repeat split. Qed.

Lemma seedOutputLayer_kept (outputGradients : list T) (layers layers' : list (Layer.t T)) :
  NeuralNetwork.seedOutputLayer outputGradients layers = Ok layers' ->
  Forall2 layerKept layers layers'.
Proof.
  revert layers'. induction layers as [|l rest IH]; intros layers' E; simpl in E.
  - inversion E. constructor.
  - destruct rest as [|l2 rest].
    + apply bind_Ok in E. destruct E as [ns [Ens E]]. inversion E; subst.
      constructor; [|constructor]. apply units_layerKept. apply Forall2_flip.
      eapply assignEach_Forall2; [|exact Ens].
      intros n v. apply setDelta_kept.
    + apply bind_Ok in E. destruct E as [r [Er E]]. inversion E; subst.
      constructor; [apply layerKept_refl|]. apply IH. exact Er.
Qed.

Lemma gradientLoop_kept (derivFunc : T -> T) (deltas : list T) (weights : list (list T))
  (i : nat) (ns r : list (Neuron.t T)) :
  Layer.gradientLoop mode derivFunc deltas weights i ns = Ok r ->
  Forall2 (fun u u' => unitKept u u' /\ weightsAndBias u' = weightsAndBias u) ns r.
Proof.
  revert i r. induction ns as [|n ns IH]; intros i r E; simpl in E.
  - inversion E. constructor.
  - apply bind_Ok in E. destruct E as [delta [_ E]].
    apply bind_Ok in E. destruct E as [r' [Er E]]. inversion E; subst.
    constructor; [apply setDelta_kept|]. eapply IH. exact Er.
Qed.

Lemma computeGradients_kept (l l' : Layer.t T) (deltas : list T) (weights : list (list T)) :
  Layer.computeGradients mode l deltas weights = Ok l' -> layerKept l l'.
Proof.
  unfold Layer.computeGradients. intros E.
  apply bind_Ok in E. destruct E as [_ [_ E]].
  apply bind_Ok in E. destruct E as [ns [Ens E]]. inversion E; subst.
  apply units_layerKept. eapply gradientLoop_kept. exact Ens.
Qed.

Lemma hiddenGradients_kept (layers layers' : list (Layer.t T)) :
  NeuralNetwork.hiddenGradients mode layers = Ok layers' ->
  Forall2 layerKept layers layers'.
Proof.
  revert layers'. induction layers as [|l rest IH]; intros layers' E;
    cbn [NeuralNetwork.hiddenGradients] in E.
  - inversion E. constructor.
  - destruct rest as [|l2 rest].
    + inversion E. constructor; [apply layerKept_refl|constructor].
    + apply bind_Ok in E. destruct E as [rest' [Er E]].
      specialize (IH _ Er).
      destruct rest' as [|next rest']; [inversion IH|].
      apply bind_Ok in E. destruct E as [l' [El E]]. inversion E; subst.
      constructor; [|exact IH]. eapply computeGradients_kept. exact El.
Qed.

Lemma updatedWeights_length (lr delta : T) (weights prev r : list T) :
  Layer.updatedWeights lr delta weights prev = Ok r -> length r = length weights.
Proof.
  revert prev r. induction weights as [|w ws IH]; intros prev r E; simpl in E.
  - inversion E. reflexivity.
  - destruct prev as [|a prev]; [discriminate|].
    apply bind_Ok in E. destruct E as [r' [Er E]]. inversion E; subst.
    simpl. f_equal. eapply IH. exact Er.
Qed.

Lemma updateNeuron_kept (lr : T) (prev : list T) (n n' : Neuron.t T) :
  Layer.updateNeuron mode lr prev n = Ok n' -> unitKept n n'.
Proof.
  unfold Layer.updateNeuron. intros E.
  apply bind_Ok in E. destruct E as [_ [_ E]].
  apply bind_Ok in E. destruct E as [ws [Ews E]]. inversion E; subst.
  unfold unitKept. simpl. repeat split. eapply updatedWeights_length. exact Ews.
Qed.

Lemma updateWeights_kept (l l' : Layer.t T) (lr : T) (prev : list T) :
  Layer.updateWeights mode l lr prev = Ok l' -> layerKept l l'.
Proof.
  unfold Layer.updateWeights. intros E.
  destruct (Layer.trainable_ l) eqn:Ht; cbn [negb] in E.
  - apply bind_Ok in E. destruct E as [ns [Ens E]]. inversion E; subst.
    unfold layerKept. simpl. repeat split.
    + apply Forall2_flip. eapply mapM_Forall2; [|exact Ens].
      intros a b Hab. eapply updateNeuron_kept. exact Hab.
    + rewrite Ht. discriminate.
  - inversion E; subst. apply layerKept_refl.
Qed.

Lemma updateLayers_kept (lr : T) (prev : Layer.t T) (layers layers' : list (Layer.t T)) :
  NeuralNetwork.updateLayers mode lr prev layers = Ok layers' ->
  Forall2 layerKept layers layers'.
Proof.
  revert prev layers'. induction layers as [|l rest IH]; intros prev layers' E; simpl in E.
  - inversion E. constructor.
  - apply bind_Ok in E. destruct E as [l' [El E]].
    apply bind_Ok in E. destruct E as [r [Er E]]. inversion E; subst.
    constructor; [eapply updateWeights_kept; exact El|eapply IH; exact Er].
Qed.

Lemma preserves_backward (targets outputs : list T) :
  preserves trainingKeeps (NeuralNetwork.backward mode targets outputs).
Proof.
  intros s loss s' E. unfold NeuralNetwork.backward in E.
  apply bindM_Ok in E. destruct E as [n [s0 [Eg E]]]. inversion Eg; subst. clear Eg.
  destruct (NeuralNetwork.layers_ (NeuralNetwork.self s0)) as [|input [|l rest]] eqn:Hl.
  - apply bindM_Ok in E. destruct E as [[] [s1 [E1 E]]].
    inversion E1; subst. inversion E; subst. apply trainingKeeps_refl.
  - apply bindM_Ok in E. destruct E as [[] [s1 [E1 E]]].
    inversion E1; subst. inversion E; subst. apply trainingKeeps_refl.
  - apply bindM_Ok in E. destruct E as [g [s1 [E1 E]]].
    apply bindM_Ok in E. destruct E as [r1 [s2 [E2 E]]].
    apply bindM_Ok in E. destruct E as [r2 [s3 [E3 E]]].
    apply bindM_Ok in E. destruct E as [r3 [s4 [E4 E]]].
    apply bindM_Ok in E. destruct E as [[] [s5 [E5 E]]].
    inversion E; subst. clear E.
    unfold lift in E1, E2, E3, E4.
    apply bind_Ok in E1. destruct E1 as [g' [_ E1]]. inversion E1; subst. clear E1.
    apply bind_Ok in E2. destruct E2 as [r1' [K1 E2]]. inversion E2; subst. clear E2.
    apply bind_Ok in E3. destruct E3 as [r2' [K2 E3]]. inversion E3; subst. clear E3.
    apply bind_Ok in E4. destruct E4 as [r3' [K3 E4]]. inversion E4; subst. clear E4.
    inversion E5; subst. clear E5. simpl.
    apply seedOutputLayer_kept in K1. apply hiddenGradients_kept in K2.
    apply updateLayers_kept in K3.
    unfold trainingKeeps. simpl. rewrite Hl. repeat split.
    + constructor; [apply layerKept_refl|].
      eapply Forall2_trans; [apply layerKept_trans| |exact K3].
      eapply Forall2_trans; [apply layerKept_trans|exact K1|exact K2].
    + unfold firstParameters. simpl. rewrite Hl. reflexivity.
Qed.

Variable randomIndex : nat -> nat.

Lemma backward_frame (targets outputs : list T) (loss : T) (s s' : NeuralNetwork.state T) :
  NeuralNetwork.backward mode targets outputs s = Ok (loss, s') ->
  NeuralNetwork.self s'
  = NeuralNetwork.setLayers (NeuralNetwork.self s)
      (NeuralNetwork.layers_ (NeuralNetwork.self s')).
Proof.
  intros E. unfold NeuralNetwork.backward in E.
  apply bindM_Ok in E. destruct E as [n [s0 [Eg E]]]. inversion Eg; subst. clear Eg.
  assert (Hsame : forall n : NeuralNetwork.t T,
            n = NeuralNetwork.setLayers n (NeuralNetwork.layers_ n))
    by (intros n; destruct n; reflexivity).
  destruct (NeuralNetwork.layers_ (NeuralNetwork.self s0)) as [|input [|l rest]] eqn:Hl.
  - apply bindM_Ok in E. destruct E as [[] [s1 [E1 E]]].
    inversion E1; subst. inversion E; subst. apply Hsame.
  - apply bindM_Ok in E. destruct E as [[] [s1 [E1 E]]].
    inversion E1; subst. inversion E; subst. apply Hsame.
  - apply bindM_Ok in E. destruct E as [g [s1 [E1 E]]].
    apply bindM_Ok in E. destruct E as [r1 [s2 [E2 E]]].
    apply bindM_Ok in E. destruct E as [r2 [s3 [E3 E]]].
    apply bindM_Ok in E. destruct E as [r3 [s4 [E4 E]]].
    apply bindM_Ok in E. destruct E as [[] [s5 [E5 E]]].
    inversion E; subst. clear E.
    unfold lift in E1, E2, E3, E4.
    apply bind_Ok in E1. destruct E1 as [g' [_ E1]]. inversion E1; subst. clear E1.
    apply bind_Ok in E2. destruct E2 as [r1' [_ E2]]. inversion E2; subst. clear E2.
    apply bind_Ok in E3. destruct E3 as [r2' [_ E3]]. inversion E3; subst. clear E3.
    apply bind_Ok in E4. destruct E4 as [r3' [_ E4]]. inversion E4; subst. clear E4.
    inversion E5; subst. reflexivity.
Qed.

(** ** Frames of the calls built from [forward] and [backward] *)

Section Framed.
Variable R : NeuralNetwork.t T -> NeuralNetwork.t T -> Prop.
Hypothesis R_refl : forall n, R n n.
Hypothesis R_trans : forall a b c, R a b -> R b c -> R a c.
Hypothesis R_forward : forall inputs, preserves R (NeuralNetwork.forward mode uniform01 inputs).
Hypothesis R_backward :
  forall targets outputs, preserves R (NeuralNetwork.backward mode targets outputs).
Hypothesis R_isTraining : forall n b, R n (NeuralNetwork.storeIsTraining n b).
Hypothesis R_progress : forall n p, R n (NeuralNetwork.storeTrainingProgress n p).

Lemma framed_ret {A : Type} (a : A) : preserves R (ret a : M A).
Proof. apply preserves_ret. exact R_refl. Qed.

Lemma framed_lift {A : Type} (o : Outcome A) : preserves R (lift o : M A).
Proof. apply preserves_lift. exact R_refl. Qed.

Lemma framed_get : preserves R (@NeuralNetwork.get T).
Proof. apply preserves_get. exact R_refl. Qed.

Lemma framed_log (level : LogLevel) (msg : string) :
  preserves R (@NeuralNetwork.NNV_LOG T level msg).
Proof. apply preserves_log. exact R_refl. Qed.

Lemma framed_drawing {A : Type} (f : nat -> Outcome (A * nat)) :
  preserves R (NeuralNetwork.drawing f : M A).
Proof. apply preserves_drawing. exact R_refl. Qed.

Lemma framed_storeIsTraining (b : bool) :
  preserves R (NeuralNetwork.modify (fun n : NeuralNetwork.t T =>
                                       NeuralNetwork.storeIsTraining n b)).
Proof. apply preserves_modify. intros n. apply R_isTraining. Qed.

Lemma framed_storeTrainingProgress (p : T) :
  preserves R (NeuralNetwork.modify (fun n : NeuralNetwork.t T =>
                                       NeuralNetwork.storeTrainingProgress n p)).
Proof. apply preserves_modify. intros n. apply R_progress. Qed.

Create HintDb framed.
#[local] Hint Resolve framed_ret framed_lift framed_get framed_log framed_drawing
  framed_storeIsTraining framed_storeTrainingProgress R_forward R_backward : framed.

Ltac framed :=
  repeat first
    [ solve [auto with framed]
    | apply (preserves_bindM R_trans); [|intro]
    | match goal with
      | |- preserves _ (if ?c then _ else _) => destruct c
      | |- preserves _ (match ?x with _ => _ end) => destruct x
      end ].

Lemma framed_trainSample (inputs targets : list T) :
  preserves R (NeuralNetwork.trainSample mode uniform01 inputs targets).
Proof. unfold NeuralNetwork.trainSample. framed. Qed.

#[local] Hint Resolve framed_trainSample : framed.

Lemma framed_trainSamples (inputBatch targetBatch : list (list T)) (totalLoss : T) :
  preserves R (NeuralNetwork.trainSamples mode uniform01 inputBatch targetBatch totalLoss).
Proof.
  revert targetBatch totalLoss.
  induction inputBatch as [|x xs IH]; intros targetBatch totalLoss; simpl.
  - framed.
  - destruct targetBatch; framed.
Qed.

#[local] Hint Resolve framed_trainSamples : framed.

Lemma framed_trainBatch (inputBatch targetBatch : list (list T)) :
  preserves R (NeuralNetwork.trainBatch mode uniform01 inputBatch targetBatch).
Proof. unfold NeuralNetwork.trainBatch. framed. Qed.

#[local] Hint Resolve framed_trainBatch : framed.

Lemma framed_trainBatches (batches : list (NeuralNetwork.Batch (T := T))) (epochLoss : T) :
  preserves R (NeuralNetwork.trainBatches mode uniform01 batches epochLoss).
Proof.
  revert epochLoss. induction batches as [|b bs IH]; intros epochLoss; simpl; framed.
Qed.

Lemma framed_predict (inputs : list T) :
  preserves R (NeuralNetwork.predict mode uniform01 inputs).
Proof. unfold NeuralNetwork.predict. framed. Qed.

#[local] Hint Resolve framed_trainBatches framed_predict : framed.

Lemma framed_predictBatch (inputBatch : list (list T)) :
  preserves R (NeuralNetwork.predictBatch mode uniform01 inputBatch).
Proof. induction inputBatch as [|x xs IH]; simpl; framed. Qed.

#[local] Hint Resolve framed_predictBatch : framed.

Lemma framed_evaluate (inputData targetData : list (list T)) :
  preserves R (NeuralNetwork.evaluate mode uniform01 inputData targetData).
Proof. unfold NeuralNetwork.evaluate. framed. Qed.

Lemma framed_shuffleData (inputs targets : list (list T)) :
  preserves R (NeuralNetwork.shuffleData randomIndex inputs targets).
Proof. unfold NeuralNetwork.shuffleData. framed. Qed.

#[local] Hint Resolve framed_evaluate framed_shuffleData : framed.

Section Run.
Variable fuel : nat.
Variable schedule : NeuralNetwork.StopSchedule.
Variables (epochs : nat) (batchSize : N).
Variables (validationInputs validationTargets : option (list (list T))).
Variable progressCallback : option (nat -> float -> float -> bool).
(** Where a call of [stopTraining()] can land, [R] allows it. *)
Hypothesis R_callback : forall callback epoch loss accuracy n,
  progressCallback = Some callback -> callback epoch loss accuracy = true ->
  R n (NeuralNetwork.stopTraining n).
Hypothesis R_schedule : forall epoch n,
  NeuralNetwork.stopDuringEpoch schedule epoch = true ->
  R n (NeuralNetwork.stopTraining n).

Lemma framed_trainEpoch (epoch : nat) (inputs targets : list (list T))
  (history : NeuralNetwork.TrainingHistory T) :
  preserves R
    (NeuralNetwork.trainEpoch mode uniform01 randomIndex fuel epochs batchSize
       validationInputs validationTargets progressCallback epoch inputs targets history).
Proof.
  unfold NeuralNetwork.trainEpoch.
  apply (preserves_bindM R_trans); [framed|intro].
  apply (preserves_bindM R_trans); [framed|intro].
  apply (preserves_bindM R_trans); [framed|intro].
  apply (preserves_bindM R_trans); [framed|intro].
  apply (preserves_bindM R_trans); [framed|intro].
  apply (preserves_bindM R_trans); [framed|intro].
  apply (preserves_bindM R_trans); [framed|intro].
  apply (preserves_bindM R_trans); [|intro; framed].
  destruct progressCallback as [callback|] eqn:Ecb; [|framed].
  unfold NeuralNetwork.externalStop.
  match goal with |- preserves R (if ?c then _ else _) => destruct c eqn:Ec end;
    [|framed].
  apply preserves_modify. intros n. eapply R_callback; [reflexivity|exact Ec].
Qed.

Lemma framed_trainLoop (remaining epoch : nat) (inputs targets : list (list T))
  (history : NeuralNetwork.TrainingHistory T) :
  preserves R
    (NeuralNetwork.trainLoop mode uniform01 randomIndex fuel schedule epochs batchSize
       validationInputs validationTargets progressCallback remaining epoch inputs targets
       history).
Proof.
  revert epoch inputs targets history.
  induction remaining as [|remaining IH]; intros epoch inputs targets history;
    cbn [NeuralNetwork.trainLoop]; [framed|].
  apply (preserves_bindM R_trans); [framed|intro n].
  destruct (NeuralNetwork.shouldStop_ n); [framed|].
  apply (preserves_bindM R_trans); [|intro].
  - unfold NeuralNetwork.externalStop.
    destruct (NeuralNetwork.stopDuringEpoch schedule epoch) eqn:Es; [|framed].
    apply preserves_modify. intros n'. eapply R_schedule. exact Es.
  - apply (preserves_bindM R_trans); [apply framed_trainEpoch|intro]. apply IH.
Qed.
End Run.
End Framed.

(** ** What training keeps *)

Lemma trainingKeeps_flags (n : NeuralNetwork.t T) (isTraining shouldStop : bool)
  (progress : T) :
  trainingKeeps n
    (NeuralNetwork.mk (NeuralNetwork.name_ n) (NeuralNetwork.layers_ n)
       (NeuralNetwork.learningRate_ n) (NeuralNetwork.lossType_ n)
       (NeuralNetwork.optimizerType_ n) isTraining shouldStop progress).
Proof.
  unfold trainingKeeps. simpl. repeat split. apply Forall2_refl. apply layerKept_refl.
Qed.

Ltac trained_side :=
  first [ exact trainingKeeps_refl | exact trainingKeeps_trans
        | exact preserves_forward | exact preserves_backward
        | intros; apply trainingKeeps_flags ].

Lemma trained_trainSample (inputs targets : list T) :
  preserves trainingKeeps (NeuralNetwork.trainSample mode uniform01 inputs targets).
Proof.
  apply framed_trainSample; trained_side.
Qed.

Lemma trained_trainBatch (inputBatch targetBatch : list (list T)) :
  preserves trainingKeeps (NeuralNetwork.trainBatch mode uniform01 inputBatch targetBatch).
Proof.
  apply framed_trainBatch; trained_side.
Qed.

Lemma trained_trainBatches (batches : list (NeuralNetwork.Batch (T := T))) (epochLoss : T) :
  preserves trainingKeeps (NeuralNetwork.trainBatches mode uniform01 batches epochLoss).
Proof.
  apply framed_trainBatches; trained_side.
Qed.

Lemma trained_predict (inputs : list T) :
  preserves trainingKeeps (NeuralNetwork.predict mode uniform01 inputs).
Proof.
  apply framed_predict; trained_side.
Qed.

Lemma trained_predictBatch (inputBatch : list (list T)) :
  preserves trainingKeeps (NeuralNetwork.predictBatch mode uniform01 inputBatch).
Proof.
  apply framed_predictBatch; trained_side.
Qed.

Section Run.
Variable fuel : nat.
Variable schedule : NeuralNetwork.StopSchedule.
Variables (epochs : nat) (batchSize : N).
Variables (validationInputs validationTargets : option (list (list T))).
Variable progressCallback : option (nat -> float -> float -> bool).

Lemma trained_trainEpoch (epoch : nat) (inputs targets : list (list T))
  (history : NeuralNetwork.TrainingHistory T) :
  preserves trainingKeeps
    (NeuralNetwork.trainEpoch mode uniform01 randomIndex fuel epochs batchSize
       validationInputs validationTargets progressCallback epoch inputs targets history).
Proof.
  apply framed_trainEpoch; trained_side.
Qed.

Lemma trained_trainLoop (remaining epoch : nat) (inputs targets : list (list T))
  (history : NeuralNetwork.TrainingHistory T) :
  preserves trainingKeeps
    (NeuralNetwork.trainLoop mode uniform01 randomIndex fuel schedule epochs batchSize
       validationInputs validationTargets progressCallback remaining epoch inputs targets
       history).
Proof.
  apply framed_trainLoop; trained_side.
Qed.

Lemma trained_train (inputData targetData : list (list T)) :
  preserves trainingKeeps
    (NeuralNetwork.train mode uniform01 randomIndex fuel schedule epochs batchSize
       validationInputs validationTargets progressCallback inputData targetData).
Proof.
  unfold NeuralNetwork.train.
  repeat first
    [ apply trained_trainLoop
    | apply (preserves_bindM trainingKeeps_trans); [|intro]
    | apply preserves_ret; apply trainingKeeps_refl
    | apply preserves_log; apply trainingKeeps_refl
    | apply preserves_modify; intros n; apply trainingKeeps_flags
    | match goal with
      | |- preserves _ (NeuralNetwork.externalStop ?b) =>
          destruct b; unfold NeuralNetwork.externalStop
      end ].
Qed.

(** X2: whenever [train] returns, the network has the layers and units it
    had: name, learning rate, loss and optimizer are unchanged, every layer
    keeps its name, activation type, dropout rate, flag and the length of
    its dropout mask, every unit its id, gradient, flag, name and number of
    weights; the first layer keeps every weight and bias, and so does every
    layer marked non-trainable. *)
Theorem X2_train_keeps (inputData targetData : list (list T)) h s s' :
  NeuralNetwork.train mode uniform01 randomIndex fuel schedule epochs batchSize
    validationInputs validationTargets progressCallback inputData targetData s
  = Ok (h, s') ->
  trainingKeeps (NeuralNetwork.self s) (NeuralNetwork.self s').
Proof. intros E. exact (trained_train _ _ _ E). Qed.
End Run.
End FrameProperties.

(** ** When the engine returns *)

Section TotalityProperties.
Context {T : Type} `{Scalar T} `{Libm T}.
Variable mode : BuildMode.
Variable uniform01 : nat -> T.
Variable randomIndex : nat -> nat.

#[local] Abbreviation M := (StateM (NeuralNetwork.state T)).

(** ** The gradient functions read [targets[i]] for every output *)

Lemma zipOutputs_total {B : Type} (f : T -> T -> B) (outputs targets : list T) :
  length outputs <= length targets ->
  exists r, loss.zipOutputs f outputs targets = Ok r /\ length r = length outputs.
Proof.
  revert targets. induction outputs as [|o os IH]; intros targets Hlen; simpl.
  - eauto.
  - destruct targets as [|t ts]; simpl in Hlen; [lia|].
    destruct (IH ts) as [r [Er Lr]]; [lia|].
    rewrite Er. cbn [bind]. eexists. split; [reflexivity|]. simpl. congruence.
Qed.

Lemma zipOutputs_short {B : Type} (f : T -> T -> B) (outputs targets : list T) :
  length targets < length outputs -> loss.zipOutputs f outputs targets = Undefined.
Proof.
  revert targets. induction outputs as [|o os IH]; intros targets Hlen; simpl in *.
  - lia.
  - destruct targets as [|t ts]; [reflexivity|].
    simpl in Hlen. rewrite IH by lia. reflexivity.
Qed.

Lemma getGradient_total (type : LossType.t) (outputs targets : list T) :
  length outputs <= length targets ->
  exists g, LossFactory.getGradient type outputs targets = Ok g /\
            length g = length outputs.
Proof. intros Hlen. destruct type; apply zipOutputs_total; exact Hlen. Qed.

(** ** A training step returns on a well-formed network *)

Lemma seedOutputLayer_total (g : list T) (layers : list (Layer.t T)) (d : Layer.t T) :
  Layer.getSize (last layers d) <= length g ->
  exists r, NeuralNetwork.seedOutputLayer g layers = Ok r.
Proof.
  induction layers as [|l rest IH]; intros Hlen; cbn [NeuralNetwork.seedOutputLayer].
  - eauto.
  - destruct rest as [|l2 rest].
    + destruct (@assignEach_total T _ Neuron.setDelta (Layer.neurons_ l) g Hlen)
        as [ns Ens].
      rewrite Ens. cbn [bind]. eauto.
    + destruct IH as [r Er]; [exact Hlen|]. rewrite Er. cbn [bind]. eauto.
Qed.

Lemma weightedDeltas_total (i : nat) (deltas : list T) (weights : list (list T)) (acc : T) :
  length deltas <= length weights ->
  Forall (fun w => i < length w) weights ->
  exists r, Layer.weightedDeltas mode i deltas weights acc = Ok r.
Proof.
  revert weights acc. induction deltas as [|d ds IH]; intros weights acc Hlen Hall; simpl.
  - eauto.
  - destruct weights as [|w ws]; simpl in Hlen; [lia|].
    inversion Hall as [|? ? Hw Hws]; subst.
    replace (Nat.ltb i (length w)) with true by (symmetry; apply Nat.ltb_lt; exact Hw).
    rewrite NNV_ASSERT_true. cbn [bind]. unfold at_.
    destruct (nth_error w i) as [wi|] eqn:Ewi.
    + cbn [bind]. apply IH; [lia|exact Hws].
    + apply nth_error_None in Ewi. lia.
Qed.

Lemma gradientLoop_total (derivFunc : T -> T) (deltas : list T) (weights : list (list T))
  (i : nat) (ns : list (Neuron.t T)) :
  length deltas <= length weights ->
  Forall (fun w => i + length ns <= length w) weights ->
  exists r, Layer.gradientLoop mode derivFunc deltas weights i ns = Ok r.
Proof.
  revert i. induction ns as [|n ns IH]; intros i Hlen Hall; simpl.
  - eauto.
  - destruct (@weightedDeltas_total i deltas weights zero Hlen) as [delta Ed].
    { eapply Forall_impl; [|exact Hall]. simpl. intros w Hw. lia. }
    rewrite Ed. cbn [bind].
    destruct (IH (S i) Hlen) as [r Er].
    { eapply Forall_impl; [|exact Hall]. simpl. intros w Hw. lia. }
    rewrite Er. cbn [bind]. eauto.
Qed.

Lemma computeGradients_total (l : Layer.t T) (deltas : list T) (weights : list (list T)) :
  length deltas = length weights ->
  Forall (fun w => Layer.getSize l <= length w) weights ->
  exists l', Layer.computeGradients mode l deltas weights = Ok l'.
Proof.
  intros Hlen Hall. unfold Layer.computeGradients.
  rewrite Hlen, Nat.eqb_refl, NNV_ASSERT_true. cbn [bind].
  destruct (@gradientLoop_total
              (ActivationFactory.getDerivative (Layer.activationType_ l))
              deltas weights 0 (Layer.neurons_ l)) as [ns Ens]; [lia|exact Hall|].
  rewrite Ens. cbn [bind]. eauto.
Qed.

Lemma hiddenGradients_total (p : nat) (layers : list (Layer.t T)) :
  chainFits p layers ->
  exists r, NeuralNetwork.hiddenGradients mode layers = Ok r.
Proof.
  revert p. induction layers as [|l rest IH]; intros p Hfit;
    cbn [NeuralNetwork.hiddenGradients].
  - eauto.
  - destruct rest as [|l2 rest]; [eauto|].
    destruct Hfit as [_ Hrest].
    destruct (IH _ Hrest) as [r Er]. rewrite Er. cbn [bind].
    pose proof (hiddenGradients_kept _ _ Er) as K.
    inversion K as [|? next ? rest' Hn Hr]; subst.
    destruct Hrest as [Hl2 _].
    destruct (layerKept_fits Hn Hl2) as [_ [Hw _]].
    destruct (@computeGradients_total l
                (map (@Neuron.delta_ T) (Layer.neurons_ next))
                (map (@Neuron.inputWeights_ T) (Layer.neurons_ next))) as [l' El].
    { rewrite !length_map. reflexivity. }
    { apply Forall_map. eapply Forall_impl; [|exact Hw]. simpl. intros n Hn'. lia. }
    rewrite El. cbn [bind]. eauto.
Qed.

Lemma updateWeights_total (l : Layer.t T) (lr : T) (prev : list T) :
  Forall (fun n => length (Neuron.inputWeights_ n) = length prev) (Layer.neurons_ l) ->
  exists l', Layer.updateWeights mode l lr prev = Ok l'.
Proof.
  intros Hall. unfold Layer.updateWeights.
  destruct (Layer.trainable_ l); cbn [negb]; [|eauto].
  rewrite mapM_Ok_map with (g := descended lr prev).
  - cbn [bind]. eauto.
  - eapply Forall_impl; [|exact Hall]. intros n Hn. apply updateNeuron_descended. exact Hn.
Qed.

Lemma updateLayers_total (lr : T) (prev : Layer.t T) (layers : list (Layer.t T)) :
  chainFits (Layer.getSize prev) layers ->
  exists r, NeuralNetwork.updateLayers mode lr prev layers = Ok r.
Proof.
  revert prev. induction layers as [|l rest IH]; intros prev Hfit;
    cbn [NeuralNetwork.updateLayers].
  - eauto.
  - destruct Hfit as [[_ [Hw _]] Hrest].
    destruct (@updateWeights_total l lr (Layer.getActivations prev)) as [l' El].
    { unfold Layer.getActivations. rewrite length_map. exact Hw. }
    rewrite El. cbn [bind].
    destruct (IH l') as [r Er].
    { rewrite (layerKept_size (updateWeights_kept _ _ _ _ El)). exact Hrest. }
    rewrite Er. cbn [bind]. eauto.
Qed.

Lemma backward_total (w o : nat) (targets outputs : list T) (s : NeuralNetwork.state T) :
  fits w o (NeuralNetwork.self s) ->
  length outputs = o -> o <= length targets ->
  exists loss s', NeuralNetwork.backward mode targets outputs s = Ok (loss, s').
Proof.
  intros [input [rest [Hl [Hw [Hc Ho]]]]] Hout Htg.
  unfold NeuralNetwork.backward, bindM at 1, NeuralNetwork.get. cbn [bind fst snd].
  rewrite Hl. destruct rest as [|l rest]; [eexists; eexists; reflexivity|].
  destruct (@getGradient_total (NeuralNetwork.lossType_ (NeuralNetwork.self s))
              outputs targets) as [g [Eg Lg]]; [lia|].
  unfold bindM at 1, lift. rewrite Eg. cbn [bind fst snd].
  destruct (@seedOutputLayer_total g (l :: rest) input) as [r1 E1]; [lia|].
  unfold bindM at 1. rewrite E1. cbn [bind fst snd].
  pose proof (seedOutputLayer_kept _ _ E1) as K1.
  pose proof (chainFits_kept w K1 Hc) as Hc1.
  destruct (hiddenGradients_total _ _ Hc1) as [r2 E2].
  unfold bindM at 1. rewrite E2. cbn [bind fst snd].
  pose proof (hiddenGradients_kept _ _ E2) as K2.
  pose proof (chainFits_kept w K2 Hc1) as Hc2.
  rewrite <- Hw in Hc2.
  destruct (@updateLayers_total (NeuralNetwork.learningRate_ (NeuralNetwork.self s))
              input r2 Hc2) as [r3 E3].
  unfold bindM at 1. rewrite E3. cbn [bind fst snd].
  eexists. eexists. reflexivity.
Qed.

Lemma fits_layers (w o : nat) (n n' : NeuralNetwork.t T) :
  NeuralNetwork.layers_ n' = NeuralNetwork.layers_ n -> fits w o n -> fits w o n'.
Proof.
  intros E [input [rest [Hl Hrest]]]. exists input, rest. split; [congruence|exact Hrest].
Qed.

Lemma forward_total (w o : nat) (inputs : list T) (s : NeuralNetwork.state T) :
  fits w o (NeuralNetwork.self s) ->
  exists outputs s',
    NeuralNetwork.forward mode uniform01 inputs s = Ok (outputs, s') /\
    (length inputs = w -> length outputs = o) /\
    (length inputs <> w -> outputs = []).
Proof.
  intros [input [rest [Hl [Hw [Hc Ho]]]]].
  destruct (Nat.eq_dec (length inputs) (Layer.getSize input)) as [Hlen|Hlen].
  - rewrite (@forward_run _ _ _ mode uniform01 inputs s input rest Hl Hlen).
    destruct (@setActivations_Ok _ _ mode input inputs Hlen) as [input' [E0 S0]].
    rewrite E0. cbn [bind].
    destruct (@forwardLayers_total _ _ _ mode uniform01
                (NeuralNetwork.isTraining_ (NeuralNetwork.self s))
                (Layer.getActivations input') rest (NeuralNetwork.drawn s)) as [r Er].
    { unfold Layer.getActivations. rewrite length_map.
      fold (Layer.getSize input'). rewrite (sameUnits_size S0), Hw. exact Hc. }
    rewrite Er. cbn [bind]. eexists. eexists. split; [reflexivity|]. split; [|lia].
    intros _. unfold Layer.getActivations. rewrite length_map.
    fold (Layer.getSize (last (fst r) input')). rewrite <- Ho.
    apply sameUnits_size. apply Forall2_last; [|exact S0].
    eapply forwardLayers_sameUnits. exact Er.
  - rewrite (@forward_mismatch _ _ _ mode uniform01 inputs s input rest Hl Hlen).
    eexists. eexists. split; [reflexivity|]. split; [lia|reflexivity].
Qed.

Lemma trainSample_total (w o : nat) (inputs targets : list T) (s : NeuralNetwork.state T) :
  fits w o (NeuralNetwork.self s) ->
  length inputs = w -> o <= length targets ->
  exists loss s', NeuralNetwork.trainSample mode uniform01 inputs targets s = Ok (loss, s').
Proof.
  intros Hfit Hin Htg. unfold NeuralNetwork.trainSample.
  destruct (@forward_total w o inputs s Hfit) as [outputs [s1 [E1 [Hout _]]]].
  unfold bindM. rewrite E1. cbn [bind fst snd].
  apply (@backward_total w o).
  - eapply fits_kept; [|exact Hfit]. eapply preserves_forward. exact E1.
  - apply Hout. exact Hin.
  - exact Htg.
Qed.

Lemma trainSamples_total (w o : nat) (inputBatch targetBatch : list (list T))
  (totalLoss : T) (s : NeuralNetwork.state T) :
  fits w o (NeuralNetwork.self s) ->
  length targetBatch = length inputBatch ->
  Forall (fun x => length x = w) inputBatch ->
  Forall (fun t => o <= length t) targetBatch ->
  exists loss s',
    NeuralNetwork.trainSamples mode uniform01 inputBatch targetBatch totalLoss s
    = Ok (loss, s').
Proof.
  revert targetBatch totalLoss s.
  induction inputBatch as [|x xs IH]; intros targetBatch totalLoss s Hfit Hlen Hx Ht;
    cbn [NeuralNetwork.trainSamples].
  - eexists. eexists. reflexivity.
  - destruct targetBatch as [|t ts]; [discriminate|].
    inversion Hx; subst. inversion Ht; subst.
    destruct (@trainSample_total _ o x t s Hfit eq_refl) as [l [s1 E1]]; [assumption|].
    unfold bindM. rewrite E1. cbn [bind fst snd].
    apply IH; try assumption.
    + eapply fits_kept; [|exact Hfit]. eapply trained_trainSample. exact E1.
    + simpl in Hlen. congruence.
Qed.

Lemma trainBatch_total (w o : nat) (inputBatch targetBatch : list (list T))
  (s : NeuralNetwork.state T) :
  fits w o (NeuralNetwork.self s) ->
  Forall (fun x => length x = w) inputBatch ->
  Forall (fun t => o <= length t) targetBatch ->
  exists loss s',
    NeuralNetwork.trainBatch mode uniform01 inputBatch targetBatch s = Ok (loss, s').
Proof.
  intros Hfit Hx Ht. unfold NeuralNetwork.trainBatch.
  destruct (Nat.eqb (length inputBatch) (length targetBatch)) eqn:Elen; cbn [negb].
  - apply Nat.eqb_eq in Elen.
    destruct (@trainSamples_total w o inputBatch targetBatch zero s Hfit) as [l [s1 E1]];
      try assumption; [congruence|].
    unfold bindM. rewrite E1. cbn [bind fst snd]. eexists. eexists. reflexivity.
  - eexists. eexists. reflexivity.
Qed.

Lemma trainBatches_total (w o : nat) (batches : list (NeuralNetwork.Batch (T := T)))
  (epochLoss : T) (s : NeuralNetwork.state T) :
  fits w o (NeuralNetwork.self s) ->
  Forall (fun b => Forall (fun x => length x = w) (fst b) /\
                   Forall (fun t => o <= length t) (snd b)) batches ->
  exists loss s',
    NeuralNetwork.trainBatches mode uniform01 batches epochLoss s = Ok (loss, s').
Proof.
  revert epochLoss s. induction batches as [|b bs IH]; intros epochLoss s Hfit Hall;
    cbn [NeuralNetwork.trainBatches].
  - eexists. eexists. reflexivity.
  - inversion Hall as [|? ? [Hx Ht] Hbs]; subst.
    destruct (@trainBatch_total w o (fst b) (snd b) s Hfit Hx Ht) as [l [s1 E1]].
    unfold bindM. rewrite E1. cbn [bind fst snd].
    apply IH; [|exact Hbs].
    eapply fits_kept; [|exact Hfit]. eapply trained_trainBatch. exact E1.
Qed.

(** ** Inference returns on a well-formed network, whatever the input *)

Lemma predict_total (w o : nat) (inputs : list T) (s : NeuralNetwork.state T) :
  fits w o (NeuralNetwork.self s) ->
  exists outputs s',
    NeuralNetwork.predict mode uniform01 inputs s = Ok (outputs, s') /\
    (length inputs = w -> length outputs = o) /\
    (length inputs <> w -> outputs = []).
Proof.
  intros Hfit. rewrite predict_eq.
  destruct (@forward_total w o inputs (inference s)) as [outputs [s1 [E1 Hout]]].
  { eapply fits_layers; [|exact Hfit]. reflexivity. }
  rewrite E1. cbn [bind fst snd]. eexists. eexists. split; [reflexivity|exact Hout].
Qed.

Lemma predictBatch_total (w o : nat) (inputBatch : list (list T))
  (s : NeuralNetwork.state T) :
  fits w o (NeuralNetwork.self s) ->
  exists outputs s',
    NeuralNetwork.predictBatch mode uniform01 inputBatch s = Ok (outputs, s') /\
    Forall2 (fun x out => (length x = w -> length out = o) /\
                          (length x <> w -> out = [])) inputBatch outputs.
Proof.
  revert s. induction inputBatch as [|x xs IH]; intros s Hfit;
    cbn [NeuralNetwork.predictBatch].
  - eexists. eexists. split; [reflexivity|constructor].
  - destruct (@predict_total w o x s Hfit) as [out [s1 [E1 Hout]]].
    unfold bindM at 1. rewrite E1. cbn [bind fst snd].
    destruct (IH s1) as [outs [s2 [E2 Houts]]].
    { eapply fits_kept; [|exact Hfit]. eapply trained_predict. exact E1. }
    unfold bindM at 1. rewrite E2. cbn [bind fst snd].
    eexists. eexists. split; [reflexivity|]. constructor; assumption.
Qed.

Lemma computeAccuracy_total (outputs targets : list (list T)) :
  (length outputs = length targets ->
   Forall2 (fun o t => length o = 1 -> t <> []) outputs targets) ->
  exists a, NeuralNetwork.computeAccuracy outputs targets = Ok a.
Proof.
  intros Hall. unfold NeuralNetwork.computeAccuracy.
  destruct (Nat.eqb (length outputs) 0 || Nat.eqb (length targets) 0
            || negb (Nat.eqb (length outputs) (length targets))) eqn:E; [eauto|].
  apply orb_false_iff in E. destruct E as [_ E].
  apply negb_false_iff, Nat.eqb_eq in E.
  rewrite (@countCorrect_count _ _ outputs targets 0 (Hall E)). cbn [bind]. eauto.
Qed.

Lemma totalLossOf_total (lossFunction : list T -> list T -> T)
  (outputs targetData : list (list T)) (totalLoss : T) :
  length outputs <= length targetData ->
  exists r, NeuralNetwork.totalLossOf lossFunction outputs targetData totalLoss = Ok r.
Proof.
  revert targetData totalLoss.
  induction outputs as [|o os IH]; intros targetData totalLoss Hlen; simpl.
  - eauto.
  - destruct targetData as [|t ts]; simpl in Hlen; [lia|]. apply IH. lia.
Qed.

Lemma evaluate_total (w o : nat) (inputData targetData : list (list T))
  (s : NeuralNetwork.state T) :
  fits w o (NeuralNetwork.self s) ->
  Forall (fun t => t <> []) targetData ->
  exists r s', NeuralNetwork.evaluate mode uniform01 inputData targetData s = Ok (r, s').
Proof.
  intros Hfit Ht. unfold NeuralNetwork.evaluate.
  destruct (Nat.eqb (length inputData) (length targetData)) eqn:Elen; cbn [negb].
  2:{ eexists. eexists. reflexivity. }
  apply Nat.eqb_eq in Elen.
  destruct (@predictBatch_total w o inputData s Hfit) as [outputs [s1 [E1 Hout]]].
  unfold bindM at 1. rewrite E1. cbn [bind fst snd].
  unfold bindM at 1, NeuralNetwork.get. cbn [bind fst snd].
  pose proof (Forall2_length Hout) as Hlen.
  destruct (@totalLossOf_total
              (LossFactory.getFunction (NeuralNetwork.lossType_ (NeuralNetwork.self s1)))
              outputs targetData zero) as [tl Etl]; [lia|].
  unfold bindM at 1, lift. rewrite Etl. cbn [bind fst snd].
  destruct (@computeAccuracy_total outputs targetData) as [a Ea].
  { intros _. clear - Ht Hlen Elen.
    assert (Hl : length outputs = length targetData) by congruence. clear Hlen Elen.
    revert targetData Ht Hl. induction outputs as [|o os IH]; intros [|t ts] Ht Hl;
      try discriminate; constructor.
    - intros _. inversion Ht. assumption.
    - apply IH; [inversion Ht; assumption|simpl in Hl; congruence]. }
  unfold bindM at 1. rewrite Ea. cbn [bind fst snd]. eexists. eexists. reflexivity.
Qed.

(** ** [shuffleData] hands out the samples it is given *)

Lemma mapM_at_map {A : Type} (v : list A) (d : A) (indices : list nat) :
  Forall (fun i => i < length v) indices ->
  mapM (at_ v) indices = Ok (map (fun i => nth i v d) indices).
Proof.
  induction 1 as [|i indices Hi _ IH]; simpl; [reflexivity|].
  unfold at_ at 1. rewrite (nth_error_nth' v d Hi). cbn [bind].
  rewrite IH. reflexivity.
Qed.

Lemma shuffleData_eq (inputs targets : list (list T)) (s : NeuralNetwork.state T) :
  length targets = length inputs ->
  let r := NeuralNetwork.shuffle randomIndex (length inputs - 1)
             (seq 0 (length inputs)) (NeuralNetwork.drawn s) in
  Forall (fun i => i < length inputs) (fst r) /\
  length (fst r) = length inputs /\
  NeuralNetwork.shuffleData randomIndex inputs targets s
  = Ok ((map (fun i => nth i inputs []) (fst r), map (fun i => nth i targets []) (fst r)),
        NeuralNetwork.mkState (NeuralNetwork.self s) (NeuralNetwork.logged s) (snd r)).
Proof.
  intros Hlen r.
  destruct (@shuffle_keeps randomIndex (fun i => i < length inputs) (length inputs - 1)
              (seq 0 (length inputs)) (NeuralNetwork.drawn s)) as [HP HL].
  { apply Forall_forall. intros i Hi. apply in_seq in Hi. lia. }
  rewrite length_seq in HL. fold r in HP, HL.
  split; [exact HP|]. split; [exact HL|].
  unfold NeuralNetwork.shuffleData.
  rewrite Hlen, Nat.eqb_refl. cbn [negb].
  unfold bindM at 1, NeuralNetwork.drawing. cbn [bind fst snd]. fold r.
  unfold bindM at 1, lift. rewrite (mapM_at_map inputs [] HP). cbn [bind fst snd].
  unfold bindM at 1.
  rewrite (@mapM_at_map _ targets [] (fst r)) by (rewrite Hlen; exact HP).
  reflexivity.
Qed.

Lemma Forall_nth_map {A : Type} (P : A -> Prop) (v : list A) (d : A) (indices : list nat) :
  Forall P v -> Forall (fun i => i < length v) indices ->
  Forall P (map (fun i => nth i v d) indices).
Proof.
  intros Hv Hi. apply Forall_map. eapply Forall_impl; [|exact Hi].
  simpl. intros i Hlt. rewrite Forall_forall in Hv. apply Hv. apply nth_In. exact Hlt.
Qed.

Lemma shuffleData_trainable (w o : nat) (inputs targets : list (list T))
  (s : NeuralNetwork.state T) :
  trainable w o inputs targets ->
  exists r s',
    NeuralNetwork.shuffleData randomIndex inputs targets s = Ok (r, s') /\
    NeuralNetwork.self s' = NeuralNetwork.self s /\
    trainable w o (fst r) (snd r) /\
    length (fst r) = length inputs.
Proof.
  intros [Hx [Ht Hlen]].
  destruct (@shuffleData_eq inputs targets s Hlen) as [HP [HL E]].
  rewrite E. eexists. eexists. split; [reflexivity|]. split; [reflexivity|].
  cbn [fst snd]. unfold trainable. rewrite !length_map. split; [|exact HL].
  split; [|split; [|reflexivity]].
  - apply Forall_nth_map; assumption.
  - apply Forall_nth_map; [assumption|]. rewrite Hlen. exact HP.
Qed.

Lemma outputs_countable (w o : nat) (inputs targets outputs : list (list T)) :
  trainable w o inputs targets ->
  Forall2 (fun x out => (length x = w -> length out = o) /\
                        (length x <> w -> out = [])) inputs outputs ->
  Forall2 (fun out t => length out = 1 -> t <> []) outputs targets.
Proof.
  intros [Hx [Ht Hlen]] Hout. revert targets Ht Hlen.
  induction Hout as [|x out xs outs [Ho _] _ IH]; intros [|t ts] Ht Hlen;
    try discriminate; constructor.
  - inversion Hx; subst. inversion Ht; subst. intros H1.
    rewrite (Ho eq_refl) in H1. subst o. destruct t; [simpl in *; lia|discriminate].
  - inversion Hx; subst. inversion Ht; subst. apply IH; try assumption.
    simpl in Hlen. congruence.
Qed.

Section Run.
Variable fuel : nat.
Variable schedule : NeuralNetwork.StopSchedule.
Variables (epochs : nat) (batchSize : N).
Variables (validationInputs validationTargets : option (list (list T))).
Variable progressCallback : option (nat -> float -> float -> bool).
Hypothesis HB : (1 <= batchSize < 2 ^ 64)%N.
Hypothesis Hval : forall vi vt,
  validationInputs = Some vi -> validationTargets = Some vt ->
  Forall (fun t => t <> []) vt.

#[local] Abbreviation trainEpoch :=
  (NeuralNetwork.trainEpoch mode uniform01 randomIndex fuel epochs batchSize
     validationInputs validationTargets progressCallback).
#[local] Abbreviation trainLoop :=
  (NeuralNetwork.trainLoop mode uniform01 randomIndex fuel schedule epochs batchSize
     validationInputs validationTargets progressCallback).
#[local] Abbreviation train :=
  (NeuralNetwork.train mode uniform01 randomIndex fuel schedule epochs batchSize
     validationInputs validationTargets progressCallback).

Lemma trainEpoch_total (w o epoch : nat) (inputs targets : list (list T))
  (history : NeuralNetwork.TrainingHistory T) (s : NeuralNetwork.state T) :
  fits w o (NeuralNetwork.self s) ->
  trainable w o inputs targets ->
  (N.of_nat (length inputs) < 2 ^ 63)%N -> length inputs < fuel ->
  exists r s',
    trainEpoch epoch inputs targets history s = Ok (r, s') /\
    trainable w o (fst (fst r)) (snd (fst r)) /\
    length (fst (fst r)) = length inputs.
Proof.
  intros Hfit Hdata Hsize Hfuel.
  unfold NeuralNetwork.trainEpoch.
  destruct (@shuffleData_trainable w o inputs targets s Hdata)
    as [[inputs' targets'] [s1 [E1 [Hs1 [Hdata' Hlen']]]]].
  cbn [fst snd] in Hdata', Hlen'.
  unfold bindM at 1. rewrite E1. cbn [bind fst snd].
  destruct Hdata' as [Hx [Ht Htl]].
  destruct (@createBatchesFrom_cover T inputs' targets' batchSize) with
    (fuel := fuel) (k := 0) (acc := @nil (NeuralNetwork.Batch (T := T)))
    as [batches [Eb Hcover]]; try assumption; try (simpl; lia).
  change (N.of_nat 0) with 0%N in Eb.
  unfold bindM at 1, lift, NeuralNetwork.createBatches. rewrite Eb. cbn [bind fst snd app].
  destruct Hcover as [_ [_ [_ [Hin Htg]]]]. cbn [skipn] in Hin, Htg.
  assert (Hfit1 : fits w o (NeuralNetwork.self s1)) by (rewrite Hs1; exact Hfit).
  destruct (@trainBatches_total w o batches zero s1 Hfit1) as [epochLoss [s2 E2]].
  { assert (Hbx : Forall (Forall (fun x => length x = w)) (map fst batches))
      by (apply Forall_concat; rewrite Hin; exact Hx).
    assert (Hbt : Forall (Forall (fun t => o <= length t)) (map snd batches))
      by (apply Forall_concat; rewrite Htg; exact Ht).
    clear - Hbx Hbt. induction batches as [|b bs IH]; constructor.
    - inversion Hbx; subst. inversion Hbt; subst. split; assumption.
    - inversion Hbx; subst. inversion Hbt; subst. apply IH; assumption. }
  unfold bindM at 1. rewrite E2. cbn [bind fst snd].
  assert (Hfit2 : fits w o (NeuralNetwork.self s2)).
  { eapply fits_kept; [|exact Hfit1]. eapply trained_trainBatches. exact E2. }
  destruct (@predictBatch_total w o inputs' s2 Hfit2) as [trainOutputs [s3 [E3 Hout]]].
  unfold bindM at 1. rewrite E3. cbn [bind fst snd].
  assert (Hfit3 : fits w o (NeuralNetwork.self s3)).
  { eapply fits_kept; [|exact Hfit2]. eapply trained_predictBatch. exact E3. }
  destruct (@computeAccuracy_total trainOutputs targets') as [trainAccuracy Ea].
  { intros _. eapply outputs_countable; [|exact Hout]. repeat split; assumption. }
  unfold bindM at 1. rewrite Ea. cbn [bind fst snd].
  assert (Ev : exists history' s4,
             match validationInputs, validationTargets with
             | Some vi, Some vt =>
                 valResult <~ NeuralNetwork.evaluate mode uniform01 vi vt ;;
                 ret (NeuralNetwork.pushVal
                        (NeuralNetwork.pushTrain history
                           (div epochLoss (of_size (length batches))) trainAccuracy)
                        (fst valResult) (snd valResult))
             | _, _ => ret (NeuralNetwork.pushTrain history
                              (div epochLoss (of_size (length batches))) trainAccuracy)
             end s3 = Ok (history', s4)).
  { destruct validationInputs as [vi|] eqn:Evi; [|eexists; eexists; reflexivity].
    destruct validationTargets as [vt|] eqn:Evt; [|eexists; eexists; reflexivity].
    destruct (@evaluate_total w o vi vt s3 Hfit3 (Hval eq_refl eq_refl)) as [r [s4 E4]].
    unfold bindM. rewrite E4. cbn [bind fst snd]. eexists. eexists. reflexivity. }
  destruct Ev as [history' [s4 E4]].
  unfold bindM at 1. rewrite E4. cbn [bind fst snd].
  unfold bindM at 1, NeuralNetwork.modify. cbn [bind fst snd].
  destruct progressCallback as [callback|];
    [destruct (callback epoch (toScalar (div epochLoss (of_size (length batches))))
                (toScalar trainAccuracy))|];
    destruct (Nat.eqb (epoch mod 10) 0 || Nat.eqb epoch (epochs - 1));
    (eexists; eexists; split; [reflexivity|]; cbn [fst snd];
     split; [repeat split; assumption|exact Hlen']).
Qed.

Lemma trainLoop_total (w o remaining epoch : nat) (inputs targets : list (list T))
  (history : NeuralNetwork.TrainingHistory T) (s : NeuralNetwork.state T) :
  fits w o (NeuralNetwork.self s) ->
  trainable w o inputs targets ->
  (N.of_nat (length inputs) < 2 ^ 63)%N -> length inputs < fuel ->
  exists h s', trainLoop remaining epoch inputs targets history s = Ok (h, s').
Proof.
  revert epoch inputs targets history s.
  induction remaining as [|remaining IH];
    intros epoch inputs targets history s Hfit Hdata Hsize Hfuel;
    cbn [NeuralNetwork.trainLoop].
  - eexists. eexists. reflexivity.
  - unfold bindM at 1, NeuralNetwork.get. cbn [bind fst snd].
    destruct (NeuralNetwork.shouldStop_ (NeuralNetwork.self s));
      [eexists; eexists; reflexivity|].
    assert (Es : exists s0,
               NeuralNetwork.externalStop (NeuralNetwork.stopDuringEpoch schedule epoch) s
               = Ok (tt, s0) /\
               NeuralNetwork.layers_ (NeuralNetwork.self s0)
               = NeuralNetwork.layers_ (NeuralNetwork.self s)).
    { destruct (NeuralNetwork.stopDuringEpoch schedule epoch);
        eexists; split; reflexivity. }
    destruct Es as [s0 [E0 Hl0]].
    unfold bindM at 1. rewrite E0. cbn [bind fst snd].
    destruct (@trainEpoch_total w o epoch inputs targets history s0)
      as [r [s1 [E1 [Hdata' Hlen']]]]; try assumption.
    { eapply fits_layers; [exact Hl0|exact Hfit]. }
    unfold bindM at 1. rewrite E1. cbn [bind fst snd].
    apply IH; try assumption; try (rewrite Hlen'; assumption).
    eapply fits_kept; [eapply trained_trainEpoch; exact E1|].
    eapply fits_layers; [exact Hl0|exact Hfit].
Qed.

(** X3: on a well-formed network that takes [w] inputs and gives [o]
    outputs, with inputs of width [w], targets of at least [o] entries, as
    many targets as inputs, a batch size of at least one and non-empty
    validation targets, [train] returns a history, in either build, and
    leaves a well-formed network of the same widths. *)
Theorem X3_train_total (w o : nat) (inputData targetData : list (list T))
  (s : NeuralNetwork.state T) :
  fits w o (NeuralNetwork.self s) ->
  trainable w o inputData targetData ->
  (N.of_nat (length inputData) < 2 ^ 63)%N -> length inputData < fuel ->
  exists h s',
    train inputData targetData s = Ok (h, s') /\
    fits w o (NeuralNetwork.self s').
Proof.
  intros Hfit Hdata Hsize Hfuel.
  assert (E : exists h s', train inputData targetData s = Ok (h, s')).
  { unfold NeuralNetwork.train.
    unfold bindM at 1, NeuralNetwork.modify at 1. cbn [bind fst snd].
    assert (Es : forall lands (s1 : NeuralNetwork.state T), exists s2,
               NeuralNetwork.externalStop lands s1 = Ok (tt, s2) /\
               NeuralNetwork.layers_ (NeuralNetwork.self s2)
               = NeuralNetwork.layers_ (NeuralNetwork.self s1)).
    { intros [|] s1; eexists; split; reflexivity. }
    match goal with |- context [bindM (NeuralNetwork.externalStop _) _ ?s1] =>
      destruct (Es (NeuralNetwork.stopBeforeReset schedule) s1) as [sa [Ea Hla]] end.
    unfold bindM at 1. rewrite Ea. cbn [bind fst snd].
    unfold bindM at 1, NeuralNetwork.modify at 1. cbn [bind fst snd].
    match goal with |- context [bindM (NeuralNetwork.externalStop _) _ ?s1] =>
      destruct (Es (NeuralNetwork.stopAfterReset schedule) s1) as [sb [Eb Hlb]] end.
    unfold bindM at 1. rewrite Eb. cbn [bind fst snd].
    unfold bindM at 1, NeuralNetwork.NNV_LOG at 1. cbn [bind fst snd].
    match goal with |- context [bindM (NeuralNetwork.trainLoop _ _ _ _ _ _ _ _ _ _ _ _ _ _ ?h) _ ?s1] =>
      destruct (@trainLoop_total w o epochs 0 inputData targetData h s1)
        as [h' [s' E']]; try assumption end.
    { eapply fits_layers; [|exact Hfit]. cbn. rewrite Hlb. cbn. rewrite Hla. reflexivity. }
    unfold bindM at 1. rewrite E'. cbn [bind fst snd].
    eexists. eexists. reflexivity. }
  destruct E as [h [s' E]]. exists h, s'. split; [exact E|].
  eapply fits_kept; [|exact Hfit].
  eapply trained_train. exact E.
Qed.
End Run.
End TotalityProperties.

(** ** Sizes that do not match *)

Section EdgeProperties.
Context {T : Type} `{Scalar T} `{Libm T}.
Variable mode : BuildMode.
Variable uniform01 : nat -> T.
Variable randomIndex : nat -> nat.

#[local] Abbreviation M := (StateM (NeuralNetwork.state T)).

Lemma seedOutputLayer_empty (layers : list (Layer.t T)) (d : Layer.t T) :
  layers <> [] -> Layer.neurons_ (last layers d) <> [] ->
  NeuralNetwork.seedOutputLayer [] layers = Undefined.
Proof.
  induction layers as [|l rest IH]; intros Hne Hlast; [contradiction|].
  cbn [NeuralNetwork.seedOutputLayer].
  destruct rest as [|l2 rest].
  - simpl in Hlast. destruct (Layer.neurons_ l); [contradiction|reflexivity].
  - rewrite IH; [reflexivity|discriminate|exact Hlast].
Qed.

Lemma getGradient_nil (type : LossType.t) (targets : list T) :
  LossFactory.getGradient type [] targets = Ok [].
Proof. destruct type; reflexivity. Qed.

(** X4: a training step on an input whose width differs from the first
    layer's: [forward] logs and returns an empty vector, and [backward]
    then reads [outputGradients[0]] of the empty gradient vector, which is
    undefined behaviour, in either build. *)
Theorem X4_trainSample_wrong_width (inputs targets : list T) (s : NeuralNetwork.state T)
  (input : Layer.t T) (rest : list (Layer.t T)) :
  NeuralNetwork.layers_ (NeuralNetwork.self s) = input :: rest ->
  rest <> [] ->
  Layer.neurons_ (last rest input) <> [] ->
  length inputs <> Layer.getSize input ->
  NeuralNetwork.trainSample mode uniform01 inputs targets s = Undefined.
Proof.
  intros Hl Hrest Hlast Hlen. unfold NeuralNetwork.trainSample, bindM.
  rewrite (@forward_mismatch _ _ _ mode uniform01 inputs s input rest Hl Hlen).
  cbn [bind fst snd]. unfold NeuralNetwork.backward, bindM at 1, NeuralNetwork.get.
  cbn [bind fst snd NeuralNetwork.self]. rewrite Hl.
  destruct rest as [|l rest]; [contradiction|].
  unfold bindM at 1, lift. rewrite getGradient_nil. cbn [bind fst snd].
  unfold bindM at 1. rewrite (@seedOutputLayer_empty (l :: rest) input); [reflexivity|discriminate|].
  exact Hlast.
Qed.

(** X5: the loss functions compare the sizes of their arguments and
    return [T{0}] when they differ; the gradient functions do not: they
    return one entry per output when there are at least as many targets,
    and read past the end of [targets] when there are fewer. *)
Theorem X5_lossGradient_defined (type : LossType.t) (outputs targets : list T) :
  (length outputs <= length targets ->
   exists g, LossFactory.getGradient type outputs targets = Ok g /\
             length g = length outputs) /\
  (length targets < length outputs ->
   LossFactory.getGradient type outputs targets = Undefined) /\
  (length outputs <> length targets ->
   LossFactory.getFunction type outputs targets = zero).
Proof.
  split; [|split].
  - apply getGradient_total.
  - intros Hlen. destruct type; apply zipOutputs_short; exact Hlen.
  - intros Hlen. apply Nat.eqb_neq in Hlen.
    destruct type; simpl;
      unfold loss.meanSquaredError, loss.crossEntropy, loss.binaryCrossEntropy,
        loss.huberLoss, loss.focalLoss, loss.same_size; rewrite Hlen; reflexivity.
Qed.
End EdgeProperties.

(** ** The training history *)

Section HistoryProperties.
Context {T : Type} `{Scalar T} `{Libm T}.
Variable mode : BuildMode.
Variable uniform01 : nat -> T.
Variable randomIndex : nat -> nat.

#[local] Abbreviation M := (StateM (NeuralNetwork.state T)).

Lemma stopKept_forward (inputs : list T) :
  preserves stopKept (NeuralNetwork.forward mode uniform01 inputs).
Proof.
  intros s out s' E. apply forward_frame in E. destruct E as [_ E].
  unfold stopKept. rewrite E. reflexivity.
Qed.

Lemma stopKept_backward (targets outputs : list T) :
  preserves stopKept (NeuralNetwork.backward mode targets outputs).
Proof.
  intros s out s' E. apply backward_frame in E.
  unfold stopKept. rewrite E. reflexivity.
Qed.

Lemma stopKept_refl (n : NeuralNetwork.t T) : stopKept n n.
Proof. reflexivity. Qed.

Lemma stopKept_trans (a b c : NeuralNetwork.t T) :
  stopKept a b -> stopKept b c -> stopKept a c.
Proof. unfold stopKept. congruence. Qed.

Lemma stopKept_isTraining (n : NeuralNetwork.t T) (b : bool) :
  stopKept n (NeuralNetwork.storeIsTraining n b).
Proof. reflexivity. Qed.

Ltac kept :=
  first [ exact stopKept_refl | exact stopKept_trans | exact stopKept_isTraining
        | exact stopKept_forward | exact stopKept_backward ].

Lemma stopKept_lift {A : Type} (o : Outcome A) : preserves stopKept (lift o : M A).
Proof. apply framed_lift; kept. Qed.

Lemma stopKept_shuffleData (inputs targets : list (list T)) :
  preserves stopKept (NeuralNetwork.shuffleData randomIndex inputs targets).
Proof. apply framed_shuffleData; kept. Qed.

Lemma stopKept_trainBatches (batches : list (NeuralNetwork.Batch (T := T))) (epochLoss : T) :
  preserves stopKept (NeuralNetwork.trainBatches mode uniform01 batches epochLoss).
Proof. apply framed_trainBatches; kept. Qed.

Lemma stopKept_predictBatch (inputBatch : list (list T)) :
  preserves stopKept (NeuralNetwork.predictBatch mode uniform01 inputBatch).
Proof. apply framed_predictBatch; kept. Qed.

Lemma stopKept_evaluate (inputData targetData : list (list T)) :
  preserves stopKept (NeuralNetwork.evaluate mode uniform01 inputData targetData).
Proof. apply framed_evaluate; kept. Qed.

Lemma nth_error_pushed {A : Type} (l r : list A) (x : A) :
  nth_error ((l ++ [x]) ++ r) (length l) = Some x.
Proof.
  rewrite <- app_assoc. rewrite nth_error_app2 by lia.
  rewrite Nat.sub_diag. reflexivity.
Qed.

Section Run.
Variable fuel : nat.
Variable schedule : NeuralNetwork.StopSchedule.
Variables (epochs : nat) (batchSize : N).
Variables (validationInputs validationTargets : option (list (list T))).
Variable progressCallback : option (nat -> float -> float -> bool).

#[local] Abbreviation trainEpoch :=
  (NeuralNetwork.trainEpoch mode uniform01 randomIndex fuel epochs batchSize
     validationInputs validationTargets progressCallback).
#[local] Abbreviation trainLoop :=
  (NeuralNetwork.trainLoop mode uniform01 randomIndex fuel schedule epochs batchSize
     validationInputs validationTargets progressCallback).
#[local] Abbreviation train :=
  (NeuralNetwork.train mode uniform01 randomIndex fuel schedule epochs batchSize
     validationInputs validationTargets progressCallback).
#[local] Abbreviation validation := (validated validationInputs validationTargets).

Lemma trainEpoch_recorded (k epoch : nat) (inputs targets : list (list T))
  (history : NeuralNetwork.TrainingHistory T) r s s' :
  recorded validation k history ->
  trainEpoch epoch inputs targets history s = Ok (r, s') ->
  recorded validation (S k) (snd r).
Proof.
  unfold NeuralNetwork.trainEpoch. intros [L1 [L2 [L3 L4]]] E.
  apply bindM_Ok in E. destruct E as [shuffled [s1 [_ E]]].
  apply bindM_Ok in E. destruct E as [batches [s2 [_ E]]].
  apply bindM_Ok in E. destruct E as [epochLoss [s3 [_ E]]].
  apply bindM_Ok in E. destruct E as [trainOutputs [s4 [_ E]]].
  apply bindM_Ok in E. destruct E as [trainAccuracy [s5 [_ E]]].
  apply bindM_Ok in E. destruct E as [history' [s6 [Eh E]]].
  apply bindM_Ok in E. destruct E as [[] [s7 [_ E]]].
  apply bindM_Ok in E. destruct E as [[] [s8 [_ E]]].
  apply bindM_Ok in E. destruct E as [[] [s9 [_ E]]].
  inversion E; subst. cbn [snd]. clear E.
  unfold recorded, validated in *.
  destruct validationInputs as [vi|]; [destruct validationTargets as [vt|]|].
  - apply bindM_Ok in Eh. destruct Eh as [v [sv [_ Eh]]].
    inversion Eh; subst. simpl. rewrite !length_app. simpl. lia.
  - inversion Eh; subst. simpl. rewrite !length_app. simpl. lia.
  - inversion Eh; subst. simpl. rewrite !length_app. simpl. lia.
Qed.

Lemma trainLoop_recorded (remaining k epoch : nat) (inputs targets : list (list T))
  (history h : NeuralNetwork.TrainingHistory T) s s' :
  recorded validation k history ->
  trainLoop remaining epoch inputs targets history s = Ok (h, s') ->
  exists k', recorded validation k' h /\ k <= k' <= k + remaining.
Proof.
  revert k epoch inputs targets history s.
  induction remaining as [|remaining IH]; intros k epoch inputs targets history s Hrec E.
  - inversion E; subst. exists k. split; [exact Hrec|lia].
  - cbn [NeuralNetwork.trainLoop] in E.
    apply bindM_Ok in E. destruct E as [n [s0 [Eg E]]]. inversion Eg; subst. clear Eg.
    destruct (NeuralNetwork.shouldStop_ (NeuralNetwork.self s0)).
    { inversion E; subst. exists k. split; [exact Hrec|lia]. }
    apply bindM_Ok in E. destruct E as [[] [s1 [_ E]]].
    apply bindM_Ok in E. destruct E as [r [s2 [E2 E]]].
    pose proof (@trainEpoch_recorded _ _ _ _ _ _ _ _ Hrec E2) as Hrec'.
    destruct (IH _ _ _ _ _ _ Hrec' E) as [k' [Hk' Hle]].
    exists k'. split; [exact Hk'|lia].
Qed.

(** What an epoch does to the history and to [shouldStop_]: it appends one
    loss and one accuracy, and the flag is set at its end when it was set at
    its start or the callback, shown these two values, called
    [stopTraining()]. *)
Lemma trainEpoch_flag (epoch : nat) (inputs targets : list (list T))
  (history : NeuralNetwork.TrainingHistory T) r s s' :
  trainEpoch epoch inputs targets history s = Ok (r, s') ->
  exists loss accuracy,
    NeuralNetwork.trainLoss (snd r) = NeuralNetwork.trainLoss history ++ [loss] /\
    NeuralNetwork.trainAccuracy (snd r)
    = NeuralNetwork.trainAccuracy history ++ [accuracy] /\
    NeuralNetwork.shouldStop_ (NeuralNetwork.self s')
    = NeuralNetwork.shouldStop_ (NeuralNetwork.self s)
      || match progressCallback with
         | Some callback => callback epoch (toScalar loss) (toScalar accuracy)
         | None => false
         end.
Proof.
  unfold NeuralNetwork.trainEpoch. intros E.
  apply bindM_Ok in E. destruct E as [shuffled [s1 [E1 E]]].
  apply bindM_Ok in E. destruct E as [batches [s2 [E2 E]]].
  apply bindM_Ok in E. destruct E as [epochLoss [s3 [E3 E]]].
  apply bindM_Ok in E. destruct E as [trainOutputs [s4 [E4 E]]].
  apply bindM_Ok in E. destruct E as [trainAccuracy [s5 [E5 E]]].
  apply bindM_Ok in E. destruct E as [history' [s6 [E6 E]]].
  apply bindM_Ok in E. destruct E as [[] [s7 [E7 E]]].
  apply bindM_Ok in E. destruct E as [[] [s8 [E8 E]]].
  apply bindM_Ok in E. destruct E as [[] [s9 [E9 E]]].
  inversion E; subst r s'. cbn [snd]. clear E.
  exists (div epochLoss (of_size (length batches))), trainAccuracy.
  pose proof E1 as K1. apply stopKept_shuffleData in K1.
  pose proof E2 as K2. apply stopKept_lift in K2.
  pose proof E3 as K3. apply stopKept_trainBatches in K3.
  pose proof E4 as K4. apply stopKept_predictBatch in K4.
  pose proof E5 as K5. apply stopKept_lift in K5.
  assert (K6 : stopKept (NeuralNetwork.self s5) (NeuralNetwork.self s6) /\
               NeuralNetwork.trainLoss history'
               = NeuralNetwork.trainLoss history ++ [div epochLoss (of_size (length batches))] /\
               NeuralNetwork.trainAccuracy history'
               = NeuralNetwork.trainAccuracy history ++ [trainAccuracy]).
  { destruct validationInputs as [vi|]; [destruct validationTargets as [vt|]|];
      try (inversion E6; subst; repeat split; reflexivity).
    apply bindM_Ok in E6. destruct E6 as [v [sv [Ev E6]]].
    inversion E6; subst. split; [|split; reflexivity].
    apply stopKept_evaluate in Ev. exact Ev. }
  destruct K6 as [K6 [Hl Ha]].
  split; [exact Hl|]. split; [exact Ha|].
  assert (K9 : NeuralNetwork.shouldStop_ (NeuralNetwork.self s9)
               = NeuralNetwork.shouldStop_ (NeuralNetwork.self s8))
    by (destruct (Nat.eqb (epoch mod 10) 0 || Nat.eqb epoch (epochs - 1));
        inversion E9; subst; reflexivity).
  assert (K7 : NeuralNetwork.shouldStop_ (NeuralNetwork.self s7)
               = NeuralNetwork.shouldStop_ (NeuralNetwork.self s6))
    by (inversion E7; subst; reflexivity).
  assert (K0 : NeuralNetwork.shouldStop_ (NeuralNetwork.self s6)
               = NeuralNetwork.shouldStop_ (NeuralNetwork.self s))
    by (unfold stopKept in *; congruence).
  rewrite K9. rewrite <- K0, <- K7. clear - E8.
  destruct progressCallback as [callback|].
  - destruct (callback epoch (toScalar (div epochLoss (of_size (length batches))))
                (toScalar trainAccuracy));
      inversion E8; subst; cbn;
      [rewrite orb_true_r|rewrite orb_false_r]; reflexivity.
  - inversion E8; subst. rewrite orb_false_r. reflexivity.
Qed.

(** How the loop of [train] ends: the history it returns extends the one
    it was given; when the flag is set on entry no epoch runs; otherwise no
    stop request lands during an epoch that is followed by another one,
    and a run of fewer epochs than asked for ends with an epoch during
    which one landed. *)
Lemma trainLoop_stops (remaining epoch : nat) (inputs targets : list (list T))
  (history h : NeuralNetwork.TrainingHistory T) s s' :
  length (NeuralNetwork.trainLoss history) = epoch ->
  length (NeuralNetwork.trainAccuracy history) = epoch ->
  trainLoop remaining epoch inputs targets history s = Ok (h, s') ->
  (exists losses accuracies,
     NeuralNetwork.trainLoss h = NeuralNetwork.trainLoss history ++ losses /\
     NeuralNetwork.trainAccuracy h = NeuralNetwork.trainAccuracy history ++ accuracies) /\
  (NeuralNetwork.shouldStop_ (NeuralNetwork.self s) = true -> h = history) /\
  (NeuralNetwork.shouldStop_ (NeuralNetwork.self s) = false ->
   length (NeuralNetwork.trainLoss h) <= epoch + remaining /\
   (forall e, epoch <= e -> S e < length (NeuralNetwork.trainLoss h) ->
      stopsDuring schedule progressCallback h e = false) /\
   (length (NeuralNetwork.trainLoss h) < epoch + remaining ->
    epoch < length (NeuralNetwork.trainLoss h) /\
    stopsDuring schedule progressCallback h (length (NeuralNetwork.trainLoss h) - 1)
    = true)).
Proof.
  revert epoch inputs targets history s.
  induction remaining as [|remaining IH]; intros epoch inputs targets history s Hl Ha E.
  - inversion E; subst h s'. split; [exists [], []; rewrite !app_nil_r; auto|].
    split; [reflexivity|]. intros _. repeat split; try lia.
  - cbn [NeuralNetwork.trainLoop] in E.
    apply bindM_Ok in E. destruct E as [n [s0 [Eg E]]]. inversion Eg; subst n s0. clear Eg.
    destruct (NeuralNetwork.shouldStop_ (NeuralNetwork.self s)) eqn:Hs.
    { inversion E; subst h s'. split; [exists [], []; rewrite !app_nil_r; auto|].
      split; [reflexivity|]. intros Hf. discriminate Hf. }
    apply bindM_Ok in E. destruct E as [[] [s1 [E1 E]]].
    apply bindM_Ok in E. destruct E as [r [s2 [E2 E]]].
    assert (Hs1 : NeuralNetwork.shouldStop_ (NeuralNetwork.self s1)
                  = NeuralNetwork.stopDuringEpoch schedule epoch).
    { destruct (NeuralNetwork.stopDuringEpoch schedule epoch);
        inversion E1; subst; cbn; [reflexivity|exact Hs]. }
    destruct (trainEpoch_flag _ _ _ _ _ E2) as [loss [accuracy [Hrl [Hra Hs2]]]].
    rewrite Hs1 in Hs2.
    assert (Hl' : length (NeuralNetwork.trainLoss (snd r)) = S epoch)
      by (rewrite Hrl, length_app; simpl; lia).
    assert (Ha' : length (NeuralNetwork.trainAccuracy (snd r)) = S epoch)
      by (rewrite Hra, length_app; simpl; lia).
    destruct (IH _ _ _ _ _ Hl' Ha' E) as [[losses [accuracies [Hhl Hha]]] [Hset Hclear]].
    rewrite Hrl in Hhl. rewrite Hra in Hha.
    assert (Hd : stopsDuring schedule progressCallback h epoch
                 = NeuralNetwork.shouldStop_ (NeuralNetwork.self s2)).
    { assert (Nl : nth_error (NeuralNetwork.trainLoss h) epoch = Some loss)
        by (rewrite Hhl, <- Hl; apply nth_error_pushed).
      assert (Na : nth_error (NeuralNetwork.trainAccuracy h) epoch = Some accuracy)
        by (rewrite Hha, <- Ha; apply nth_error_pushed).
      unfold stopsDuring. rewrite Nl, Na, Hs2.
      destruct progressCallback; reflexivity. }
    assert (Hk : S epoch <= length (NeuralNetwork.trainLoss h))
      by (rewrite Hhl, !length_app; simpl; lia).
    split.
    { exists ([loss] ++ losses), ([accuracy] ++ accuracies).
      rewrite !app_assoc. split; assumption. }
    split; [intros Hf; discriminate Hf|]. intros _.
    destruct (NeuralNetwork.shouldStop_ (NeuralNetwork.self s2)) eqn:Hstop.
    + rewrite (Hset eq_refl) in *. rewrite Hl'.
      split; [lia|]. split; [intros e He1 He2; lia|]. intros _. split; [lia|].
      replace (S epoch - 1) with epoch by lia. exact Hd.
    + destruct (Hclear eq_refl) as [Hle [Hnone Hlast]].
      split; [lia|]. split.
      * intros e He1 He2. destruct (Nat.eq_dec e epoch) as [->|Hne]; [exact Hd|].
        apply Hnone; lia.
      * intros Hlt. destruct Hlast as [Hlt' Hlast]; [lia|]. split; [lia|exact Hlast].
Qed.

(** X6: the history [train] returns has one training loss and one
    training accuracy per epoch that ran, and as many validation losses and
    accuracies when both validation vectors are given, none otherwise; at
    most [epochs] epochs ran, and exactly [epochs] when no call of
    [stopTraining()], from another thread or from the progress callback,
    landed after the flag was cleared on entry. *)
Theorem X6_train_history (inputData targetData : list (list T)) h s s' :
  train inputData targetData s = Ok (h, s') ->
  exists k,
    recorded validation k h /\ k <= epochs /\
    (NeuralNetwork.stopAfterReset schedule = false ->
     (forall e, e < epochs -> stopsDuring schedule progressCallback h e = false) ->
     k = epochs).
Proof.
  intros E.
  destruct (@train_Ok _ _ _ mode uniform01 randomIndex fuel schedule epochs batchSize
              validationInputs validationTargets progressCallback
              inputData targetData h s s' E) as [s0 [s1 [Hstop [El _]]]].
  assert (Hrec0 : recorded validation 0 (NeuralNetwork.mkHistory (T := T) [] [] [] [])).
  { unfold recorded. simpl. destruct validation; repeat split. }
  destruct (@trainLoop_recorded _ _ _ _ _ _ _ _ _ Hrec0 El) as [k [Hk Hle]].
  exists k. split; [exact Hk|]. split; [lia|].
  intros Hafter Hnone. rewrite Hafter in Hstop.
  destruct (@trainLoop_stops epochs 0 inputData targetData
              (NeuralNetwork.mkHistory [] [] [] []) h s0 s1 eq_refl eq_refl El) as [_ [_ Hclear]].
  destruct (Hclear Hstop) as [_ [_ Hlast]].
  destruct Hk as [Hk _]. rewrite Hk in Hlast.
  destruct (Nat.eq_dec k epochs) as [Heq|Hne]; [exact Heq|].
  destruct Hlast as [Hpos Hlanded]; [simpl; lia|].
  rewrite Hnone in Hlanded by lia. discriminate Hlanded.
Qed.

(** C8 (as amended): during [train], once [stopTraining()] has set
    [shouldStop_] after the [shouldStop_.store(false)] of [train] on entry,
    at most one further full epoch of training steps is executed before the
    loop exits: a call that lands before the first evaluation of the loop
    condition leaves no epoch to run, and a call that lands during epoch
    [e], from another thread or from the progress callback, lets that epoch
    finish and no other: the history returned has at most [e + 1] epochs,
    and exactly [e + 1] when [e] is the first epoch during which a call
    lands. *)
Theorem C8_stop_latency (inputData targetData : list (list T)) h s s' :
  train inputData targetData s = Ok (h, s') ->
  (NeuralNetwork.stopAfterReset schedule = true -> NeuralNetwork.trainLoss h = []) /\
  (forall e, stopsDuring schedule progressCallback h e = true ->
     length (NeuralNetwork.trainLoss h) <= S e) /\
  (NeuralNetwork.stopAfterReset schedule = false ->
   forall e, e < epochs ->
     stopsDuring schedule progressCallback h e = true ->
     (forall e', e' < e -> stopsDuring schedule progressCallback h e' = false) ->
     length (NeuralNetwork.trainLoss h) = S e).
Proof.
  intros E.
  destruct (@train_Ok _ _ _ mode uniform01 randomIndex fuel schedule epochs batchSize
              validationInputs validationTargets progressCallback
              inputData targetData h s s' E) as [s0 [s1 [Hstop [El _]]]].
  destruct (@trainLoop_stops epochs 0 inputData targetData
              (NeuralNetwork.mkHistory [] [] [] []) h s0 s1 eq_refl eq_refl El) as [_ [Hset Hclear]].
  assert (Hbound : forall e, stopsDuring schedule progressCallback h e = true ->
                     length (NeuralNetwork.trainLoss h) <= S e).
  { intros e He. destruct (NeuralNetwork.stopAfterReset schedule) eqn:Hafter.
    - rewrite (Hset Hstop). simpl. lia.
    - destruct (Hclear Hstop) as [_ [Hnone _]].
      destruct (Nat.le_gt_cases (length (NeuralNetwork.trainLoss h)) (S e)) as [Hle|Hgt];
        [exact Hle|].
      rewrite Hnone in He by lia. discriminate He. }
  split; [|split; [exact Hbound|]].
  - intros Hafter. rewrite Hafter in Hstop. rewrite (Hset Hstop). reflexivity.
  - intros Hafter e He Hlands Hfirst. rewrite Hafter in Hstop.
    destruct (Hclear Hstop) as [_ [_ Hlast]].
    pose proof (Hbound e Hlands) as Hle.
    destruct (Nat.eq_dec (length (NeuralNetwork.trainLoss h)) (S e)) as [Heq|Hne];
      [exact Heq|].
    destruct Hlast as [Hpos Hlanded]; [simpl; lia|].
    rewrite Hfirst in Hlanded by lia. discriminate Hlanded.
Qed.
End Run.
End HistoryProperties.

(** ** Training on no sample *)

Section EmptyDataset.
Context {T : Type} `{Scalar T} `{Libm T}.
Variable mode : BuildMode.
Variable uniform01 : nat -> T.
Variable randomIndex : nat -> nat.
Variable fuel : nat.
Variable schedule : NeuralNetwork.StopSchedule.
Variables (epochs : nat) (batchSize : N).
Variables (validationInputs validationTargets : option (list (list T))).
Variable progressCallback : option (nat -> float -> float -> bool).
Hypothesis Hfuel : 0 < fuel.
Hypothesis Hsched : forall e, NeuralNetwork.stopDuringEpoch schedule e = false.
(** The callback, shown the loss and the accuracy of an epoch over no
    sample, does not call [stopTraining()]. *)
Hypothesis Hcb : forall callback e,
  progressCallback = Some callback ->
  callback e (toScalar (div zero (of_size 0))) (toScalar zero) = false.
Hypothesis Hval : validated validationInputs validationTargets = false.

#[local] Abbreviation trainEpoch :=
  (NeuralNetwork.trainEpoch mode uniform01 randomIndex fuel epochs batchSize
     validationInputs validationTargets progressCallback).
#[local] Abbreviation trainLoop :=
  (NeuralNetwork.trainLoop mode uniform01 randomIndex fuel schedule epochs batchSize
     validationInputs validationTargets progressCallback).

(** The loss and the accuracy an epoch over no sample records: the sum
    [T{0}] of no batch loss divided by the number [0] of batches, and
    [T{0}]. *)
#[local] Abbreviation emptyEpoch :=
  (fun h : NeuralNetwork.TrainingHistory T =>
     NeuralNetwork.pushTrain h (div zero (of_size 0)) zero).

Lemma shuffleData_empty (targets : list (list T)) (s : NeuralNetwork.state T) :
  NeuralNetwork.shuffleData randomIndex [] targets s
  = Ok (([], targets), NeuralNetwork.mkState (NeuralNetwork.self s)
                         (NeuralNetwork.logged s) (NeuralNetwork.drawn s)).
Proof.
  destruct targets as [|t ts]; [|destruct s; reflexivity].
  unfold NeuralNetwork.shuffleData. reflexivity.
Qed.

Lemma trainEpoch_empty (epoch : nat) (targets : list (list T))
  (history : NeuralNetwork.TrainingHistory T) (s : NeuralNetwork.state T) :
  exists s',
    trainEpoch epoch [] targets history s = Ok (([], targets, emptyEpoch history), s') /\
    NeuralNetwork.layers_ (NeuralNetwork.self s') = NeuralNetwork.layers_ (NeuralNetwork.self s) /\
    NeuralNetwork.shouldStop_ (NeuralNetwork.self s')
    = NeuralNetwork.shouldStop_ (NeuralNetwork.self s).
Proof.
  unfold NeuralNetwork.trainEpoch.
  unfold bindM at 1. rewrite shuffleData_empty. cbn [bind fst snd].
  destruct fuel as [|fuel']; [lia|].
  unfold bindM at 1, lift, NeuralNetwork.createBatches.
  cbn [NeuralNetwork.createBatchesFrom length N.of_nat N.ltb N.compare bind fst snd].
  unfold bindM at 1. cbn [NeuralNetwork.trainBatches ret bind fst snd].
  unfold bindM at 1. cbn [NeuralNetwork.predictBatch ret bind fst snd].
  unfold bindM at 1, lift, NeuralNetwork.computeAccuracy.
  cbn [length Nat.eqb orb bind fst snd].
  unfold validated in Hval.
  assert (Hc : forall callback, progressCallback = Some callback ->
                 callback epoch (toScalar (div zero (of_size 0))) (toScalar zero) = false)
    by (intros callback; apply Hcb).
  destruct progressCallback as [callback|]; [rewrite (Hc callback eq_refl)|];
    (destruct validationInputs as [vi|]; [destruct validationTargets as [vt|]|]);
    try discriminate Hval;
    destruct (Nat.eqb (epoch mod 10) 0 || Nat.eqb epoch (epochs - 1));
    (eexists; split; [reflexivity|split; reflexivity]).
Qed.

Lemma trainLoop_empty (remaining epoch : nat) (targets : list (list T))
  (history : NeuralNetwork.TrainingHistory T) (s : NeuralNetwork.state T) :
  NeuralNetwork.shouldStop_ (NeuralNetwork.self s) = false ->
  exists s',
    trainLoop remaining epoch [] targets history s
    = Ok (Nat.iter remaining emptyEpoch history, s') /\
    NeuralNetwork.layers_ (NeuralNetwork.self s') = NeuralNetwork.layers_ (NeuralNetwork.self s).
Proof.
  revert epoch history s.
  induction remaining as [|remaining IH]; intros epoch history s Hs;
    cbn [NeuralNetwork.trainLoop].
  - eexists. split; reflexivity.
  - unfold bindM at 1, NeuralNetwork.get. cbn [bind fst snd]. rewrite Hs, Hsched.
    unfold bindM at 1. cbn [NeuralNetwork.externalStop ret bind fst snd].
    destruct (trainEpoch_empty epoch targets history s) as [s1 [E1 [Hl1 Hs1]]].
    unfold bindM at 1. rewrite E1. cbn [bind fst snd].
    destruct (IH (S epoch) (emptyEpoch history) s1) as [s2 [E2 Hl2]]; [congruence|].
    rewrite E2. exists s2. split; [|congruence].
    rewrite Nat.iter_succ_r. reflexivity.
Qed.

Lemma emptyEpochs (k : nat) :
  Nat.iter k emptyEpoch (NeuralNetwork.mkHistory [] [] [] [])
  = NeuralNetwork.mkHistory (repeat (div zero (of_size 0)) k) (repeat zero k) [] [].
Proof.
  induction k as [|k IH]; [reflexivity|].
  cbn [Nat.iter nat_rect]. change (nat_rect _ _ _ k) with
    (Nat.iter k emptyEpoch (NeuralNetwork.mkHistory (T := T) [] [] [] [])).
  rewrite IH. unfold NeuralNetwork.pushTrain. simpl.
  rewrite <- !repeat_cons. reflexivity.
Qed.

(** X7: [train] on no sample, without validation data and without a stop
    request (none from another thread after the flag is cleared on entry,
    and none from the progress callback when it is shown the values below),
    returns whatever the network and the batch size are: every epoch
    records the loss [T{0} / 0] (the sum of no batch loss divided by the
    number of batches) and the accuracy [T{0}], and the layers are left as
    they were. *)
Theorem X7_train_empty_dataset (targetData : list (list T)) (s : NeuralNetwork.state T) :
  NeuralNetwork.stopAfterReset schedule = false ->
  exists s',
    NeuralNetwork.train mode uniform01 randomIndex fuel schedule epochs batchSize
      validationInputs validationTargets progressCallback [] targetData s
    = Ok (NeuralNetwork.mkHistory (repeat (div zero (of_size 0)) epochs)
            (repeat zero epochs) [] [], s') /\
    NeuralNetwork.layers_ (NeuralNetwork.self s') = NeuralNetwork.layers_ (NeuralNetwork.self s).
Proof.
  intros Hafter. unfold NeuralNetwork.train. rewrite Hafter.
  unfold bindM at 1, NeuralNetwork.modify at 1. cbn [bind fst snd].
  match goal with |- context [bindM (NeuralNetwork.externalStop ?b) _ ?s1] =>
    assert (Es : exists s2, NeuralNetwork.externalStop b s1 = Ok (tt, s2) /\
                   NeuralNetwork.layers_ (NeuralNetwork.self s2)
                   = NeuralNetwork.layers_ (NeuralNetwork.self s))
      by (destruct b; eexists; split; reflexivity)
  end.
  destruct Es as [sa [Ea Hla]].
  unfold bindM at 1. rewrite Ea. cbn [bind fst snd].
  unfold bindM at 1, NeuralNetwork.modify at 1. cbn [bind fst snd].
  unfold bindM at 1. cbn [NeuralNetwork.externalStop ret bind fst snd].
  unfold bindM at 1, NeuralNetwork.NNV_LOG at 1. cbn [bind fst snd].
  match goal with |- context [bindM (NeuralNetwork.trainLoop _ _ _ _ _ _ _ _ _ _ _ _ _ _ ?h) _ ?s1] =>
    destruct (trainLoop_empty epochs 0 targetData h s1) as [s' [E' Hl']];
      [reflexivity|] end.
  unfold bindM at 1. rewrite E'. cbn [bind fst snd].
  rewrite emptyEpochs. eexists. split; [reflexivity|].
  cbn. rewrite Hl'. cbn. exact Hla.
Qed.
End EmptyDataset.

(** ** Shuffling *)

Section ShuffleProperties.
Context {T : Type} `{Scalar T} `{Libm T}.
Variable randomIndex : nat -> nat.

Lemma update_permutation {A : Type} (v : list A) (i : nat) (a x : A) :
  nth_error v i = Some a ->
  Permutation (x :: v) (a :: NeuralNetwork.update v i x).
Proof.
  revert i. induction v as [|y r IH]; intros [|i] E; simpl in E; try discriminate.
  - inversion E; subst. simpl. apply perm_swap.
  - simpl. eapply perm_trans; [apply perm_swap|].
    eapply perm_trans; [apply perm_skip; apply IH; exact E|]. apply perm_swap.
Qed.

Lemma update_nth_error {A : Type} (v : list A) (i j : nat) (a b : A) :
  nth_error v i = Some a -> nth_error v j = Some b ->
  nth_error (NeuralNetwork.update v i b) j = Some b.
Proof.
  revert i j. induction v as [|y r IH]; intros [|i] [|j] Ei Ej; simpl in *;
    try discriminate; try assumption.
  - reflexivity.
  - eapply IH; eassumption.
Qed.

Lemma swap_permutation {A : Type} (v : list A) (i j : nat) :
  Permutation v (NeuralNetwork.swap v i j).
Proof.
  unfold NeuralNetwork.swap.
  destruct (nth_error v i) as [a|] eqn:Ei; [|apply Permutation_refl].
  destruct (nth_error v j) as [b|] eqn:Ej; [|apply Permutation_refl].
  apply Permutation_cons_inv with (a := b).
  eapply perm_trans; [apply (update_permutation v i b Ei)|].
  apply update_permutation. eapply update_nth_error; eassumption.
Qed.

Lemma shuffle_permutation (i : nat) (indices : list nat) (k : nat) :
  Permutation indices (fst (NeuralNetwork.shuffle randomIndex i indices k)).
Proof.
  revert indices k. induction i as [|i IH]; intros indices k;
    cbn [NeuralNetwork.shuffle].
  - apply Permutation_refl.
  - eapply perm_trans; [apply swap_permutation|apply IH].
Qed.

Lemma combine_nth_seq {A B : Type} (xs : list A) (ys : list B) (dx : A) (dy : B) :
  length ys = length xs ->
  map (fun i => (nth i xs dx, nth i ys dy)) (seq 0 (length xs)) = combine xs ys.
Proof.
  revert ys. induction xs as [|x xs IH]; intros [|y ys] Hlen; try discriminate.
  - reflexivity.
  - simpl. rewrite <- seq_shift, map_map. f_equal. apply IH. simpl in Hlen. congruence.
Qed.

Lemma combine_map_same {A B C : Type} (f : A -> B) (g : A -> C) (l : list A) :
  combine (map f l) (map g l) = map (fun x => (f x, g x)) l.
Proof. induction l as [|x l IH]; simpl; [reflexivity|]. rewrite IH. reflexivity. Qed.

(** X8: [shuffleData] always returns and leaves the network alone; when
    there are as many targets as inputs the samples it returns are a
    permutation of the samples it was given, every input still beside its
    target, and otherwise it returns the two vectors unchanged. *)
Theorem X8_shuffleData_permutes (inputs targets : list (list T)) (s : NeuralNetwork.state T) :
  exists inputs' targets' s',
    NeuralNetwork.shuffleData randomIndex inputs targets s = Ok ((inputs', targets'), s') /\
    NeuralNetwork.self s' = NeuralNetwork.self s /\
    (length targets = length inputs ->
     Permutation (combine inputs targets) (combine inputs' targets')) /\
    (length targets <> length inputs -> inputs' = inputs /\ targets' = targets).
Proof.
  destruct (Nat.eq_dec (length targets) (length inputs)) as [Hlen|Hlen].
  - destruct (@shuffleData_eq T randomIndex inputs targets s Hlen) as [_ [_ E]].
    rewrite E. eexists. eexists. eexists. split; [reflexivity|].
    split; [reflexivity|]. split; [|intros Hne; contradiction].
    intros _. rewrite combine_map_same.
    rewrite <- (combine_nth_seq inputs targets [] [] Hlen).
    apply Permutation_map. apply shuffle_permutation.
  - unfold NeuralNetwork.shuffleData.
    replace (Nat.eqb (length inputs) (length targets)) with false
      by (symmetry; apply Nat.eqb_neq; congruence).
    cbn [negb]. exists inputs, targets, s.
    split; [reflexivity|]. split; [reflexivity|].
    split; [intros Heq; contradiction|]. intros _. split; reflexivity.
Qed.
End ShuffleProperties.

(** ** Weight initialisation *)

Section ConstructionProperties.
Context {T : Type} `{Scalar T} `{Libm T} `{Sqrt T}.
Variable uniformReal : T -> T -> nat -> T.
Variable normalReal : T -> T -> nat -> T.

Lemma drawWeights_spec (dist : nat -> T) (n k : nat) :
  length (fst (Layer.drawWeights dist n k)) = n /\
  snd (Layer.drawWeights dist n k) = k + n.
Proof.
  revert k. induction n as [|n IH]; intros k; cbn [Layer.drawWeights fst snd length].
  - split; [reflexivity|lia].
  - destruct (IH (S k)) as [E1 E2]. rewrite E1, E2. split; [reflexivity|lia].
Qed.

Lemma sameButParameters_set (u : Neuron.t T) (weights : list T) (bias : T) :
  sameButParameters u (Neuron.setBias (Neuron.setInputWeights u weights) bias).
Proof. destruct u. reflexivity. Qed.

Lemma drawUnits_spec (dist : nat -> T) (drawBias : bool) (prevLayerSize : nat)
  (neurons : list (Neuron.t T)) (k : nat) :
  let r := Layer.drawUnits dist drawBias prevLayerSize neurons k in
  Forall2 sameButParameters neurons (fst r) /\
  Forall (fun u => length (Neuron.inputWeights_ u) = prevLayerSize) (fst r) /\
  (drawBias = false -> Forall (fun u => Neuron.bias_ u = zero) (fst r)) /\
  snd r = k + length neurons * (prevLayerSize + if drawBias then 1 else 0).
Proof.
  revert k. induction neurons as [|u rest IH]; intros k; cbn zeta;
    cbn [Layer.drawUnits fst snd length].
  - repeat split; auto; lia.
  - destruct (drawWeights_spec dist prevLayerSize k) as [E1 E2].
    match goal with
    | |- context [Layer.drawUnits dist drawBias prevLayerSize rest ?k'] =>
        destruct (IH k') as [I1 [I2 [I3 I4]]]
    end.
    split; [|split; [|split]].
    + constructor; [apply sameButParameters_set|exact I1].
    + constructor; [|exact I2]. destruct u; cbn. exact E1.
    + intros Eb. constructor; [|exact (I3 Eb)]. rewrite Eb. destruct u; reflexivity.
    + rewrite I4. destruct drawBias; cbn [fst snd]; rewrite E2; lia.
Qed.

Lemma initializeConstant_spec (l : Layer.t T) (prevLayerSize : nat) (c : T) :
  let l' := Layer.initializeConstant l prevLayerSize c in
  Forall2 sameButParameters (Layer.neurons_ l) (Layer.neurons_ l') /\
  Forall (fun u => length (Neuron.inputWeights_ u) = prevLayerSize) (Layer.neurons_ l') /\
  Forall (fun u => Neuron.bias_ u = c) (Layer.neurons_ l').
Proof.
  cbn zeta. unfold Layer.initializeConstant. cbn [Layer.neurons_ Layer.setNeurons].
  induction (Layer.neurons_ l) as [|u rest [I1 [I2 I3]]]; cbn [map].
  - repeat split; constructor.
  - split; [|split]; constructor; auto;
      first [apply sameButParameters_set
            |destruct u; cbn; apply repeat_length
            |destruct u; reflexivity].
Qed.

(** What [Layer::initializeWeights] does to a layer, whatever the
    [initType]. *)
Lemma layer_initializeWeights (l : Layer.t T) (prevLayerSize : nat)
  (initType : InitializationType.t) (k : nat) :
  let r := Layer.initializeWeights uniformReal normalReal l prevLayerSize initType k in
  reinitialized l (fst r) /\
  Forall (fun u => length (Neuron.inputWeights_ u) = prevLayerSize)
         (Layer.neurons_ (fst r)) /\
  (initType = InitializationType.Xavier \/ initType = InitializationType.He \/
   initType = InitializationType.Zero -> unbiased (fst r)) /\
  snd r = k + drawsOf initType prevLayerSize (Layer.getSize l).
Proof.
  cbn zeta. unfold reinitialized, unbiased, drawsOf, Layer.getSize.
  destruct initType; cbn [Layer.initializeWeights].
  - unfold Layer.initializeRandom. cbn [fst snd Layer.neurons_ Layer.setNeurons].
    destruct (drawUnits_spec (uniformReal (of_double (-1)%float) one) true prevLayerSize
                (Layer.neurons_ l) k) as [I1 [I2 [_ I4]]].
    repeat split; auto.
    intros [E|[E|E]]; discriminate E.
  - unfold Layer.initializeXavier. cbn [fst snd Layer.neurons_ Layer.setNeurons].
    match goal with
    | |- context [Layer.drawUnits ?d false prevLayerSize (Layer.neurons_ l) k] =>
        destruct (drawUnits_spec d false prevLayerSize (Layer.neurons_ l) k)
          as [I1 [I2 [I3 I4]]]
    end.
    repeat split; auto. rewrite I4. lia.
  - unfold Layer.initializeHe. cbn [fst snd Layer.neurons_ Layer.setNeurons].
    match goal with
    | |- context [Layer.drawUnits ?d false prevLayerSize (Layer.neurons_ l) k] =>
        destruct (drawUnits_spec d false prevLayerSize (Layer.neurons_ l) k)
          as [I1 [I2 [I3 I4]]]
    end.
    repeat split; auto. rewrite I4. lia.
  - cbn [fst snd].
    destruct (initializeConstant_spec l prevLayerSize zero) as [I1 [I2 I3]].
    repeat split; auto.
  - cbn [fst snd].
    destruct (initializeConstant_spec l prevLayerSize one) as [I1 [I2 I3]].
    repeat split; auto.
    intros [E|[E|E]]; discriminate E.
Qed.

End ConstructionProperties.

(** ** Building a network *)

Section NetworkConstruction.
Context {T : Type} `{Scalar T} `{Libm T} `{Sqrt T}.
Variable uniformReal : T -> T -> nat -> T.
Variable normalReal : T -> T -> nat -> T.

Lemma sameButParameters_refl (u : Neuron.t T) : sameButParameters u u.
Proof. reflexivity. Qed.

Lemma reinitialized_refl (l : Layer.t T) : reinitialized l l.
Proof.
  split; [|reflexivity]. induction (Layer.neurons_ l); constructor; auto.
  apply sameButParameters_refl.
Qed.

Lemma reinitialized_size (l l' : Layer.t T) :
  reinitialized l l' -> Layer.getSize l' = Layer.getSize l.
Proof. intros [R _]. unfold Layer.getSize. symmetry. eapply Forall2_length; eassumption. Qed.

Lemma reinitialized_mask (l l' : Layer.t T) :
  reinitialized l l' -> Layer.dropoutMask_ l' = Layer.dropoutMask_ l.
Proof. intros [_ E]. apply (f_equal (@Layer.dropoutMask_ T)) in E. exact E. Qed.

Lemma reinitialized_populated (l l' : Layer.t T) :
  reinitialized l l' -> populated l -> populated l'.
Proof.
  intros R [Hne Hm]. pose proof (reinitialized_size R) as Es.
  pose proof (reinitialized_mask R) as Em. unfold Layer.getSize in Es.
  split; [|rewrite Em, Es; exact Hm].
  intros E. rewrite E in Es. destruct (Layer.neurons_ l); [contradiction|discriminate].
Qed.

Lemma initialized_fits (l : Layer.t T) (prevLayerSize : nat)
  (initType : InitializationType.t) (k : nat) :
  populated l ->
  layerFits prevLayerSize
    (fst (Layer.initializeWeights uniformReal normalReal l prevLayerSize initType k)).
Proof.
  intros P.
  destruct (layer_initializeWeights uniformReal normalReal l prevLayerSize initType k)
    as [R [W _]].
  destruct (reinitialized_populated R P) as [Hne Hm].
  split; [exact Hne|]. split; [exact W|exact Hm].
Qed.

(** X9: whatever the [initType], [Layer::initializeWeights] gives every
    unit exactly [prevLayerSize] weights and changes nothing but weights
    and biases; Xavier, He and Zero leave every bias [T{0}]; Xavier and He
    draw one value per weight, Random one more per unit, Zero and One none;
    a layer with a unit then fits behind a layer of [prevLayerSize] units. *)
Theorem X9_Layer_initializeWeights_shape (l : Layer.t T) (prevLayerSize : nat)
  (initType : InitializationType.t) (k : nat) :
  let r := Layer.initializeWeights uniformReal normalReal l prevLayerSize initType k in
  reinitialized l (fst r) /\
  Forall (fun u => length (Neuron.inputWeights_ u) = prevLayerSize)
         (Layer.neurons_ (fst r)) /\
  (initType = InitializationType.Xavier \/ initType = InitializationType.He \/
   initType = InitializationType.Zero -> unbiased (fst r)) /\
  snd r = k + drawsOf initType prevLayerSize (Layer.getSize l) /\
  (populated l -> layerFits prevLayerSize (fst r)).
Proof.
  cbn zeta.
  destruct (layer_initializeWeights uniformReal normalReal l prevLayerSize initType k)
    as [R [W [U D]]].
  split; [exact R|]. split; [exact W|]. split; [exact U|]. split; [exact D|].
  apply initialized_fits.
Qed.

Lemma chainFits_app (p : nat) (a b : list (Layer.t T)) :
  chainFits p (a ++ b) <->
  chainFits p a /\ chainFits (last (map (@Layer.getSize T) a) p) b.
Proof.
  revert p. induction a as [|x a IH]; intros p.
  - cbn. tauto.
  - cbn [app chainFits map]. rewrite last_cons, IH. tauto.
Qed.

Lemma chainFits_populated (p : nat) (layers : list (Layer.t T)) :
  chainFits p layers -> Forall populated layers.
Proof.
  revert p. induction layers as [|l rest IH]; intros p Hc; constructor.
  - destruct Hc as [[Hne [_ Hm]] _]. split; assumption.
  - destruct Hc as [_ Hr]. eapply IH; eassumption.
Qed.

Lemma last_map_size (layers : list (Layer.t T)) (d : Layer.t T) :
  last (map (@Layer.getSize T) layers) (Layer.getSize d) = Layer.getSize (last layers d).
Proof.
  revert d. induction layers as [|l rest IH]; intros d; [reflexivity|].
  cbn [map]. rewrite !last_cons. apply IH.
Qed.

(** The loop that re-initialises the layers behind a given one. *)
Lemma reinitialize_behind (initType : InitializationType.t) (p : Layer.t T)
  (layers : list (Layer.t T)) (k : nat) :
  Forall populated layers ->
  let r := NeuralNetwork.reinitialize uniformReal normalReal initType (Some p) layers k in
  Forall2 reinitialized layers (fst r) /\ chainFits (Layer.getSize p) (fst r) /\
  (initType = InitializationType.Xavier \/ initType = InitializationType.He \/
   initType = InitializationType.Zero -> Forall unbiased (fst r)).
Proof.
  cbn zeta. intros HP. revert p k.
  induction HP as [|l rest Hl _ IH]; intros p k; cbn [NeuralNetwork.reinitialize fst snd].
  - repeat split; constructor.
  - destruct (layer_initializeWeights uniformReal normalReal l (Layer.getSize p) initType k)
      as [R [_ [B _]]].
    pose proof (@initialized_fits l (Layer.getSize p) initType k Hl) as F.
    match goal with
    | |- context [NeuralNetwork.reinitialize _ _ _ (Some ?q) rest ?k'] =>
        destruct (IH q k') as [I1 [I2 I3]]
    end.
    split; [|split].
    + constructor; assumption.
    + split; assumption.
    + intros E. constructor; auto.
Qed.

Lemma reinitialize_all (initType : InitializationType.t) (input : Layer.t T)
  (rest : list (Layer.t T)) (k : nat) :
  fst (NeuralNetwork.reinitialize uniformReal normalReal initType None (input :: rest) k)
  = input :: fst (NeuralNetwork.reinitialize uniformReal normalReal initType (Some input)
                    rest k).
Proof. reflexivity. Qed.

Lemma addLayer_eq (layer : Layer.t T) (s : NeuralNetwork.state T) :
  NeuralNetwork.addLayer uniformReal normalReal layer s
  = let n := NeuralNetwork.self s in
    let r := match NeuralNetwork.layers_ n with
             | [] => (layer, NeuralNetwork.drawn s)
             | _ :: _ =>
                 Layer.initializeWeights uniformReal normalReal layer
                   (Layer.getSize (last (NeuralNetwork.layers_ n) layer))
                   InitializationType.Xavier (NeuralNetwork.drawn s)
             end in
    Ok (tt, NeuralNetwork.mkState
              (NeuralNetwork.setLayers n (NeuralNetwork.layers_ n ++ [fst r]))
              (NeuralNetwork.logged s
               ++ [(LogDebug, "Added layer to network '{}'. Total layers: {}"%string)])
              (snd r)).
Proof.
  destruct s as [[name layers lr lossType optimizerType training stop progress] lg k].
  destruct layers; reflexivity.
Qed.

(** Appending a layer the way [addLayer] does. *)
Lemma appended_wellFormed (layers : list (Layer.t T)) (layer : Layer.t T) (k : nat)
  (n n' : NeuralNetwork.t T) :
  NeuralNetwork.layers_ n = layers -> wellFormed n -> populated layer ->
  NeuralNetwork.layers_ n'
  = layers ++ [fst (match layers with
                    | [] => (layer, k)
                    | _ :: _ =>
                        Layer.initializeWeights uniformReal normalReal layer
                          (Layer.getSize (last layers layer))
                          InitializationType.Xavier k
                    end)] ->
  wellFormed n'.
Proof.
  intros El Hw P En. unfold wellFormed in *. rewrite En. rewrite El in Hw.
  destruct layers as [|input rest]; [exact I|].
  cbn [app]. apply chainFits_app. split; [exact Hw|].
  rewrite last_map_size, last_cons. cbn [chainFits]. split; [|exact I].
  apply initialized_fits. exact P.
Qed.

(** X10: [addLayer] of a layer that has a unit, to a well-formed network,
    appends the layer, fitted with Xavier weights to the size of the layer
    that was last (the first layer of a network is appended as it is), and
    the network stays well-formed. *)
Theorem X10_addLayer_wellFormed (layer : Layer.t T) (s : NeuralNetwork.state T) :
  wellFormed (NeuralNetwork.self s) -> populated layer ->
  exists layer' s',
    NeuralNetwork.addLayer uniformReal normalReal layer s = Ok (tt, s') /\
    NeuralNetwork.layers_ (NeuralNetwork.self s')
    = NeuralNetwork.layers_ (NeuralNetwork.self s) ++ [layer'] /\
    reinitialized layer layer' /\
    (NeuralNetwork.layers_ (NeuralNetwork.self s) = [] -> layer' = layer) /\
    wellFormed (NeuralNetwork.self s').
Proof.
  intros Hw P. rewrite addLayer_eq. cbn zeta.
  eexists. eexists. split; [reflexivity|].
  cbn [NeuralNetwork.self NeuralNetwork.layers_ NeuralNetwork.setLayers].
  split; [reflexivity|]. split; [|split].
  - destruct (NeuralNetwork.layers_ (NeuralNetwork.self s)); [apply reinitialized_refl|].
    apply layer_initializeWeights.
  - intros E. rewrite E. reflexivity.
  - eapply appended_wellFormed; [reflexivity|exact Hw|exact P|].
    cbn [NeuralNetwork.self NeuralNetwork.layers_ NeuralNetwork.setLayers]. reflexivity.
Qed.

Lemma reinitialize_reinitialized (initType : InitializationType.t)
  (prev : option (Layer.t T)) (layers : list (Layer.t T)) (k : nat) :
  Forall2 reinitialized layers
    (fst (NeuralNetwork.reinitialize uniformReal normalReal initType prev layers k)).
Proof.
  revert prev k. induction layers as [|l rest IH]; intros prev k;
    cbn [NeuralNetwork.reinitialize fst snd]; constructor.
  - destruct prev as [p|]; [apply layer_initializeWeights|apply reinitialized_refl].
  - apply IH.
Qed.

Lemma Forall2_reinitialized_refl (layers : list (Layer.t T)) :
  Forall2 reinitialized layers layers.
Proof. induction layers; constructor; auto. apply reinitialized_refl. Qed.

Lemma initializeNeuronIds_spec (i : N) (neurons : list (Neuron.t T)) :
  length (Layer.initializeNeuronIds i neurons) = length neurons /\
  map (@Neuron.bias_ T) (Layer.initializeNeuronIds i neurons)
  = map (@Neuron.bias_ T) neurons.
Proof.
  revert i. induction neurons as [|u rest IH]; intros i; cbn; [auto|].
  destruct (IH (N.succ i)) as [E1 E2]. rewrite E1, E2. auto.
Qed.

Lemma fromConfig_configured (c : LayerConfig.t) : configured c (Layer.fromConfig c).
Proof.
  unfold configured, Layer.fromConfig, Layer.getSize, unbiased. cbn.
  destruct (initializeNeuronIds_spec 0%N (repeat (Neuron.make 0%N) (LayerConfig.size c)))
    as [E1 E2].
  rewrite E1, repeat_length. repeat split.
  apply Forall_forall. intros u Hu.
  apply (in_map (@Neuron.bias_ T)) in Hu. rewrite E2, map_repeat in Hu.
  apply repeat_spec in Hu. exact Hu.
Qed.

Lemma configured_reinitialized (c : LayerConfig.t) (l l' : Layer.t T) :
  configured c l -> reinitialized l l' -> unbiased l' -> configured c l'.
Proof.
  intros [C1 [C2 [C3 [C4 [C5 [C6 _]]]]]] R U.
  pose proof (reinitialized_size R) as Es. destruct R as [_ E].
  unfold configured.
  rewrite Es.
  apply (f_equal (fun l => (Layer.name_ l, Layer.activationType_ l, Layer.dropoutRate_ l,
                            Layer.trainable_ l, Layer.dropoutMask_ l))) in E.
  cbn in E. inversion E as [[E1 E2 E3 E4 E5]].
  repeat split; congruence.
Qed.

Lemma configured_populated (c : LayerConfig.t) (l : Layer.t T) :
  0 < LayerConfig.size c -> configured c l -> populated l.
Proof.
  intros Hpos [C1 [_ [_ [_ [_ [C6 _]]]]]]. unfold Layer.getSize in C1. split.
  - intros E. rewrite E in C1. cbn in C1. lia.
  - rewrite C6, repeat_length, C1. lia.
Qed.

(** The loop of the constructor over [config.layers]. *)
Lemma addLayers_configured (configs : list LayerConfig.t) (s : NeuralNetwork.state T) :
  Forall (fun c => 0 < LayerConfig.size c) configs ->
  wellFormed (NeuralNetwork.self s) ->
  exists added s',
    NeuralNetwork.addLayers uniformReal normalReal configs s = Ok (tt, s') /\
    NeuralNetwork.layers_ (NeuralNetwork.self s')
    = NeuralNetwork.layers_ (NeuralNetwork.self s) ++ added /\
    Forall2 configured configs added /\
    wellFormed (NeuralNetwork.self s') /\
    NeuralNetwork.setLayers (NeuralNetwork.self s') []
    = NeuralNetwork.setLayers (NeuralNetwork.self s) [].
Proof.
  intros Hpos. revert s. induction Hpos as [|c configs Hc _ IH]; intros s Hw.
  - exists [], s. cbn [NeuralNetwork.addLayers]. rewrite app_nil_r.
    repeat split; auto.
  - cbn [NeuralNetwork.addLayers]. unfold bindM, NeuralNetwork.addLayerConfig.
    rewrite addLayer_eq. cbn zeta. cbn [bind fst snd].
    match goal with
    | |- context [NeuralNetwork.addLayers _ _ configs ?s1] =>
        destruct (IH s1) as [added [s' [E [El [Hc2 [Hw' Ef]]]]]]
    end.
    { eapply appended_wellFormed;
        [reflexivity|exact Hw
        |exact (configured_populated Hc (fromConfig_configured c))|].
      cbn [NeuralNetwork.self NeuralNetwork.layers_ NeuralNetwork.setLayers]. reflexivity. }
    rewrite E. eexists. exists s'. split; [reflexivity|].
    cbn [NeuralNetwork.self NeuralNetwork.layers_ NeuralNetwork.setLayers] in El, Ef.
    split; [rewrite El, <- app_assoc; reflexivity|].
    split; [|split; [exact Hw'|exact Ef]].
    constructor; [|exact Hc2].
    destruct (NeuralNetwork.layers_ (NeuralNetwork.self s)) as [|l0 ls]; cbn [fst].
    + apply fromConfig_configured.
    + match goal with
      | |- configured c (fst (Layer.initializeWeights _ _ ?l ?p ?t ?k)) =>
          destruct (layer_initializeWeights uniformReal normalReal l p t k) as [R [_ [U _]]]
      end.
      eapply configured_reinitialized; [apply fromConfig_configured|exact R|].
      apply U. left. reflexivity.
Qed.

Lemma Forall2_configured_reinitialized (configs : list LayerConfig.t)
  (layers layers' : list (Layer.t T)) :
  Forall2 configured configs layers -> Forall2 reinitialized layers layers' ->
  Forall unbiased layers' -> Forall2 configured configs layers'.
Proof.
  intros C. revert layers'. induction C as [|c l cs ls Hc _ IH]; intros layers' R U;
    inversion R; subst; constructor.
  - inversion U; subst. eapply configured_reinitialized; eassumption.
  - inversion U; subst. apply IH; assumption.
Qed.

Lemma Forall2_configured_populated (configs : list LayerConfig.t)
  (layers : list (Layer.t T)) :
  Forall (fun c => 0 < LayerConfig.size c) configs ->
  Forall2 configured configs layers -> Forall populated layers.
Proof.
  intros Hpos C. induction C as [|c l cs ls Hc _ IH]; constructor;
    inversion Hpos; subst.
  - eapply configured_populated; eassumption.
  - apply IH. assumption.
Qed.

Lemma initializeWeights_eq (initType : InitializationType.t) (s : NeuralNetwork.state T) :
  NeuralNetwork.initializeWeights uniformReal normalReal initType s
  = let r := NeuralNetwork.reinitialize uniformReal normalReal initType None
               (NeuralNetwork.layers_ (NeuralNetwork.self s)) (NeuralNetwork.drawn s) in
    Ok (tt, NeuralNetwork.mkState
              (NeuralNetwork.setLayers (NeuralNetwork.self s) (fst r))
              (NeuralNetwork.logged s
               ++ [(LogDebug,
                    "Initialized weights for network '{}' using {} initialization"%string)])
              (snd r)).
Proof. reflexivity. Qed.

(** X11: the constructor from a [NetworkConfig] whose layers all have a
    positive size returns a well-formed network with one layer per
    [LayerConfig], each of the configured size, name, activation type,
    dropout rate (not clamped) and flag, with an all-true dropout mask and
    every bias [T{0}]; name, learning rate, loss and optimizer are those of
    the configuration, and it is neither training nor stopped. *)
Theorem X11_makeFromConfig_builds (config : NetworkConfig.t) (s : NeuralNetwork.state T) :
  Forall (fun c => 0 < LayerConfig.size c) (NetworkConfig.layers config) ->
  exists s',
    NeuralNetwork.makeFromConfig uniformReal normalReal config s = Ok (tt, s') /\
    Forall2 configured (NetworkConfig.layers config)
            (NeuralNetwork.layers_ (NeuralNetwork.self s')) /\
    wellFormed (NeuralNetwork.self s') /\
    NeuralNetwork.setLayers (NeuralNetwork.self s') []
    = NeuralNetwork.mk (NetworkConfig.name config) []
        (of_double (TrainingConfig.learning_rate (NetworkConfig.training config)))
        (NetworkConfig.loss config) (NetworkConfig.optimizer config) false false zero.
Proof.
  intros Hpos. unfold NeuralNetwork.makeFromConfig, bindM.
  unfold NeuralNetwork.modify at 1. cbn [bind fst snd].
  remember (NetworkConfig.layers config) as configs eqn:Ecfg.
  match goal with
  | |- context [NeuralNetwork.addLayers _ _ _ ?s0] =>
      destruct (@addLayers_configured configs s0 Hpos I)
        as [added [s1 [E [El [Hc [Hw Ef]]]]]]
  end.
  rewrite E. cbn [bind fst snd]. unfold NeuralNetwork.get. cbn [bind fst snd].
  cbn [NeuralNetwork.self NeuralNetwork.layers_ app NeuralNetwork.setLayers] in El, Ef.
  rewrite El.
  destruct added as [|input rest]; cbn [length Nat.eqb negb].
  - exists s1. split; [reflexivity|]. rewrite El. repeat split; auto.
  - rewrite initializeWeights_eq. cbn zeta. eexists. split; [reflexivity|].
    cbn [NeuralNetwork.self NeuralNetwork.layers_ NeuralNetwork.setLayers].
    rewrite El, reinitialize_all.
    pose proof (Forall2_configured_populated Hpos Hc) as HP.
    inversion HP as [|? ? Hp0 HPr]; subst.
    inversion Hc as [|c0 ? cs ? Hc0 Hcr]; subst.
    destruct (@reinitialize_behind InitializationType.Xavier input rest
                (NeuralNetwork.drawn s1) HPr) as [R [F U]].
    split; [|split].
    + constructor; [exact Hc0|].
      eapply Forall2_configured_reinitialized; [exact Hcr|exact R|].
      apply U. left. reflexivity.
    + unfold wellFormed. cbn [NeuralNetwork.layers_]. exact F.
    + destruct (NeuralNetwork.self s1); cbn in Ef |- *. exact Ef.
Qed.

(** X12: [NeuralNetwork::initializeWeights] makes a network well-formed
    whose layers behind the first each have a unit and a dropout mask no
    longer than the layer: every such layer gets weight vectors of the size
    of the layer before it; nothing but weights and biases changes, and the
    first layer is not touched. *)
Theorem X12_initializeWeights_wellFormed (initType : InitializationType.t)
  (s : NeuralNetwork.state T) :
  Forall populated (tl (NeuralNetwork.layers_ (NeuralNetwork.self s))) ->
  exists s',
    NeuralNetwork.initializeWeights uniformReal normalReal initType s = Ok (tt, s') /\
    wellFormed (NeuralNetwork.self s') /\
    Forall2 reinitialized (NeuralNetwork.layers_ (NeuralNetwork.self s))
                          (NeuralNetwork.layers_ (NeuralNetwork.self s')) /\
    hd_error (NeuralNetwork.layers_ (NeuralNetwork.self s'))
    = hd_error (NeuralNetwork.layers_ (NeuralNetwork.self s)).
Proof.
  intros HP. rewrite initializeWeights_eq. cbn zeta. eexists. split; [reflexivity|].
  cbn [NeuralNetwork.self NeuralNetwork.layers_ NeuralNetwork.setLayers].
  split; [|split; [apply reinitialize_reinitialized|]].
  - unfold wellFormed. cbn [NeuralNetwork.layers_ NeuralNetwork.setLayers].
    destruct (NeuralNetwork.layers_ (NeuralNetwork.self s)) as [|input rest]; [exact I|].
    rewrite reinitialize_all. apply reinitialize_behind. exact HP.
  - destruct (NeuralNetwork.layers_ (NeuralNetwork.self s)); reflexivity.
Qed.

Lemma removeLayer_eq (index : nat) (s : NeuralNetwork.state T) :
  NeuralNetwork.removeLayer uniformReal normalReal index s
  = let layers := NeuralNetwork.layers_ (NeuralNetwork.self s) in
    if Nat.leb (length layers) index then
      Ok (tt, NeuralNetwork.mkState (NeuralNetwork.self s)
                (NeuralNetwork.logged s
                 ++ [(LogWarning,
                      "Attempted to remove layer {} from network with {} layers"%string)])
                (NeuralNetwork.drawn s))
    else
      let r := NeuralNetwork.reinitialize uniformReal normalReal InitializationType.Xavier
                 (match index with O => None | S i => nth_error layers i end)
                 (skipn (S index) layers) (NeuralNetwork.drawn s) in
      Ok (tt, NeuralNetwork.mkState
                (NeuralNetwork.setLayers (NeuralNetwork.self s) (firstn index layers ++ fst r))
                (NeuralNetwork.logged s
                 ++ [(LogDebug,
                      "Removed layer {} from network '{}'. Total layers: {}"%string)])
                (snd r)).
Proof.
  unfold NeuralNetwork.removeLayer, bindM, NeuralNetwork.get. cbn [bind fst snd]. cbn zeta.
  destruct (Nat.leb (length (NeuralNetwork.layers_ (NeuralNetwork.self s))) index);
    reflexivity.
Qed.

Lemma nth_error_last_firstn {A : Type} (i : nat) (rest : list A) (input : A) :
  i <= length rest ->
  nth_error (input :: rest) i = Some (last (firstn i rest) input).
Proof.
  revert rest input. induction i as [|i IH]; intros rest input Hi; [reflexivity|].
  destruct rest as [|r rest]; [cbn in Hi; lia|].
  cbn [nth_error firstn]. rewrite last_cons. apply IH. cbn in Hi. lia.
Qed.

Lemma Forall_skipn {A : Type} (P : A -> Prop) (n : nat) (l : list A) :
  Forall P l -> Forall P (skipn n l).
Proof.
  revert l. induction n as [|n IH]; intros l Hl; [exact Hl|].
  destruct Hl; [constructor|]. cbn [skipn]. apply IH. assumption.
Qed.

(** X13: [removeLayer] on a well-formed network returns a well-formed
    network; an index past the last layer changes nothing (a warning is
    logged); otherwise the layer is taken out, the layers before it are
    untouched, and the layers behind it keep everything but their weights
    and biases, which are re-initialised to fit. *)
Theorem X13_removeLayer_wellFormed (index : nat) (s : NeuralNetwork.state T) :
  wellFormed (NeuralNetwork.self s) ->
  exists s',
    NeuralNetwork.removeLayer uniformReal normalReal index s = Ok (tt, s') /\
    wellFormed (NeuralNetwork.self s') /\
    (length (NeuralNetwork.layers_ (NeuralNetwork.self s)) <= index ->
     NeuralNetwork.self s' = NeuralNetwork.self s) /\
    (index < length (NeuralNetwork.layers_ (NeuralNetwork.self s)) ->
     Forall2 reinitialized
       (firstn index (NeuralNetwork.layers_ (NeuralNetwork.self s))
        ++ skipn (S index) (NeuralNetwork.layers_ (NeuralNetwork.self s)))
       (NeuralNetwork.layers_ (NeuralNetwork.self s')) /\
     firstn index (NeuralNetwork.layers_ (NeuralNetwork.self s'))
     = firstn index (NeuralNetwork.layers_ (NeuralNetwork.self s))).
Proof.
  intros Hw. rewrite removeLayer_eq. cbn zeta.
  destruct (Nat.leb (length (NeuralNetwork.layers_ (NeuralNetwork.self s))) index) eqn:Eb.
  - apply Nat.leb_le in Eb. eexists. split; [reflexivity|].
    cbn [NeuralNetwork.self]. split; [exact Hw|]. split; [reflexivity|]. lia.
  - apply Nat.leb_gt in Eb. eexists. split; [reflexivity|].
    cbn [NeuralNetwork.self NeuralNetwork.layers_ NeuralNetwork.setLayers].
    split; [|split; [lia|]].
    + unfold wellFormed in *. cbn [NeuralNetwork.layers_ NeuralNetwork.setLayers].
      destruct (NeuralNetwork.layers_ (NeuralNetwork.self s)) as [|input rest];
        [cbn in Eb; lia|].
      destruct index as [|i].
      * cbn [firstn skipn app]. destruct rest as [|l1 rest2]; [exact I|].
        rewrite reinitialize_all. apply reinitialize_behind.
        destruct Hw as [_ Hr]. eapply chainFits_populated. exact Hr.
      * cbn [length] in Eb.
        change (skipn (S (S i)) (input :: rest)) with (skipn (S i) rest).
        cbn [firstn app].
        rewrite nth_error_last_firstn by lia.
        rewrite <- (firstn_skipn i rest) in Hw. apply chainFits_app in Hw.
        destruct Hw as [Hc1 Hc2]. apply chainFits_app. split; [exact Hc1|].
        rewrite last_map_size. apply reinitialize_behind.
        apply chainFits_populated in Hc2.
        replace (skipn (S i) rest) with (skipn 1 (skipn i rest))
          by (rewrite skipn_skipn; reflexivity).
        apply Forall_skipn. exact Hc2.
    + intros _. split.
      * apply Forall2_app; [apply Forall2_reinitialized_refl|].
        apply reinitialize_reinitialized.
      * rewrite firstn_app, firstn_firstn, Nat.min_id.
        rewrite length_firstn, Nat.min_l by lia.
        rewrite Nat.sub_diag. cbn [firstn]. apply app_nil_r.
Qed.
End NetworkConstruction.

(** ** [reset] *)

Section ResetProperties.
Context {T : Type} `{Scalar T} `{Libm T}.
Variable mode : BuildMode.
Variable uniform01 : nat -> T.

Lemma reset_eq (s : NeuralNetwork.state T) :
  NeuralNetwork.reset s
  = Ok (tt, NeuralNetwork.mkState
              (NeuralNetwork.mk (NeuralNetwork.name_ (NeuralNetwork.self s))
                 (map Layer.reset (NeuralNetwork.layers_ (NeuralNetwork.self s)))
                 (NeuralNetwork.learningRate_ (NeuralNetwork.self s))
                 (NeuralNetwork.lossType_ (NeuralNetwork.self s))
                 (NeuralNetwork.optimizerType_ (NeuralNetwork.self s))
                 false false zero)
              (NeuralNetwork.logged s ++ [(LogDebug, "Reset network '{}'"%string)])
              (NeuralNetwork.drawn s)).
Proof. reflexivity. Qed.

Lemma reset_layerFits (p : nat) (l : Layer.t T) :
  layerFits p l -> layerFits p (Layer.reset l).
Proof.
  intros [Hne [Hw Hm]]. unfold layerFits, Layer.reset.
  cbn [Layer.neurons_ Layer.setNeurons Layer.setDropoutMask Layer.dropoutMask_].
  rewrite !length_map. split; [|split; [|exact Hm]].
  - destruct (Layer.neurons_ l); [contradiction|discriminate].
  - apply Forall_map. eapply Forall_impl; [|exact Hw]. intros u Hu. destruct u; exact Hu.
Qed.

Lemma reset_size (l : Layer.t T) : Layer.getSize (Layer.reset l) = Layer.getSize l.
Proof. unfold Layer.getSize, Layer.reset. cbn. apply length_map. Qed.

Lemma reset_chainFits (p : nat) (layers : list (Layer.t T)) :
  chainFits p layers -> chainFits p (map Layer.reset layers).
Proof.
  revert p. induction layers as [|l rest IH]; intros p Hc; [exact I|].
  destruct Hc as [Hl Hr]. cbn [map chainFits]. split; [apply reset_layerFits; exact Hl|].
  rewrite reset_size. apply IH. exact Hr.
Qed.

Lemma reset_layerOutput (l : Layer.t T) (prev : list T) :
  layerOutput (Layer.reset l) prev = layerOutput l prev.
Proof.
  unfold layerOutput, Layer.reset.
  cbn [Layer.neurons_ Layer.setNeurons Layer.setDropoutMask Layer.activationType_].
  rewrite map_map.
  rewrite (map_ext (fun u => preActivation prev (Neuron.reset u)) (preActivation prev));
    [reflexivity|].
  intros u. destruct u; reflexivity.
Qed.

Lemma reset_feedForward (prev : list T) (layers : list (Layer.t T)) :
  feedForward prev (map Layer.reset layers) = feedForward prev layers.
Proof.
  revert prev. induction layers as [|l rest IH]; intros prev; [reflexivity|].
  cbn [map feedForward]. rewrite reset_layerOutput. apply IH.
Qed.

Lemma reset_parameters (layers : list (Layer.t T)) :
  map (fun l => map (fun u => (Neuron.inputWeights_ u, Neuron.bias_ u)) (Layer.neurons_ l))
      (map Layer.reset layers)
  = map (fun l => map (fun u => (Neuron.inputWeights_ u, Neuron.bias_ u)) (Layer.neurons_ l))
        layers.
Proof.
  rewrite map_map. apply map_ext. intros l. unfold Layer.reset.
  cbn [Layer.neurons_ Layer.setNeurons Layer.setDropoutMask].
  rewrite map_map. apply map_ext. intros u. destruct u; reflexivity.
Qed.

(** X14: [reset] erases the activation, weighted input, gradient and
    delta of every unit, sets every dropout mask entry, and clears
    [isTraining_], [shouldStop_] and the progress, but keeps every weight
    and bias: the network stays well-formed and [predict] after [reset]
    returns what the network computed before. *)
Theorem X14_reset_keeps_function (inputs : list T) (s : NeuralNetwork.state T)
  (input : Layer.t T) (rest : list (Layer.t T)) :
  NeuralNetwork.layers_ (NeuralNetwork.self s) = input :: rest ->
  length inputs = Layer.getSize input ->
  wellFormed (NeuralNetwork.self s) ->
  exists s1 s2,
    NeuralNetwork.reset s = Ok (tt, s1) /\
    parameters (NeuralNetwork.self s1) = parameters (NeuralNetwork.self s) /\
    Forall (fun l =>
              Forall (fun u => Neuron.activation_ u = zero /\ Neuron.weightedInput_ u = zero /\
                               Neuron.gradient_ u = zero /\ Neuron.delta_ u = zero)
                     (Layer.neurons_ l) /\
              Forall (fun kept => kept = true) (Layer.dropoutMask_ l))
           (NeuralNetwork.layers_ (NeuralNetwork.self s1)) /\
    NeuralNetwork.isTraining_ (NeuralNetwork.self s1) = false /\
    NeuralNetwork.shouldStop_ (NeuralNetwork.self s1) = false /\
    NeuralNetwork.trainingProgress_ (NeuralNetwork.self s1) = zero /\
    wellFormed (NeuralNetwork.self s1) /\
    NeuralNetwork.predict mode uniform01 inputs s1 = Ok (feedForward inputs rest, s2).
Proof.
  intros Hl Hlen Hwf. rewrite reset_eq.
  match goal with
  | |- exists s1 s2, Ok (tt, ?s0) = _ /\ _ => set (s1 := s0)
  end.
  assert (Hw1 : wellFormed (NeuralNetwork.self s1)).
  { unfold wellFormed in *. subst s1. cbn [NeuralNetwork.self NeuralNetwork.layers_].
    rewrite Hl in Hwf |- *. cbn [map]. rewrite reset_size.
    apply reset_chainFits. exact Hwf. }
  destruct (@forward_inference _ _ _ mode uniform01 inputs (inference s1)
              (Layer.reset input) (map Layer.reset rest)) as [s2 [E [Ed Eg]]].
  { subst s1. cbn. rewrite Hl. reflexivity. }
  { rewrite reset_size. exact Hlen. }
  { exact Hw1. }
  { reflexivity. }
  exists s1. eexists. split; [reflexivity|].
  split; [subst s1; unfold parameters; cbn [NeuralNetwork.self NeuralNetwork.layers_];
          apply reset_parameters|].
  split.
  { subst s1. cbn [NeuralNetwork.self NeuralNetwork.layers_].
    apply Forall_map. apply Forall_forall. intros l _. unfold Layer.reset.
    cbn [Layer.neurons_ Layer.setNeurons Layer.setDropoutMask Layer.dropoutMask_].
    split; apply Forall_map; apply Forall_forall; intros x _; [|reflexivity].
    destruct x; cbn. auto. }
  split; [reflexivity|]. split; [reflexivity|]. split; [reflexivity|].
  split; [exact Hw1|].
  rewrite predict_eq, E. cbn [bind fst snd]. rewrite reset_feedForward.
  reflexivity.
Qed.
End ResetProperties.

(** ** Setters and getters *)

Section AccessorProperties.
Context {T : Type} `{Scalar T} `{Libm T}.

Lemma assignEach_matching {V : Type} (set : Neuron.t T -> V -> Neuron.t T)
  (ns : list (Neuron.t T)) (values : list V) :
  length ns <= length values ->
  Layer.assignEach set ns values
  = Ok (map (fun nv => set (fst nv) (snd nv)) (combine ns values)).
Proof.
  revert values. induction ns as [|n ns IH]; intros [|v vs] Hlen; cbn in Hlen |- *;
    try reflexivity; try lia.
  rewrite IH by lia. reflexivity.
Qed.

Lemma assignEach_short {V : Type} (set : Neuron.t T -> V -> Neuron.t T)
  (ns : list (Neuron.t T)) (values : list V) :
  length values < length ns -> Layer.assignEach set ns values = Undefined.
Proof.
  revert values. induction ns as [|n ns IH]; intros [|v vs] Hlen; cbn in Hlen |- *;
    try reflexivity; try lia.
  rewrite IH by lia. reflexivity.
Qed.

Lemma map_snd_combine {A V : Type} (ns : list A) (values : list V) :
  map (fun nv => snd nv) (combine ns values) = firstn (length ns) values.
Proof.
  revert values. induction ns as [|n ns IH]; intros [|v vs]; cbn; try reflexivity.
  rewrite IH. reflexivity.
Qed.

Lemma map_fst_combine {A V W : Type} (g : A -> W) (ns : list A) (values : list V) :
  length ns <= length values ->
  map (fun nv => g (fst nv)) (combine ns values) = map g ns.
Proof.
  revert values. induction ns as [|n ns IH]; intros [|v vs] Hlen; cbn in Hlen |- *;
    try reflexivity; try lia.
  rewrite IH by lia. reflexivity.
Qed.

(** A setter of the layer that assigns one value to every unit. *)
Lemma layer_assign {V : Type} (mode : BuildMode) (set : Neuron.t T -> V -> Neuron.t T)
  (l : Layer.t T) (values : list V) :
  (NNV_ASSERT mode (Nat.eqb (length values) (length (Layer.neurons_ l))) ;;;
   ns <- Layer.assignEach set (Layer.neurons_ l) values ;;
   Ok (Layer.setNeurons l ns))
  = if Nat.eqb (length values) (Layer.getSize l) then
      Ok (Layer.setNeurons l
            (map (fun nv => set (fst nv) (snd nv)) (combine (Layer.neurons_ l) values)))
    else match mode with
         | Debug => AssertFailed
         | Release =>
             if Nat.ltb (length values) (Layer.getSize l) then Undefined
             else Ok (Layer.setNeurons l
                        (map (fun nv => set (fst nv) (snd nv))
                             (combine (Layer.neurons_ l) values)))
         end.
Proof.
  unfold Layer.getSize.
  destruct (Nat.eqb (length values) (length (Layer.neurons_ l))) eqn:E.
  - apply Nat.eqb_eq in E. rewrite NNV_ASSERT_true. cbn [bind].
    rewrite assignEach_matching by lia. reflexivity.
  - apply Nat.eqb_neq in E. destruct mode; [reflexivity|]. cbn [NNV_ASSERT bind].
    destruct (Nat.ltb (length values) (length (Layer.neurons_ l))) eqn:E2.
    + apply Nat.ltb_lt in E2. rewrite assignEach_short by lia. reflexivity.
    + apply Nat.ltb_ge in E2. rewrite assignEach_matching by lia. reflexivity.
Qed.

(** X15: with one value per unit, [setBiases], [setWeightMatrix] and
    [setActivations] return, in either build, and the matching getter then
    gives back exactly the values that were set, while the other two
    getters give what they gave before. *)
Theorem X15_layer_setters_roundtrip (mode : BuildMode) (l : Layer.t T) :
  (forall biases, length biases = Layer.getSize l ->
     exists l', Layer.setBiases mode l biases = Ok l' /\
       Layer.getBiases l' = biases /\
       Layer.getWeightMatrix l' = Layer.getWeightMatrix l /\
       Layer.getActivations l' = Layer.getActivations l) /\
  (forall weights, length weights = Layer.getSize l ->
     exists l', Layer.setWeightMatrix mode l weights = Ok l' /\
       Layer.getWeightMatrix l' = weights /\
       Layer.getBiases l' = Layer.getBiases l /\
       Layer.getActivations l' = Layer.getActivations l) /\
  (forall activations, length activations = Layer.getSize l ->
     exists l', Layer.setActivations mode l activations = Ok l' /\
       Layer.getActivations l' = activations /\
       Layer.getBiases l' = Layer.getBiases l /\
       Layer.getWeightMatrix l' = Layer.getWeightMatrix l).
Proof.
  split; [|split]; intros values Hlen;
    [unfold Layer.setBiases|unfold Layer.setWeightMatrix|unfold Layer.setActivations];
    rewrite layer_assign, Hlen, Nat.eqb_refl;
    (eexists; split; [reflexivity|]);
    unfold Layer.getBiases, Layer.getWeightMatrix, Layer.getActivations;
    cbn [Layer.neurons_ Layer.setNeurons];
    unfold Layer.getSize in Hlen;
    repeat split;
    rewrite map_map;
    first [ rewrite <- (firstn_all values) at 2; rewrite Hlen;
            rewrite <- map_snd_combine; apply map_ext; intros [[] v]; reflexivity
          | rewrite <- (@map_fst_combine _ _ _ _ (Layer.neurons_ l) values) by lia;
            apply map_ext; intros [[] v]; reflexivity ].
Qed.

(** X16: [setBiases] with a vector whose size is not the layer's: a debug
    build stops on the assertion; a release build reads past the end of a
    shorter vector (undefined behaviour) and silently uses the first
    entries of a longer one. *)
Theorem X16_layer_setters_mismatch (mode : BuildMode) (l : Layer.t T) (biases : list T) :
  length biases <> Layer.getSize l ->
  Layer.setBiases mode l biases
  = match mode with
    | Debug => AssertFailed
    | Release =>
        if Nat.ltb (length biases) (Layer.getSize l) then Undefined
        else Ok (Layer.setNeurons l
                   (map (fun nb => Neuron.setBias (fst nb) (snd nb))
                        (combine (Layer.neurons_ l) biases)))
    end.
Proof.
  intros Hne. unfold Layer.setBiases. rewrite layer_assign.
  apply Nat.eqb_neq in Hne. rewrite Hne. reflexivity.
Qed.

(** X17: the weight accessors of a unit: [setInputWeight] keeps the number
    of weights and, for an index in range, [getInputWeight] then returns
    the weight at that index and the old weights elsewhere; an index out of
    range reads as [T{0}] and writes nothing; [addInputWeight] appends one
    weight. *)
Theorem X17_inputWeight_set_get (n : Neuron.t T) (index j : nat) (weight : T) :
  Neuron.getInputCount (Neuron.setInputWeight n index weight) = Neuron.getInputCount n /\
  Neuron.getInputWeight (Neuron.setInputWeight n index weight) j
  = (if Nat.eqb j index && Nat.ltb index (Neuron.getInputCount n) then weight
     else Neuron.getInputWeight n j) /\
  (Neuron.getInputCount n <= j -> Neuron.getInputWeight n j = zero) /\
  (Neuron.getInputCount n <= index -> Neuron.setInputWeight n index weight = n) /\
  Neuron.getInputCount (Neuron.addInputWeight n weight) = S (Neuron.getInputCount n) /\
  Neuron.getInputWeight (Neuron.addInputWeight n weight) j
  = (if Nat.eqb j (Neuron.getInputCount n) then weight else Neuron.getInputWeight n j).
Proof.
  destruct n as [id a b w g d t name ws].
  unfold Neuron.getInputCount, Neuron.getInputWeight, Neuron.setInputWeight,
    Neuron.addInputWeight.
  cbn [Neuron.inputWeights_ Neuron.setInputWeights Neuron.id_ Neuron.activation_
       Neuron.bias_ Neuron.weightedInput_ Neuron.gradient_ Neuron.delta_
       Neuron.trainable_ Neuron.name_].
  assert (Hlen : index < length ws ->
                 length (firstn index ws ++ weight :: skipn (S index) ws) = length ws).
  { intros Hi. rewrite length_app, length_firstn. cbn [length]. rewrite length_skipn. lia. }
  split; [|split; [|split; [|split; [|split]]]].
  - destruct (Nat.ltb index (length ws)) eqn:E;
      cbn [Neuron.inputWeights_ Neuron.setInputWeights]; [|reflexivity].
    apply Nat.ltb_lt in E. apply Hlen. exact E.
  - destruct (Nat.ltb index (length ws)) eqn:E;
      cbn [Neuron.inputWeights_ Neuron.setInputWeights];
      [|rewrite andb_false_r; reflexivity].
    apply Nat.ltb_lt in E. rewrite (Hlen E), andb_true_r.
    destruct (Nat.ltb j (length ws)) eqn:Ej.
    + apply Nat.ltb_lt in Ej. destruct (Nat.eqb j index) eqn:Ee.
      * apply Nat.eqb_eq in Ee. subst j.
        rewrite app_nth2 by (rewrite length_firstn; lia).
        rewrite length_firstn, Nat.min_l by lia. rewrite Nat.sub_diag. reflexivity.
      * apply Nat.eqb_neq in Ee. destruct (Nat.lt_ge_cases j index) as [Hlt|Hge].
        -- rewrite app_nth1 by (rewrite length_firstn; lia).
           rewrite nth_firstn.
           replace (Nat.ltb j index) with true by (symmetry; apply Nat.ltb_lt; lia).
           reflexivity.
        -- rewrite app_nth2 by (rewrite length_firstn; lia).
           rewrite length_firstn, Nat.min_l by lia.
           replace (j - index) with (S (j - S index)) by lia. cbn [nth].
           rewrite nth_skipn. f_equal. lia.
    + apply Nat.ltb_ge in Ej. replace (Nat.eqb j index) with false; [reflexivity|].
      symmetry. apply Nat.eqb_neq. lia.
  - intros Hj. apply Nat.ltb_ge in Hj. rewrite Hj. reflexivity.
  - intros Hi. apply Nat.ltb_ge in Hi. rewrite Hi. reflexivity.
  - rewrite length_app. cbn [length]. lia.
  - rewrite length_app. cbn [length].
    destruct (Nat.eqb j (length ws)) eqn:Ee.
    + apply Nat.eqb_eq in Ee. subst j.
      replace (Nat.ltb (length ws) (length ws + 1)) with true
        by (symmetry; apply Nat.ltb_lt; lia).
      rewrite app_nth2 by lia. rewrite Nat.sub_diag. reflexivity.
    + apply Nat.eqb_neq in Ee. destruct (Nat.ltb j (length ws)) eqn:Ej.
      * apply Nat.ltb_lt in Ej.
        replace (Nat.ltb j (length ws + 1)) with true by (symmetry; apply Nat.ltb_lt; lia).
        apply app_nth1. exact Ej.
      * apply Nat.ltb_ge in Ej.
        replace (Nat.ltb j (length ws + 1)) with false by (symmetry; apply Nat.ltb_ge; lia).
        reflexivity.
Qed.
End AccessorProperties.

(** ** Clamping on binary64 *)

Section Binary64Properties.

Lemma double_ltb_leb (x y : float) : PrimFloat.ltb x y = true -> PrimFloat.leb x y = true.
Proof.
  rewrite FloatAxioms.ltb_spec, FloatAxioms.leb_spec. unfold SFltb, SFleb.
  destruct (SFcompare (Prim2SF x) (Prim2SF y)) as [[| |]|]; congruence.
Qed.

Lemma SFcompare_refl (f : spec_float) (g : spec_float) (c : comparison) :
  SFcompare f g = Some c -> SFcompare f f = Some Eq.
Proof.
  destruct f as [s| s| |s m e]; cbn; try discriminate; intros _.
  - reflexivity.
  - destruct s; reflexivity.
  - rewrite Z.compare_refl.
    assert (E : PosDef.Pos.compare_cont Eq m m = Eq) by apply Pos.compare_cont_refl.
    rewrite E. destruct s; reflexivity.
Qed.

Lemma SFcompare_refl_r (f : spec_float) (g : spec_float) (c : comparison) :
  SFcompare f g = Some c -> SFcompare g g = Some Eq.
Proof.
  intros E. destruct g as [s| s| |s m e].
  - reflexivity.
  - destruct s; reflexivity.
  - destruct f; discriminate E.
  - cbn. rewrite Z.compare_refl.
    assert (E' : PosDef.Pos.compare_cont Eq m m = Eq) by apply Pos.compare_cont_refl.
    rewrite E'. destruct s; reflexivity.
Qed.

Lemma double_leb_refl (x y : float) :
  PrimFloat.leb x y = true -> PrimFloat.leb x x = true /\ PrimFloat.leb y y = true.
Proof.
  rewrite !FloatAxioms.leb_spec. unfold SFleb.
  destruct (SFcompare (Prim2SF x) (Prim2SF y)) as [c|] eqn:E; [|discriminate].
  rewrite (@SFcompare_refl _ _ _ E), (@SFcompare_refl_r _ _ _ E). auto.
Qed.

(** [std::max(lo, std::min(hi, x))] on binary64 lies between [lo] and
    [hi], whatever [x] is. *)
Lemma double_clamped (lo hi x : float) :
  PrimFloat.leb lo hi = true ->
  PrimFloat.leb lo (max lo (min hi x)) = true /\
  PrimFloat.leb (max lo (min hi x)) hi = true.
Proof.
  intros Hle. destruct (@double_leb_refl lo hi Hle) as [Hlo Hhi].
  unfold max, min. cbn [ltb Scalar_double].
  destruct (PrimFloat.ltb x hi) eqn:E1.
  - destruct (PrimFloat.ltb lo x) eqn:E2.
    + split; apply double_ltb_leb; assumption.
    + split; assumption.
  - destruct (PrimFloat.ltb lo hi) eqn:E2; split; assumption.
Qed.

Lemma SFcompare_Eq_sym (f g : spec_float) :
  SFcompare f g = Some Eq -> SFcompare g f = Some Eq.
Proof.
  destruct f as [s1| s1| |s1 m1 e1], g as [s2| s2| |s2 m2 e2]; cbn;
    try discriminate; try reflexivity;
    try (destruct s1; discriminate); try (destruct s2; discriminate).
  - destruct s1, s2; try discriminate; reflexivity.
  - intros E.
    assert (Hs : s1 = s2) by (destruct s1, s2; try reflexivity; discriminate E).
    subst s2.
    destruct (IntDef.Z.compare e1 e2) eqn:Ee; try (destruct s1; discriminate E).
    apply Z.compare_eq in Ee. subst e2.
    assert (Hm : PosDef.Pos.compare_cont Eq m1 m2 = Eq).
    { destruct s1; [|congruence].
      destruct (PosDef.Pos.compare_cont Eq m1 m2); try discriminate E; reflexivity. }
    apply Pos.compare_eq in Hm. subst m2.
    rewrite Z.compare_refl.
    assert (E' : PosDef.Pos.compare_cont Eq m1 m1 = Eq) by apply Pos.compare_cont_refl.
    rewrite E'. destruct s1; reflexivity.
Qed.

(** [x <= y] and not [x < y] on binary64: the two compare equal. *)
Lemma double_leb_not_ltb (x y : float) :
  PrimFloat.leb x y = true -> PrimFloat.ltb x y = false ->
  PrimFloat.eqb x y = true /\ PrimFloat.eqb y x = true.
Proof.
  rewrite FloatAxioms.leb_spec, FloatAxioms.ltb_spec, !FloatAxioms.eqb_spec. unfold SFleb, SFltb, SFeqb.
  destruct (SFcompare (Prim2SF x) (Prim2SF y)) as [[| |]|] eqn:E; try discriminate.
  intros _ _. rewrite (SFcompare_Eq_sym _ _ E). auto.
Qed.

Lemma double_nan_ltb (x y : float) :
  PrimFloat.eqb x x = false -> PrimFloat.ltb x y = false.
Proof.
  rewrite FloatAxioms.eqb_spec, FloatAxioms.ltb_spec. unfold SFeqb, SFltb.
  destruct (SFcompare (Prim2SF x) (Prim2SF y)) as [c|] eqn:E; [|reflexivity].
  rewrite (@SFcompare_refl _ _ _ E). discriminate.
Qed.

Lemma double_eqb_refl (x y : float) :
  PrimFloat.leb x y = true -> PrimFloat.eqb x x = true /\ PrimFloat.eqb y y = true.
Proof.
  rewrite FloatAxioms.leb_spec, !FloatAxioms.eqb_spec. unfold SFleb, SFeqb.
  destruct (SFcompare (Prim2SF x) (Prim2SF y)) as [c|] eqn:E; [|discriminate].
  rewrite (@SFcompare_refl _ _ _ E), (@SFcompare_refl_r _ _ _ E). auto.
Qed.

(** A value between [lo] and [hi] passes through
    [std::max(lo, std::min(hi, x))] as a value that compares equal to it;
    a NaN comes out as [hi]. *)
Lemma double_clamp_keeps (lo hi x : float) :
  PrimFloat.ltb lo hi = true ->
  (PrimFloat.leb lo x = true -> PrimFloat.leb x hi = true ->
   PrimFloat.eqb (max lo (min hi x)) x = true) /\
  (PrimFloat.eqb x x = false -> max lo (min hi x) = hi).
Proof.
  intros Hlt. unfold max, min. cbn [ltb Scalar_double]. split.
  - intros H1 H2.
    destruct (PrimFloat.ltb x hi) eqn:E1.
    + destruct (PrimFloat.ltb lo x) eqn:E2.
      * apply (@double_eqb_refl lo x H1).
      * apply (@double_leb_not_ltb lo x H1 E2).
    + rewrite Hlt. apply (@double_leb_not_ltb x hi H2 E1).
  - intros Hn. rewrite (@double_nan_ltb x hi Hn), Hlt. reflexivity.
Qed.

(** X18: on binary64, the rate [setDropoutRate] stores always lies between
    0 and 1; a rate between 0 and 1 is stored as a value that compares equal
    to it, and a NaN is stored as 1. *)
Theorem X18_setDropoutRate_clamps (l : Layer.t float) (rate : float) :
  PrimFloat.leb 0 (Layer.dropoutRate_ (Layer.setDropoutRate l rate)) = true /\
  PrimFloat.leb (Layer.dropoutRate_ (Layer.setDropoutRate l rate)) 1 = true /\
  (PrimFloat.leb 0 rate = true -> PrimFloat.leb rate 1 = true ->
   PrimFloat.eqb (Layer.dropoutRate_ (Layer.setDropoutRate l rate)) rate = true) /\
  (PrimFloat.eqb rate rate = false ->
   Layer.dropoutRate_ (Layer.setDropoutRate l rate) = 1%float).
Proof.
  unfold Layer.setDropoutRate, Layer.assignDropoutRate. cbn [Layer.dropoutRate_].
  destruct (@double_clamped 0%float 1%float rate eq_refl) as [H1 H2].
  destruct (@double_clamp_keeps 0%float 1%float rate eq_refl) as [H3 H4].
  split; [exact H1|]. split; [exact H2|]. split; [exact H3|exact H4].
Qed.

(** X19: on binary64, the clamped output
    [std::max(epsilon, std::min(T{1} - epsilon, output))] that the
    cross-entropy, binary cross-entropy and focal losses and their
    gradients take the logarithm of, or divide by, always lies between
    [1e-15] and [1 - 1e-15]: an output in that range passes as a value that
    compares equal to it, and a NaN becomes [1 - 1e-15]. *)
Theorem X19_loss_clamp_bounds (o : float) :
  PrimFloat.leb 1e-15 (loss.clamp o) = true /\
  PrimFloat.leb (loss.clamp o) (1 - 1e-15) = true /\
  (PrimFloat.leb 1e-15 o = true -> PrimFloat.leb o (1 - 1e-15) = true ->
   PrimFloat.eqb (loss.clamp o) o = true) /\
  (PrimFloat.eqb o o = false -> loss.clamp o = (1 - 1e-15)%float).
Proof.
  unfold loss.clamp.
  change (@loss.epsilon float Scalar_double) with 1e-15%float.
  change (@sub float Scalar_double one 1e-15%float) with (1 - 1e-15)%float.
  destruct (@double_clamped 1e-15%float (1 - 1e-15)%float o eq_refl) as [H1 H2].
  destruct (@double_clamp_keeps 1e-15%float (1 - 1e-15)%float o eq_refl) as [H3 H4].
  split; [exact H1|]. split; [exact H2|]. split; [exact H3|exact H4].
Qed.

(** X20: on binary64, [relu] never returns a negative value or a NaN: it
    returns its argument when that is greater than 0 and 0 otherwise, also
    for a NaN. *)
Theorem X20_relu_never_negative (x : float) :
  PrimFloat.leb 0 (activation.relu x) = true /\
  (PrimFloat.ltb 0 x = true -> activation.relu x = x) /\
  (PrimFloat.ltb 0 x = false -> activation.relu x = 0%float).
Proof.
  unfold activation.relu, max. cbn [ltb Scalar_double].
  change (@zero float Scalar_double) with 0%float.
  destruct (PrimFloat.ltb 0 x) eqn:E.
  - split; [apply double_ltb_leb; exact E|]. split; [reflexivity|discriminate].
  - split; [reflexivity|]. split; [discriminate|reflexivity].
Qed.
End Binary64Properties.

(** ** One-hot encoding *)

Section EncodingProperties.
Context {T : Type} `{Scalar T}.

Lemma nth_replaced {A : Type} (l : list A) (n j : nat) (x d : A) :
  n < length l ->
  nth j (firstn n l ++ x :: skipn (S n) l) d = if Nat.eqb j n then x else nth j l d.
Proof.
  intros Hn. destruct (Nat.eqb j n) eqn:Ee.
  - apply Nat.eqb_eq in Ee. subst j.
    rewrite app_nth2 by (rewrite length_firstn; lia).
    rewrite length_firstn, Nat.min_l by lia. rewrite Nat.sub_diag. reflexivity.
  - apply Nat.eqb_neq in Ee. destruct (Nat.lt_ge_cases j n) as [Hlt|Hge].
    + rewrite app_nth1 by (rewrite length_firstn; lia).
      rewrite nth_firstn.
      replace (Nat.ltb j n) with true by (symmetry; apply Nat.ltb_lt; lia).
      reflexivity.
    + rewrite app_nth2 by (rewrite length_firstn; lia).
      rewrite length_firstn, Nat.min_l by lia.
      replace (j - n) with (S (j - S n)) by lia. cbn [nth].
      rewrite nth_skipn. f_equal. lia.
Qed.

Lemma oneHotRow_spec (numClasses : nat) (label : Z) :
  length (DataLoader.oneHotRow (T := T) numClasses label) = numClasses /\
  forall j, j < numClasses ->
    nth j (DataLoader.oneHotRow numClasses label) zero
    = if (Z.of_nat j =? label)%Z then one else zero.
Proof.
  unfold DataLoader.oneHotRow. cbn zeta.
  destruct ((0 <=? label)%Z && (label <? Z.of_nat numClasses)%Z) eqn:E.
  - apply andb_true_iff in E. destruct E as [E1 E2].
    apply Z.leb_le in E1. apply Z.ltb_lt in E2.
    assert (Hn : Z.to_nat label < length (repeat (@zero T _) numClasses))
      by (rewrite repeat_length; lia).
    split.
    + rewrite length_app, length_firstn. cbn [length]. rewrite length_skipn, repeat_length. lia.
    + intros j Hj. rewrite (@nth_replaced _ _ _ j one zero Hn).
      destruct (Nat.eqb j (Z.to_nat label)) eqn:Ej.
      * apply Nat.eqb_eq in Ej. subst j.
        replace (Z.of_nat (Z.to_nat label) =? label)%Z with true
          by (symmetry; apply Z.eqb_eq; lia).
        reflexivity.
      * apply Nat.eqb_neq in Ej.
        replace (Z.of_nat j =? label)%Z with false by (symmetry; apply Z.eqb_neq; lia).
        apply nth_repeat.
  - split; [apply repeat_length|]. intros j Hj.
    replace (Z.of_nat j =? label)%Z with false; [apply nth_repeat|].
    symmetry. apply Z.eqb_neq. intros Ee. subst label.
    apply andb_false_iff in E. destruct E as [E|E];
      [apply Z.leb_gt in E|apply Z.ltb_ge in E]; lia.
Qed.

Lemma maxLabel_bounds (first : Z) (labels : list Z) :
  (first <= DataLoader.maxLabel first labels)%Z /\
  Forall (fun l => (l <= DataLoader.maxLabel first labels)%Z) labels.
Proof.
  unfold DataLoader.maxLabel. revert first.
  induction labels as [|l rest IH]; intros first; cbn [fold_left].
  - split; [lia|constructor].
  - destruct (IH (Z.max first l)) as [I1 I2]. split; [lia|].
    constructor; [lia|exact I2].
Qed.

(** X21: [oneHotEncode] on a non-empty vector of labels, with the number
    of classes given or, when it is not positive, taken as the largest
    label plus one (the largest label below [INT_MAX]): it returns one row
    per label, each of as many entries as there are classes, with [T{1}]
    at the label's index and [T{0}] elsewhere (all [T{0}] for a label out
    of range); with the number of classes inferred no label is too large;
    and when the inferred number is negative the vector constructor
    throws. *)
Theorem X21_oneHotEncode_rows (first : Z) (rest : list Z) (numClasses : Z) :
  let labels := first :: rest in
  let classes := if (numClasses <=? 0)%Z then (DataLoader.maxLabel first rest + 1)%Z
                 else numClasses in
  ((numClasses <= 0)%Z -> (DataLoader.maxLabel first rest < 2 ^ 31 - 1)%Z) ->
  ((classes < 0)%Z ->
   DataLoader.oneHotEncode (T := T) labels numClasses = Thrown "std::length_error") /\
  ((0 <= classes)%Z ->
   exists encoded,
     DataLoader.oneHotEncode labels numClasses = Ok encoded /\
     length encoded = length labels /\
     ((numClasses <= 0)%Z -> Forall (fun label => (label < classes)%Z) labels) /\
     forall i label, nth_error labels i = Some label ->
       exists row,
         nth_error encoded i = Some row /\
         length row = Z.to_nat classes /\
         forall j, j < Z.to_nat classes ->
           nth j row zero = if (Z.of_nat j =? label)%Z then one else zero).
Proof.
  cbn zeta. intros Hmax. unfold DataLoader.oneHotEncode.
  destruct (numClasses <=? 0)%Z eqn:E0.
  - apply Z.leb_le in E0. specialize (Hmax E0).
    replace (DataLoader.maxLabel first rest =? 2 ^ 31 - 1)%Z with false
      by (symmetry; apply Z.eqb_neq; lia).
    cbn [bind]. split.
    + intros Hneg. apply Z.ltb_lt in Hneg. rewrite Hneg. reflexivity.
    + intros Hpos. replace (DataLoader.maxLabel first rest + 1 <? 0)%Z with false
        by (symmetry; apply Z.ltb_ge; lia).
      eexists. split; [reflexivity|]. split; [apply length_map|]. split.
      * intros _. destruct (maxLabel_bounds first rest) as [B1 B2].
        constructor; [lia|]. eapply Forall_impl; [|exact B2]. cbn. intros l Hl. lia.
      * intros i label Hi. eexists. split; [apply map_nth_error; exact Hi|].
        apply oneHotRow_spec.
  - apply Z.leb_gt in E0. cbn [bind]. split; [intros Hneg; lia|].
    intros _. replace (numClasses <? 0)%Z with false by (symmetry; apply Z.ltb_ge; lia).
    eexists. split; [reflexivity|]. split; [apply length_map|]. split; [intros Hle; lia|].
    intros i label Hi. eexists. split; [apply map_nth_error; exact Hi|].
    apply oneHotRow_spec.
Qed.
End EncodingProperties.

(** ** [evaluate] *)

Section EvaluateProperties.
Context {T : Type} `{Scalar T} `{Libm T}.
Variable mode : BuildMode.
Variable uniform01 : nat -> T.

Lemma parameters_forward (inputs : list T) :
  preserves (fun n n' : NeuralNetwork.t T => parameters n' = parameters n)
            (NeuralNetwork.forward mode uniform01 inputs).
Proof.
  intros s a s' E. apply forward_frame in E. destruct E as [Hs _].
  unfold parameters. apply sameUnits_parameters. exact Hs.
Qed.

(** X22: [evaluate] never changes a weight or a bias; with inputs and
    targets of different counts it returns loss 0 and accuracy 0 and leaves
    the network as it was; on a well-formed network with non-empty targets
    it returns and leaves a well-formed network; on no sample at all it
    returns the loss [T{0} / 0] and the accuracy [T{0}]. *)
Theorem X22_evaluate_behaviour (inputData targetData : list (list T))
  (s : NeuralNetwork.state T) :
  (forall r s',
     NeuralNetwork.evaluate mode uniform01 inputData targetData s = Ok (r, s') ->
     parameters (NeuralNetwork.self s') = parameters (NeuralNetwork.self s)) /\
  (length inputData <> length targetData ->
   exists s',
     NeuralNetwork.evaluate mode uniform01 inputData targetData s = Ok ((zero, zero), s') /\
     NeuralNetwork.self s' = NeuralNetwork.self s) /\
  (forall w o,
     fits w o (NeuralNetwork.self s) -> Forall (fun t => t <> []) targetData ->
     exists r s',
       NeuralNetwork.evaluate mode uniform01 inputData targetData s = Ok (r, s') /\
       fits w o (NeuralNetwork.self s')) /\
  NeuralNetwork.evaluate mode uniform01 [] [] s = Ok ((div zero (of_size 0), zero), s).
Proof.
  split; [|split; [|split]].
  - intros r s' E.
    refine (@framed_evaluate _ _ _ mode uniform01
              (fun n n' => parameters n' = parameters n) _ _ _ _
              inputData targetData s r s' E).
    + reflexivity.
    + intros a b c E1 E2. congruence.
    + apply parameters_forward.
    + intros n b. reflexivity.
  - intros Hne. unfold NeuralNetwork.evaluate.
    replace (Nat.eqb (length inputData) (length targetData)) with false
      by (symmetry; apply Nat.eqb_neq; exact Hne).
    eexists. split; reflexivity.
  - intros w o Hfit Ht.
    destruct (@evaluate_total _ _ _ mode uniform01 w o inputData targetData s Hfit Ht)
      as [r [s' E]].
    exists r, s'. split; [exact E|].
    refine (fits_kept _ Hfit).
    refine (@framed_evaluate _ _ _ mode uniform01 trainingKeeps _ _ _ _
              inputData targetData s r s' E).
    + exact (@trainingKeeps_refl T).
    + exact (@trainingKeeps_trans T).
    + apply preserves_forward.
    + intros n b. apply trainingKeeps_flags; reflexivity.
  - destruct s. reflexivity.
Qed.
End EvaluateProperties.

(** ** Back-propagated deltas *)

Section GradientProperties.
Context {T : Type} `{Scalar T} `{Libm T}.
Variable mode : BuildMode.

Lemma at_nth {A : Type} (v : list A) (i : nat) (d : A) :
  i < length v -> at_ v i = Ok (nth i v d).
Proof.
  intros Hi. unfold at_. destruct (nth_error v i) as [a|] eqn:E.
  - rewrite (nth_error_nth v i d E). reflexivity.
  - apply nth_error_None in E. lia.
Qed.

Lemma weightedDeltas_fold (i : nat) (nextLayerDeltas : list T)
  (nextLayerWeights : list (list T)) (delta : T) :
  length nextLayerDeltas <= length nextLayerWeights ->
  Forall (fun w => i < length w) nextLayerWeights ->
  Layer.weightedDeltas mode i nextLayerDeltas nextLayerWeights delta
  = Ok (fold_left add
          (map (fun dw => mul (fst dw) (nth i (snd dw) zero))
               (combine nextLayerDeltas nextLayerWeights))
          delta).
Proof.
  revert nextLayerWeights delta.
  induction nextLayerDeltas as [|d ds IH]; intros [|w ws] delta Hlen Hw;
    cbn [length] in Hlen; cbn [Layer.weightedDeltas combine map fold_left fst snd];
    try reflexivity; try lia.
  inversion Hw as [|? ? Hi Hws]; subst.
  replace (Nat.ltb i (length w)) with true by (symmetry; apply Nat.ltb_lt; exact Hi).
  rewrite NNV_ASSERT_true. cbn [bind]. rewrite (at_nth w zero Hi). cbn [bind].
  apply IH; [lia|exact Hws].
Qed.

Lemma gradientLoop_formula (derivFunc : T -> T) (nextLayerDeltas : list T)
  (nextLayerWeights : list (list T)) (i : nat) (neurons : list (Neuron.t T)) :
  length nextLayerDeltas <= length nextLayerWeights ->
  Forall (fun w => i + length neurons <= length w) nextLayerWeights ->
  exists r,
    Layer.gradientLoop mode derivFunc nextLayerDeltas nextLayerWeights i neurons = Ok r /\
    length r = length neurons /\
    forall j n, nth_error neurons j = Some n ->
      nth_error r j
      = Some (Neuron.setDelta n
                (mul (propagated nextLayerDeltas nextLayerWeights (i + j))
                     (derivFunc (add (Neuron.weightedInput_ n) (Neuron.bias_ n))))).
Proof.
  intros Hlen. revert i. induction neurons as [|n ns IH]; intros i Hw;
    cbn [Layer.gradientLoop].
  - exists []. split; [reflexivity|]. split; [reflexivity|].
    intros [|j] m E; discriminate E.
  - rewrite weightedDeltas_fold;
      [|exact Hlen|eapply Forall_impl; [|exact Hw]; cbn; intros w Hl; lia].
    cbn [bind]. destruct (IH (S i)) as [r [Er [Lr Hr]]].
    { eapply Forall_impl; [|exact Hw]. cbn. intros w Hl. lia. }
    rewrite Er. cbn [bind]. eexists. split; [reflexivity|].
    split; [cbn; congruence|].
    intros [|j] m E; cbn in E |- *.
    + inversion E; subst. rewrite Nat.add_0_r. reflexivity.
    + rewrite (Hr j m E). replace (i + S j) with (S i + j) by lia. reflexivity.
Qed.

(** X23: with as many deltas as weight vectors of the next layer, each at
    least as long as the layer, [computeGradients] sets the delta of unit
    [i] to (Σ_j nextDelta_j × nextWeights_j[i]) × f'(weightedInput_i +
    bias_i), the sum taken from the left starting at [T{0}], and changes
    nothing else. *)
Theorem X23_computeGradients_formula (l : Layer.t T) (nextLayerDeltas : list T)
  (nextLayerWeights : list (list T)) :
  length nextLayerDeltas = length nextLayerWeights ->
  Forall (fun w => Layer.getSize l <= length w) nextLayerWeights ->
  exists l',
    Layer.computeGradients mode l nextLayerDeltas nextLayerWeights = Ok l' /\
    Layer.setNeurons l' [] = Layer.setNeurons l [] /\
    Layer.getSize l' = Layer.getSize l /\
    forall i n, nth_error (Layer.neurons_ l) i = Some n ->
      nth_error (Layer.neurons_ l') i
      = Some (Neuron.setDelta n
                (mul (propagated nextLayerDeltas nextLayerWeights i)
                     (ActivationFactory.getDerivative (Layer.activationType_ l)
                        (add (Neuron.weightedInput_ n) (Neuron.bias_ n))))).
Proof.
  intros Hlen Hw. unfold Layer.computeGradients.
  rewrite Hlen, Nat.eqb_refl, NNV_ASSERT_true. cbn [bind].
  destruct (@gradientLoop_formula
              (ActivationFactory.getDerivative (Layer.activationType_ l))
              nextLayerDeltas nextLayerWeights 0 (Layer.neurons_ l))
    as [r [Er [Lr Hr]]]; [lia|exact Hw|].
  rewrite Er. cbn [bind]. eexists. split; [reflexivity|].
  split; [reflexivity|]. split; [exact Lr|]. exact Hr.
Qed.
End GradientProperties.

(** ** Dropout *)

Section DropoutProperties.
Context {T : Type} `{Scalar T} `{Libm T}.
Variable uniform01 : nat -> T.

Lemma dropoutLoop_formula (keepProb : T) (mask : list bool) (neurons : list (Neuron.t T))
  (k : nat) :
  length mask <= length neurons ->
  exists mask' neurons',
    Layer.dropoutLoop uniform01 keepProb mask neurons k
    = Ok (mask', neurons', k + length mask) /\
    mask' = map (fun i => ltb (uniform01 i) keepProb) (seq k (length mask)) /\
    length neurons' = length neurons /\
    forall i n, nth_error neurons i = Some n ->
      nth_error neurons' i
      = Some (if Nat.ltb i (length mask) then
                if ltb (uniform01 (k + i)) keepProb
                then Neuron.setActivation n (div (Neuron.activation_ n) keepProb)
                else Neuron.setActivation n zero
              else n).
Proof.
  revert neurons k. induction mask as [|m ms IH]; intros neurons k Hlen;
    cbn [Layer.dropoutLoop length].
  - exists [], neurons. rewrite Nat.add_0_r. repeat split; auto.
  - destruct neurons as [|n ns]; [cbn in Hlen; lia|].
    destruct (IH ns (S k)) as [mask' [neurons' [E [Em [Ln Hn]]]]]; [cbn in Hlen; lia|].
    rewrite E. cbn [bind fst snd]. eexists. eexists.
    split; [f_equal; f_equal; lia|].
    split; [cbn [seq map]; rewrite Em; reflexivity|].
    split; [cbn; congruence|].
    intros [|i] u Hu; cbn in Hu.
    + inversion Hu; subst. cbn [nth_error]. rewrite Nat.add_0_r.
      change (Nat.ltb 0 (S (length ms))) with true. cbn iota. reflexivity.
    + cbn [nth_error]. rewrite (Hn i u Hu).
      change (Nat.ltb (S i) (S (length ms))) with (Nat.ltb i (length ms)).
      replace (S k + i) with (k + S i) by lia. reflexivity.
Qed.

(** X24: [applyDropout] outside training, or with a rate that is not
    positive, only sets every entry of the dropout mask and draws nothing;
    in training with a positive rate it draws one value per mask entry,
    records in the mask whether the value is below [1 - rate], and divides
    the activation of a kept unit by [1 - rate] and sets that of a dropped
    unit to [T{0}]; nothing else changes. *)
Theorem X24_applyDropout_effect (training : bool) (l : Layer.t T) (k : nat) :
  length (Layer.dropoutMask_ l) <= Layer.getSize l ->
  (training = false \/ leb (Layer.dropoutRate_ l) zero = true ->
   Layer.applyDropout uniform01 training l k
   = Ok (Layer.setDropoutMask l (repeat true (length (Layer.dropoutMask_ l))), k)) /\
  (training = true -> leb (Layer.dropoutRate_ l) zero = false ->
   let keepProb := sub one (Layer.dropoutRate_ l) in
   exists l',
     Layer.applyDropout uniform01 training l k
     = Ok (l', k + length (Layer.dropoutMask_ l)) /\
     Layer.setDropoutMask (Layer.setNeurons l' []) []
     = Layer.setDropoutMask (Layer.setNeurons l []) [] /\
     Layer.getSize l' = Layer.getSize l /\
     Layer.dropoutMask_ l'
     = map (fun i => ltb (uniform01 i) keepProb)
           (seq k (length (Layer.dropoutMask_ l))) /\
     forall i n, nth_error (Layer.neurons_ l) i = Some n ->
       nth_error (Layer.neurons_ l') i
       = Some (if Nat.ltb i (length (Layer.dropoutMask_ l)) then
                 if ltb (uniform01 (k + i)) keepProb
                 then Neuron.setActivation n (div (Neuron.activation_ n) keepProb)
                 else Neuron.setActivation n zero
               else n)).
Proof.
  intros Hlen. unfold Layer.applyDropout. split.
  - intros Hc.
    replace (negb training || leb (Layer.dropoutRate_ l) zero) with true
      by (destruct Hc as [E|E]; rewrite E; [reflexivity|symmetry; apply orb_true_r]).
    f_equal. f_equal. f_equal. clear Hlen.
    induction (Layer.dropoutMask_ l) as [|m ms IH]; [reflexivity|].
    cbn. f_equal. exact IH.
  - intros Et Er. rewrite Et, Er. cbn [negb orb]. cbn zeta.
    destruct (@dropoutLoop_formula (sub one (Layer.dropoutRate_ l)) (Layer.dropoutMask_ l)
                (Layer.neurons_ l) k Hlen) as [mask' [neurons' [E [Em [Ln Hn]]]]].
    rewrite E. cbn [bind fst snd]. eexists. split; [reflexivity|].
    cbn [Layer.neurons_ Layer.dropoutMask_ Layer.setDropoutMask Layer.setNeurons].
    split; [reflexivity|]. split; [exact Ln|]. split; [exact Em|exact Hn].
Qed.
End DropoutProperties.

(** ** Documents with missing or surplus entries *)

Section DocumentProperties.
Context {T : Type} `{Scalar T} `{Libm T}.

Lemma lookup_insert_other (m : list (String.string * Json.t)) (k key : String.string)
  (v : Json.t) :
  String.eqb k key = false ->
  Json.lookup (Json.insert m k v) key = Json.lookup m key.
Proof.
  intros Hne. induction m as [|[k0 x] r IH]; cbn [Json.insert Json.lookup].
  - rewrite Hne. reflexivity.
  - destruct (String.eqb k0 k) eqn:E0; cbn [Json.lookup].
    + apply String.eqb_eq in E0. subst k0. rewrite Hne. reflexivity.
    + rewrite IH. reflexivity.
Qed.

Lemma set_other (json json' : Json.t) (k key : String.string) (v : Json.t) :
  Json.set json k v = Ok json' -> String.eqb k key = false ->
  Json.contains json' key = Json.contains json key /\
  Json.at_key json' key = Json.at_key json key.
Proof.
  intros E Hne. destruct json; try discriminate E; inversion E; subst;
    cbn [Json.contains Json.at_key Json.lookup].
  - rewrite Hne. auto.
  - rewrite (@lookup_insert_other _ _ _ _ Hne). auto.
Qed.

Lemma field_other {V O : Type} (json json' : Json.t) (k key : String.string) (v : Json.t)
  (get : Json.t -> Outcome V) (assign : O -> V -> Outcome O) (self : O) :
  Json.set json k v = Ok json' -> String.eqb k key = false ->
  Json.field json' key get assign self = Json.field json key get assign self.
Proof.
  intros E Hne. unfold Json.field.
  destruct (@set_other _ _ _ _ _ E Hne) as [E1 E2]. rewrite E1, E2. reflexivity.
Qed.

Lemma bind_ext {A B : Type} (m : Outcome A) (k k' : A -> Outcome B) :
  (forall a, k a = k' a) -> bind m k = bind m k'.
Proof. intros E. destruct m; cbn [bind]; auto. Qed.

(** X25: [Layer::fromJson] never reads the entry [size] that [toJson]
    writes: setting it to any value in a document changes nothing of what
    is loaded; the number of units is the number of elements of
    [neurons]. *)
Theorem X25_Layer_fromJson_ignores_size (json json' : Json.t) (v : Json.t) (l : Layer.t T) :
  Json.set json "size" v = Ok json' ->
  Layer.fromJson json' l = Layer.fromJson json l.
Proof.
  intros E. unfold Layer.fromJson.
  destruct (@set_other json json' "size" "neurons" v E eq_refl) as [E1 E2].
  rewrite E1, E2.
  repeat (rewrite (fun V O key get assign self =>
                     @field_other V O _ _ _ key _ get assign self E) by reflexivity;
          apply bind_ext; intros ?).
  reflexivity.
Qed.

(** X26: [fromJson] of a document that holds no key (an empty object, or
    a value that is not an object) returns and leaves the network, the
    layer or the unit exactly as it was. *)
Theorem X26_fromJson_without_keys (json : Json.t) :
  (forall key, Json.contains json key = false) ->
  (forall n : NeuralNetwork.t T, NeuralNetwork.fromJson json n = Ok n) /\
  (forall l : Layer.t T, Layer.fromJson json l = Ok l) /\
  (forall u : Neuron.t T, Neuron.fromJson json u = Ok u).
Proof.
  intros Hno. split; [|split]; intros x.
  - unfold NeuralNetwork.fromJson, Json.field. rewrite !Hno. reflexivity.
  - unfold Layer.fromJson, Json.field. rewrite !Hno. reflexivity.
  - unfold Neuron.fromJson, Json.field. rewrite !Hno. reflexivity.
Qed.
End DocumentProperties.

(** * The properties on [NeuralNetwork<double>] *)

Section OnDouble.
Import Examples.
#[local] Open Scope float_scope.

Lemma C2_forward_witness :
  exists outputs s',
    NeuralNetwork.forward Debug draws01 [1; 0]%float (start xorNet) = Ok (outputs, s') /\
    length outputs = 1%nat.
Proof.
  destruct (C2_forward Debug draws01 [1; 0]%float (start xorNet)) as [_ [_ Hrun]].
  apply (Hrun _ _ eq_refl eq_refl).
  vm_compute. repeat split; repeat constructor; discriminate.
Defined.

(** C2, as stated, fails: the input has the size of the first layer, and
    [forward] does not return, in either build, because the unit of the
    second layer has no weight for the unit before it. *)
Lemma C2_forward_counterexample :
  NeuralNetwork.layers_ mismatchedNet <> [] /\
  length [1]%float = Layer.getSize (hd wideUnit (NeuralNetwork.layers_ mismatchedNet)) /\
  NeuralNetwork.forward Debug draws01 [1]%float (start mismatchedNet) = AssertFailed /\
  NeuralNetwork.forward Release draws01 [1]%float (start mismatchedNet) = Undefined.
Proof.
  split; [discriminate|]. split; [reflexivity|]. split; vm_compute; reflexivity.
Qed.

Lemma C3_layer_forward_witness :
  Layer.forward Debug wideUnit [2; 3]%float
  = Ok (Layer.setNeurons wideUnit
          [Neuron.setWeightedInput (neuron 0 0 [1; 1]) (dotProduct [2; 3] [1; 1])%float]) /\
  Layer.forward Debug wideUnit [2]%float = AssertFailed.
Proof.
  destruct (C3_layer_forward Debug wideUnit [2; 3]%float) as [Hmatch _].
  destruct (C3_layer_forward Debug wideUnit [2]%float) as [_ Hmis].
  split.
  - apply Hmatch; [left; discriminate|repeat constructor].
  - apply Hmis. constructor. simpl. discriminate.
Defined.

(** C3, as stated, fails: with one input for a unit of two weights, a debug
    build stops on the assertion, and a release build returns as if nothing
    were wrong, the weighted input being [2 × 1]. *)
Lemma C3_layer_forward_counterexample :
  Layer.forward Debug wideUnit [2]%float = AssertFailed /\
  Layer.forward Release wideUnit [2]%float
  = Ok (Layer.setNeurons wideUnit [Neuron.setWeightedInput (neuron 0 0 [1; 1]) 2%float]).
Proof. split; vm_compute; reflexivity. Qed.

Lemma C4_predict_witness :
  exists outputs s',
    NeuralNetwork.predict Debug draws01 [1; 0]%float (start xorNet) = Ok (outputs, s') /\
    parameters (NeuralNetwork.self s') = parameters xorNet /\
    NeuralNetwork.isTraining_ (NeuralNetwork.self s') = false /\
    exists s'', NeuralNetwork.predict Debug draws01 [1; 0]%float s' = Ok (outputs, s'').
Proof.
  destruct (NeuralNetwork.predict Debug draws01 [1; 0]%float (start xorNet))
    as [[outputs s']| | | | |] eqn:E; try (vm_compute in E; discriminate E).
  exists outputs, s'. split; [reflexivity|].
  exact (C4_predict Debug draws01 [1; 0]%float (start xorNet) E).
Defined.

Lemma C5_createBatches_witness :
  exists batches,
    NeuralNetwork.createBatches 5 xorInputs xorTargets 3 = Ok batches /\
    batchesCover 3 batches xorInputs xorTargets.
Proof.
  apply (@C5_createBatches float xorInputs xorTargets 3%N 5).
  - split; [lia|reflexivity].
  - reflexivity.
  - reflexivity.
  - simpl. apply Nat.lt_succ_diag_r.
Defined.

Lemma C6_computeAccuracy_witness :
  NeuralNetwork.computeAccuracy [[0.75]; [0.25]; [0.125; 0.5]]%float [[1]; [1]; [0; 1]]%float
  = Ok (div (of_size 2) (of_size 3)).
Proof.
  refine (eq_trans (@C6_computeAccuracy float _ [[0.75]; [0.25]; [0.125; 0.5]]
                      [[1]; [1]; [0; 1]] _ _ _) _).
  - discriminate.
  - reflexivity.
  - repeat constructor; discriminate.
  - vm_compute. reflexivity.
Defined.

(** C6, as stated, fails: by [|round(output) - target| < 0.5] an output of 2
    for a target of 2, and an output of 0.5 for a target of 1, are correct;
    [computeAccuracy] counts neither. *)
Lemma C6_computeAccuracy_counterexample :
  roundedCorrect 2 2 = true /\
  roundedCorrect 0.5 1 = true /\
  NeuralNetwork.computeAccuracy [[2]]%float [[2]]%float = Ok 0%float /\
  NeuralNetwork.computeAccuracy [[0.5]]%float [[1]]%float = Ok 0%float.
Proof. repeat split; vm_compute; reflexivity. Qed.

Lemma C7_updateWeights_witness :
  Layer.updateWeights Debug wideUnit 0.5%float [2; 3]%float
  = Ok (Layer.setNeurons wideUnit [descended 0.5%float [2; 3]%float (neuron 0 0 [1; 1])]) /\
  Layer.updateWeights Debug (Layer.setTrainable wideUnit false) 0.5%float [2; 3]%float
  = Ok (Layer.setTrainable wideUnit false).
Proof.
  destruct (C7_updateWeights Debug wideUnit 0.5%float [2; 3]%float) as [Hon _].
  destruct (C7_updateWeights Debug (Layer.setTrainable wideUnit false) 0.5%float [2; 3]%float)
    as [_ Hoff].
  split.
  - apply Hon; [reflexivity|repeat constructor].
  - apply Hoff. reflexivity.
Defined.

Lemma C8_stop_latency_witness :
  (exists h s',
     NeuralNetwork.train Debug draws01 drawsIndex 5 stopInSecondEpoch 4 3 None None None
       xorInputs xorTargets (start xorNet) = Ok (h, s') /\
     length (NeuralNetwork.trainLoss h) = 2%nat) /\
  (exists h s',
     NeuralNetwork.train Debug draws01 drawsIndex 5 noStop 6 3 None None (Some stopBelowHalf)
       xorInputs xorTargets (start xorNet) = Ok (h, s') /\
     length (NeuralNetwork.trainLoss h) = 3%nat).
Proof.
  split.
  - destruct (NeuralNetwork.train Debug draws01 drawsIndex 5 stopInSecondEpoch 4 3
                None None None xorInputs xorTargets (start xorNet))
      as [[h s']| | | | |] eqn:E; try (vm_compute in E; discriminate E).
    exists h, s'. split; [reflexivity|].
    pose proof E as Eh. vm_compute in Eh. injection Eh as Eh _.
    apply C8_stop_latency in E. destruct E as [_ [_ Hexact]].
    apply (Hexact eq_refl 1%nat).
    + apply Nat.leb_le. reflexivity.
    + reflexivity.
    + intros [|e'] He'; [reflexivity|].
      apply Nat.leb_le in He'. discriminate He'.
  - destruct (NeuralNetwork.train Debug draws01 drawsIndex 5 noStop 6 3
                None None (Some stopBelowHalf) xorInputs xorTargets (start xorNet))
      as [[h s']| | | | |] eqn:E; try (vm_compute in E; discriminate E).
    exists h, s'. split; [reflexivity|].
    pose proof E as Eh. vm_compute in Eh. injection Eh as Eh _.
    apply C8_stop_latency in E. destruct E as [_ [_ Hexact]].
    apply (Hexact eq_refl 2%nat).
    + apply Nat.leb_le. reflexivity.
    + rewrite <- Eh. vm_compute. reflexivity.
    + intros [|[|e']] He'; [rewrite <- Eh; vm_compute; reflexivity
                           |rewrite <- Eh; vm_compute; reflexivity|].
      apply Nat.leb_le in He'. discriminate He'.
Defined.

(** C8, as stated, fails: [stopTraining()] sets [shouldStop_] during [train],
    after [isTraining_.store(true)]; [train] then clears the flag and runs
    all four epochs. *)
Lemma C8_stop_latency_counterexample :
  exists h s',
    NeuralNetwork.train Debug draws01 drawsIndex 5 stopOnEntry 4 3 None None None
      xorInputs xorTargets (start xorNet) = Ok (h, s') /\
    length (NeuralNetwork.trainLoss h) = 4%nat.
Proof.
  destruct (NeuralNetwork.train Debug draws01 drawsIndex 5 stopOnEntry 4 3 None None None
              xorInputs xorTargets (start xorNet))
    as [[h s']| | | | |] eqn:E; try (vm_compute in E; discriminate E).
  exists h, s'. split; [reflexivity|].
  vm_compute in E. inversion E. reflexivity.
Qed.

Lemma C9_train_returns_witness :
  exists h s',
    NeuralNetwork.train Debug draws01 drawsIndex 5 stopInSecondEpoch 4 3 None None None
      xorInputs xorTargets (start xorNet) = Ok (h, s') /\
    NeuralNetwork.isTraining (NeuralNetwork.self s') = false /\
    NeuralNetwork.getTrainingProgress (NeuralNetwork.self s') = 1%float.
Proof.
  destruct (NeuralNetwork.train Debug draws01 drawsIndex 5 stopInSecondEpoch 4 3 None None None
              xorInputs xorTargets (start xorNet))
    as [[h s']| | | | |] eqn:E; try (vm_compute in E; discriminate E).
  exists h, s'. split; [reflexivity|].
  apply C9_train_returns in E. exact E.
Defined.


Lemma X1_predict_feedForward_witness :
  exists s',
    NeuralNetwork.predict Debug draws01 [1; 0]%float (start xorNet)
    = Ok (feedForward [1; 0]%float (tl (NeuralNetwork.layers_ xorNet)), s') /\
    NeuralNetwork.drawn s' = 0%nat /\
    NeuralNetwork.logged s' = [].
Proof.
  apply (X1_predict_feedForward Debug draws01 [1; 0]%float (start xorNet)
           (input := hd wideUnit (NeuralNetwork.layers_ xorNet))
           (rest := tl (NeuralNetwork.layers_ xorNet))).
  - reflexivity.
  - reflexivity.
  - vm_compute. repeat split; repeat constructor; discriminate.
Defined.

Lemma X2_train_keeps_witness :
  exists h s',
    NeuralNetwork.train Debug draws01 drawsIndex 5 noStop 4 3 None None None
      xorInputs xorTargets (start xorNet) = Ok (h, s') /\
    trainingKeeps xorNet (NeuralNetwork.self s').
Proof.
  destruct (NeuralNetwork.train Debug draws01 drawsIndex 5 noStop 4 3 None None None
              xorInputs xorTargets (start xorNet))
    as [[h s']| | | | |] eqn:E; try (vm_compute in E; discriminate E).
  exists h, s'. split; [reflexivity|].
  apply X2_train_keeps in E. exact E.
Defined.

Lemma X3_train_total_witness :
  exists h s',
    NeuralNetwork.train Debug draws01 drawsIndex 5 noStop 4 3 None None None
      xorInputs xorTargets (start xorNet) = Ok (h, s') /\
    fits 2 1 (NeuralNetwork.self s').
Proof.
  apply X3_train_total.
  - split; [lia|reflexivity].
  - intros vi vt E. discriminate E.
  - exists (hd wideUnit (NeuralNetwork.layers_ xorNet)), (tl (NeuralNetwork.layers_ xorNet)).
    split; [reflexivity|]. split; [reflexivity|]. split; [|reflexivity].
    vm_compute. repeat split; repeat constructor; discriminate.
  - unfold trainable. repeat split; repeat constructor.
  - reflexivity.
  - simpl. lia.
Defined.

Lemma X4_trainSample_wrong_width_witness :
  NeuralNetwork.trainSample Release draws01 [1]%float [0]%float (start xorNet) = Undefined.
Proof.
  apply (X4_trainSample_wrong_width Release draws01 [1]%float [0]%float (start xorNet)
           (input := hd wideUnit (NeuralNetwork.layers_ xorNet))
           (rest := tl (NeuralNetwork.layers_ xorNet))).
  - reflexivity.
  - discriminate.
  - discriminate.
  - discriminate.
Defined.

Lemma X6_train_history_witness :
  exists h s',
    NeuralNetwork.train Debug draws01 drawsIndex 5 noStop 2 3 None None (Some stopBelowHalf)
      xorInputs xorTargets (start xorNet) = Ok (h, s') /\
    recorded false 2 h.
Proof.
  destruct (NeuralNetwork.train Debug draws01 drawsIndex 5 noStop 2 3
              None None (Some stopBelowHalf) xorInputs xorTargets (start xorNet))
    as [[h s']| | | | |] eqn:E; try (vm_compute in E; discriminate E).
  exists h, s'. split; [reflexivity|].
  pose proof E as Eh. vm_compute in Eh. injection Eh as Eh _.
  destruct (X6_train_history _ _ _ _ _ _ _ _ _ _ _ _ _ E) as [k [Hk [_ Hall]]].
  rewrite <- (Hall eq_refl); [exact Hk|].
  intros [|[|e]] He; [rewrite <- Eh; vm_compute; reflexivity
                     |rewrite <- Eh; vm_compute; reflexivity|].
  apply Nat.leb_le in He. discriminate He.
Defined.

Lemma X7_train_empty_dataset_witness :
  exists s',
    NeuralNetwork.train Debug draws01 drawsIndex 5 noStop 4 3 None None (Some stopBelowHalf)
      [] xorTargets (start xorNet)
    = Ok (NeuralNetwork.mkHistory (repeat (div zero (of_size 0)) 4) (repeat zero 4) [] [],
          s') /\
    NeuralNetwork.layers_ (NeuralNetwork.self s') = NeuralNetwork.layers_ xorNet.
Proof.
  apply (@X7_train_empty_dataset float _ _ Debug draws01 drawsIndex 5 noStop 4 3
           None None (Some stopBelowHalf)).
  - lia.
  - intros e. reflexivity.
  - intros callback e Hc. injection Hc as <-. vm_compute. reflexivity.
  - reflexivity.
  - reflexivity.
Defined.

Lemma X10_addLayer_wellFormed_witness :
  exists layer' s',
    NeuralNetwork.addLayer drawsUniform drawsNormal wideUnit (start xorNet) = Ok (tt, s') /\
    NeuralNetwork.layers_ (NeuralNetwork.self s') = NeuralNetwork.layers_ xorNet ++ [layer'] /\
    reinitialized wideUnit layer' /\
    (NeuralNetwork.layers_ xorNet = [] -> layer' = wideUnit) /\
    wellFormed (NeuralNetwork.self s').
Proof.
  apply (@X10_addLayer_wellFormed float _ _ drawsUniform drawsNormal wideUnit (start xorNet)).
  - vm_compute. repeat split; repeat constructor; discriminate.
  - split; [discriminate|]. simpl. lia.
Defined.

Lemma X11_makeFromConfig_builds_witness :
  exists s',
    NeuralNetwork.makeFromConfig drawsUniform drawsNormal xorConfig (start xorNet)
    = Ok (tt, s') /\
    Forall2 configured (NetworkConfig.layers xorConfig)
            (NeuralNetwork.layers_ (NeuralNetwork.self s')) /\
    wellFormed (NeuralNetwork.self s').
Proof.
  destruct (@X11_makeFromConfig_builds float _ _ drawsUniform drawsNormal xorConfig
              (start xorNet)) as [s' [E [Hc [Hw _]]]].
  - repeat constructor.
  - exists s'. split; [exact E|]. split; [exact Hc|exact Hw].
Defined.

Lemma X12_initializeWeights_wellFormed_witness :
  exists s',
    NeuralNetwork.initializeWeights drawsUniform drawsNormal InitializationType.He
      (start mismatchedNet) = Ok (tt, s') /\
    wellFormed (NeuralNetwork.self s') /\
    Forall2 reinitialized (NeuralNetwork.layers_ mismatchedNet)
                          (NeuralNetwork.layers_ (NeuralNetwork.self s')) /\
    hd_error (NeuralNetwork.layers_ (NeuralNetwork.self s'))
    = hd_error (NeuralNetwork.layers_ mismatchedNet).
Proof.
  apply (@X12_initializeWeights_wellFormed float _ _ drawsUniform drawsNormal
           InitializationType.He (start mismatchedNet)).
  repeat constructor. discriminate.
Defined.

Lemma X13_removeLayer_wellFormed_witness :
  exists s',
    NeuralNetwork.removeLayer drawsUniform drawsNormal 1 (start xorNet) = Ok (tt, s') /\
    wellFormed (NeuralNetwork.self s') /\
    length (NeuralNetwork.layers_ (NeuralNetwork.self s')) = 2%nat.
Proof.
  destruct (@X13_removeLayer_wellFormed float _ _ drawsUniform drawsNormal 1 (start xorNet))
    as [s' [E [Hw [_ Hin]]]].
  - vm_compute. repeat split; repeat constructor; discriminate.
  - exists s'. split; [exact E|]. split; [exact Hw|].
    destruct Hin as [Hr _]; [simpl; lia|].
    apply Forall2_length in Hr. rewrite <- Hr. reflexivity.
Defined.

Lemma X14_reset_keeps_function_witness :
  exists s1 s2,
    NeuralNetwork.reset (start xorNet) = Ok (tt, s1) /\
    parameters (NeuralNetwork.self s1) = parameters xorNet /\
    NeuralNetwork.predict Debug draws01 [1; 0]%float s1
    = Ok (feedForward [1; 0]%float (tl (NeuralNetwork.layers_ xorNet)), s2).
Proof.
  destruct (@X14_reset_keeps_function float _ _ Debug draws01 [1; 0]%float (start xorNet)
              (hd wideUnit (NeuralNetwork.layers_ xorNet))
              (tl (NeuralNetwork.layers_ xorNet)))
    as [s1 [s2 [E [Hp [_ [_ [_ [_ [_ Hq]]]]]]]]].
  - reflexivity.
  - reflexivity.
  - vm_compute. repeat split; repeat constructor; discriminate.
  - exists s1, s2. split; [exact E|]. split; [exact Hp|exact Hq].
Defined.

Lemma X16_layer_setters_mismatch_witness :
  Layer.setBiases Debug wideUnit [] = AssertFailed /\
  Layer.setBiases Release wideUnit [] = Undefined.
Proof.
  split.
  - apply (@X16_layer_setters_mismatch float Debug wideUnit []). discriminate.
  - apply (@X16_layer_setters_mismatch float Release wideUnit []). discriminate.
Defined.

Lemma X21_oneHotEncode_rows_witness :
  exists encoded,
    DataLoader.oneHotEncode (T := float) [2; 0; 1]%Z 0 = Ok encoded /\
    length encoded = 3%nat.
Proof.
  destruct (@X21_oneHotEncode_rows float _ 2%Z [0; 1]%Z 0%Z) as [_ Hrows].
  - intros _. reflexivity.
  - destruct Hrows as [encoded [E [Hlen _]]]; [discriminate|].
    exists encoded. split; [exact E|exact Hlen].
Defined.

Lemma X23_computeGradients_formula_witness :
  exists l',
    Layer.computeGradients Debug wideUnit [1]%float [[1; -1.5]]%float = Ok l' /\
    Layer.getSize l' = 1%nat.
Proof.
  destruct (@X23_computeGradients_formula float _ _ Debug wideUnit [1]%float
              [[1; -1.5]]%float)
    as [l' [E [_ [Hs _]]]].
  - reflexivity.
  - repeat constructor.
  - exists l'. split; [exact E|exact Hs].
Defined.

Lemma X24_applyDropout_effect_witness :
  Layer.applyDropout draws01 false wideUnit 0
  = Ok (Layer.setDropoutMask wideUnit [true], 0%nat).
Proof.
  destruct (@X24_applyDropout_effect float _ draws01 false wideUnit 0) as [Hoff _].
  - apply le_n.
  - apply Hoff. left. reflexivity.
Defined.

Lemma X25_Layer_fromJson_ignores_size_witness :
  Layer.fromJson (Json.object [("size"%string, Json.number_unsigned 3)]) wideUnit
  = Layer.fromJson Json.null wideUnit.
Proof.
  apply (@X25_Layer_fromJson_ignores_size float _ Json.null _ (Json.number_unsigned 3)).
  reflexivity.
Defined.

Lemma X26_fromJson_without_keys_witness :
  NeuralNetwork.fromJson Json.null xorNet = Ok xorNet /\
  Layer.fromJson Json.null wideUnit = Ok wideUnit.
Proof.
  destruct (@X26_fromJson_without_keys float _ Json.null) as [Hn [Hl _]].
  - intros key. reflexivity.
  - split; [apply Hn|apply Hl].
Defined.
End OnDouble.
